(** * Dext: tool-retrieval broker

    A shallow embedding of the persistence layer ([VectorDatabase]), the
    catalog indexer ([VectorSearch]) and the two MCP tool handlers
    ([retriever], [executor]) of the broker, with the properties of its
    design document stated and settled against that embedding; then the
    remaining methods of the two classes, the recommender built on them
    ([ToolRecommender]) and the placeholder parser of the server
    configuration ([parseEnvVariable]), with properties read off the code.

    Conventions.
    - A JavaScript string is the list of its UTF-16 code units.
    - A JavaScript number that carries a score (distance, similarity,
      threshold) is a binary64 float; row ids and limits are integers.
    - What the program obtains from outside its own source (the MD5
      digest of Node's [crypto], the embedding endpoint, the cosine distance
      of the vector engine, a failing delete transaction, the clock of the
      storage engine, the environment variables) is a field of the record
      [Env]; the text of
      [Math.random().toString(36)] and the live catalog are arguments of
      the handlers. *)

From Stdlib Require Import List ZArith NArith Bool Ascii String Lia.
From Stdlib Require Import Permutation.
From Stdlib Require Import PrimFloat.
From Stdlib Require Floats.
Import ListNotations.

Set Implicit Arguments.
Set Warnings "-inexact-float".

(* ================================================================= *)
(** ** JavaScript strings *)

Module JS.

Definition jsstring := list N.

(** An ASCII literal as a JavaScript string. *)
Definition str (s : string) : jsstring :=
  map N_of_ascii (list_ascii_of_string s).

Definition eqb (a b : jsstring) : bool :=
  if list_eq_dec N.eq_dec a b then true else false.

(** ECMAScript [WhiteSpace] and [LineTerminator] code units, the ones
    [String.prototype.trim] removes: TAB, LF, VT, FF, CR, SP, NBSP,
    U+1680, U+2000..U+200A, LS, PS, U+202F, U+205F, U+3000 and the BOM. *)
Definition isWhiteSpace (c : N) : bool :=
  ((9 <=? c) && (c <=? 13)
   || (c =? 32) || (c =? 160) || (c =? 5760)
   || ((8192 <=? c) && (c <=? 8202))
   || (c =? 8232) || (c =? 8233) || (c =? 8239) || (c =? 8287)
   || (c =? 12288) || (c =? 65279))%N.

Fixpoint dropWhile (p : N -> bool) (s : jsstring) : jsstring :=
  match s with
  | [] => []
  | c :: s' => if p c then dropWhile p s' else s
  end.

Definition trimStart (s : jsstring) : jsstring := dropWhile isWhiteSpace s.

Definition trimEnd (s : jsstring) : jsstring :=
  rev (dropWhile isWhiteSpace (rev s)).

(** [String.prototype.trim]. *)
Definition trim (s : jsstring) : jsstring := trimEnd (trimStart s).

(** A template literal substitutes the text [undefined] for a missing
    value. *)
Definition template (x : option jsstring) : jsstring :=
  match x with
  | Some s => s
  | None => str "undefined"
  end.

(** [a || b] on optional strings: [undefined] and the empty string are
    falsy. *)
Definition or_else (a : option jsstring) (b : jsstring) : jsstring :=
  match a with
  | Some ((_ :: _) as s) => s
  | _ => b
  end.

(** [String.prototype.substring(from, to)] for [from <= to]. *)
Definition substring (from to : nat) (s : jsstring) : jsstring :=
  firstn (to - from) (skipn from s).

Fixpoint starts_with (prefix s : jsstring) : bool :=
  match prefix, s with
  | [], _ => true
  | p :: prefix', c :: s' => (p =? c)%N && starts_with prefix' s'
  | _ :: _, [] => false
  end.

(** [String.prototype.split(sep)] for a non-empty separator: [skip]
    counts the units of a matched separator still to be passed over and
    [cur] holds, reversed, the piece being read. *)
Fixpoint split_go (sep : jsstring) (skip : nat) (cur s : jsstring)
  : list jsstring :=
  match s with
  | [] => [rev cur]
  | c :: s' =>
      match skip with
      | S k => split_go sep k cur s'
      | O =>
          if starts_with sep s
          then rev cur :: split_go sep (List.length sep - 1) [] s'
          else split_go sep 0 (c :: cur) s'
      end
  end.

Definition split (sep s : jsstring) : list jsstring := split_go sep 0 [] s.

(** [Array.prototype.join(sep)]. *)
Fixpoint join (sep : jsstring) (parts : list jsstring) : jsstring :=
  match parts with
  | [] => []
  | [x] => x
  | x :: rest => x ++ sep ++ join sep rest
  end.

(** Strict lexicographic order. *)
Fixpoint ltb (a b : list N) : bool :=
  match a, b with
  | _, [] => false
  | [], _ :: _ => true
  | x :: a', y :: b' => (x <? y)%N || ((x =? y)%N && ltb a' b')
  end.

(** The digits of [Number.prototype.toString(36)]. *)
Definition is_base36_digit (c : N) : bool :=
  ((48 <=? c) && (c <=? 57) || (97 <=? c) && (c <=? 122))%N.

Definition digit36 (c : N) : Z :=
  if ((48 <=? c) && (c <=? 57))%N then Z.of_N c - 48 else Z.of_N c - 87.

(** The fraction a run of base-36 digits after the point denotes, as a
    numerator over [36 ^ length]. *)
Definition fraction36 (digits : jsstring) : Z * Z :=
  (fold_left (fun acc c => 36 * acc + digit36 c)%Z digits 0%Z,
   (36 ^ Z.of_nat (List.length digits))%Z).

End JS.

Import JS.

(* ================================================================= *)
(** ** Tool identity *)

Section Identity.

(** [crypto.createHash("md5").update(text, "utf8").digest("hex")]. *)
Variable md5hex : jsstring -> jsstring.

(** [VectorDatabase.generateToolMD5]; a caller that omits the
    description passes the empty string. *)
Definition generateToolMD5 (toolName description : jsstring) : jsstring :=
  let text := trim (toolName ++ description) in
  md5hex text.

End Identity.

(* ================================================================= *)
(** ** The world outside the program *)

Definition vector := list float.

(** The result of a call that may throw. *)
Inductive Outcome (A : Type) : Type :=
| Returned (a : A)
| Thrown (message : jsstring).

Arguments Returned {A} a.
Arguments Thrown {A} message.

Definition bind {A B : Type} (x : Outcome A) (f : A -> Outcome B) : Outcome B :=
  match x with
  | Returned a => f a
  | Thrown m => Thrown m
  end.

Notation "x <- c ;; k" := (bind c (fun x => k))
  (at level 61, c at next level, right associativity).

(** What the broker is configured with and what it calls but does not
    implement.  [JValue] is the type of the structured values that pass
    through unchanged (schemas, parameters, upstream results) and
    [JSON_stringify] their serialisation, [None] standing for [undefined].
    [vectorizeString] throws when the embedding request fails.
    [vec_distance_cosine] is the scalar function of the vector engine,
    applied to a stored vector and to the query (the conversion of the
    query to [Float32Array] belongs to it).  [delete_fault] tells whether
    the storage engine fails the delete transaction for a given identity;
    every other statement is taken to succeed.  [CURRENT_TIMESTAMP n] is
    the second the clock of the engine shows when the [INSERT] that draws
    the id [n] of [session_tool_history] runs.  [toFixed4] is
    [Number(x.toFixed(4))].  The retrieval parameters are the values the
    handler parses from its environment (5 and 0.1 when unset). *)
Record Env : Type := {
  JValue : Type;
  JSON_stringify : JValue -> option jsstring;
  md5hex : jsstring -> jsstring;
  vectorizeString : jsstring -> Outcome vector;
  vec_distance_cosine : vector -> vector -> float;
  delete_fault : jsstring -> bool;
  CURRENT_TIMESTAMP : Z -> Z;
  toFixed4 : float -> float;
  EMBEDDING_MODEL_NAME : option jsstring;
  TOOL_RETRIEVER_TOP_K : Z;
  TOOL_RETRIEVER_THRESHOLD : float
}.

(* ================================================================= *)
(** ** Persisted state: [database_schema.sql] *)

(** A row of [tool_vectors] (time stamps are not modelled). *)
Record ToolVector := {
  tv_id : Z;
  tv_tool_md5 : jsstring;
  tv_model_name : jsstring;
  tv_tool_name : jsstring;
  tv_description : option jsstring
}.

(** A row of [session_tool_history]; [sh_retrieved_at] counts seconds. *)
Record SessionToolHistory := {
  sh_id : Z;
  sh_session_id : jsstring;
  sh_tool_md5 : jsstring;
  sh_tool_name : jsstring;
  sh_retrieved_at : Z
}.

(** A row of [mcp_servers], with the columns the broker core reads. *)
Record MCPServerConfig := {
  server_name : jsstring;
  server_description : option jsstring;
  enabled : Z
}.

(** The database file.  Tables are lists of rows in insertion order.
    [tool_vectors_seq] is the AUTOINCREMENT high-water mark of
    [tool_vectors]; [vec_seq] is the largest rowid the vector table has
    handed out; [session_seq] is the AUTOINCREMENT mark of
    [session_tool_history], the last id an [INSERT] into it has drawn. *)
Record Database := {
  tool_vectors : list ToolVector;
  tool_vectors_seq : Z;
  vec_tool_embeddings : list (Z * vector);
  vec_seq : Z;
  tool_mapping : list (Z * Z);
  session_tool_history : list SessionToolHistory;
  session_seq : Z;
  mcp_servers : list MCPServerConfig
}.

Definition empty_db : Database :=
  {| tool_vectors := []; tool_vectors_seq := 0;
     vec_tool_embeddings := []; vec_seq := 0;
     tool_mapping := []; session_tool_history := []; session_seq := 0;
     mcp_servers := [] |}.

(** A row returned by the similarity search. *)
Record SearchResult := {
  sr_id : Z;
  sr_tool_md5 : jsstring;
  sr_model_name : jsstring;
  sr_tool_name : jsstring;
  sr_description : option jsstring;
  sr_distance : float;
  sr_similarity : float
}.

(** The mapping rows of a record. *)
Definition mappings_of (db : Database) (tid : Z) : list (Z * Z) :=
  filter (fun m => (snd m =? tid)%Z) (tool_mapping db).

(* ----------------------------------------------------------------- *)
(** *** The SQL [LIKE] operator *)

Module Sql.

(** [LIKE] folds the case of ASCII letters only. *)
Definition upper (c : N) : N :=
  if ((97 <=? c) && (c <=? 122))%N then (c - 32)%N else c.

Definition is_high_surrogate (c : N) : bool := ((55296 <=? c) && (c <=? 56319))%N.
Definition is_low_surrogate (c : N) : bool := ((56320 <=? c) && (c <=? 57343))%N.

(** [x LIKE pattern] without an ESCAPE clause: [%] (37) matches any run
    of characters, [_] (95) matches exactly one character, any other
    pattern character matches itself up to ASCII case.  A character is a
    code point: a surrogate pair counts once. *)
Fixpoint like (pattern : jsstring) : jsstring -> bool :=
  match pattern with
  | [] => fun x => match x with [] => true | _ => false end
  | 37%N :: rest =>
      fix any (x : jsstring) : bool :=
        like rest x
        || match x with
           | [] => false
           | c :: x' =>
               match x' with
               | d :: x'' =>
                   if is_high_surrogate c && is_low_surrogate d
                   then any x'' else any x'
               | [] => any x'
               end
           end
  | 95%N :: rest =>
      fun x =>
        match x with
        | [] => false
        | c :: x' =>
            match x' with
            | d :: x'' =>
                if is_high_surrogate c && is_low_surrogate d
                then like rest x'' else like rest x'
            | [] => like rest x'
            end
        end
  | pc :: rest =>
      fun x =>
        match x with
        | [] => false
        | c :: x' => (upper pc =? upper c)%N && like rest x'
        end
  end.

(** The code points of a text: a surrogate pair is one code point. *)
Fixpoint code_points (s : jsstring) : list N :=
  match s with
  | [] => []
  | c :: s' =>
      match s' with
      | d :: s'' =>
          if is_high_surrogate c && is_low_surrogate d
          then (65536 + (c - 55296) * 1024 + (d - 56320))%N :: code_points s''
          else c :: code_points s'
      | [] => [c]
      end
  end.

(** The order of [ORDER BY] on a text column: the engine compares the
    UTF-8 bytes of the texts, which orders them by code point. *)
Definition binary_ltb (a b : jsstring) : bool :=
  JS.ltb (code_points a) (code_points b).

(** [LIMIT n]: a negative bound means no bound. *)
Definition limit {A : Type} (n : Z) (rows : list A) : list A :=
  if (n <? 0)%Z then rows else firstn (Z.to_nat n) rows.

End Sql.

(* ----------------------------------------------------------------- *)
(** *** [VectorDatabase]: tools and vectors *)

Section VectorDatabase.

Variable E : Env.

(** [SELECT id FROM tool_vectors WHERE tool_md5 = ? AND model_name = ?]. *)
Definition md5_model_match (toolMD5 modelName : jsstring) (r : ToolVector) : bool :=
  JS.eqb (tv_tool_md5 r) toolMD5 && JS.eqb (tv_model_name r) modelName.

(** [VectorDatabase.getToolByMD5]: the first matching row, if any. *)
Definition getToolByMD5 (db : Database) (toolMD5 modelName : jsstring)
  : option ToolVector :=
  find (md5_model_match toolMD5 modelName) (tool_vectors db).

(** [UPDATE tool_vectors SET tool_name = ?, description = ? WHERE id = ?]. *)
Definition update_tool (tid : Z) (toolName description : jsstring)
    (r : ToolVector) : ToolVector :=
  if (tv_id r =? tid)%Z
  then {| tv_id := tv_id r; tv_tool_md5 := tv_tool_md5 r;
          tv_model_name := tv_model_name r;
          tv_tool_name := toolName; tv_description := Some description |}
  else r.

(** [VectorDatabase.saveToolVector]: update or insert the record, then
    insert the vector under a fresh rowid, then
    [INSERT OR REPLACE INTO tool_mapping (rowid, tool_id)]: the row of
    [tool_mapping] with that rowid, if there is one, is replaced. *)
Definition saveToolVector (db : Database) (toolName description : jsstring)
    (v : vector) (modelName : jsstring) : Database * Z :=
  let toolMD5 := generateToolMD5 (md5hex E) toolName description in
  let existing := getToolByMD5 db toolMD5 modelName in
  let '(records, seq, toolId) :=
    match existing with
    | Some row =>
        (map (update_tool (tv_id row) toolName description) (tool_vectors db),
         tool_vectors_seq db, tv_id row)
    | None =>
        let i := (tool_vectors_seq db + 1)%Z in
        (tool_vectors db ++
           [{| tv_id := i; tv_tool_md5 := toolMD5; tv_model_name := modelName;
               tv_tool_name := toolName; tv_description := Some description |}],
         i, i)
    end in
  let vecRowId := (vec_seq db + 1)%Z in
  ({| tool_vectors := records;
      tool_vectors_seq := seq;
      vec_tool_embeddings := vec_tool_embeddings db ++ [(vecRowId, v)];
      vec_seq := vecRowId;
      tool_mapping :=
        filter (fun m => negb (fst m =? vecRowId)%Z) (tool_mapping db)
        ++ [(vecRowId, toolId)];
      session_tool_history := session_tool_history db;
      session_seq := session_seq db;
      mcp_servers := mcp_servers db |},
   toolId).

(** A tool handed to the batch save. *)
Record ToolData := {
  td_toolName : jsstring;
  td_description : jsstring;
  td_vector : vector
}.

(** [VectorDatabase.saveToolVectorsBatch]: one transaction that saves the
    tools in order. *)
Fixpoint saveToolVectorsBatch (db : Database) (toolsData : list ToolData)
    (modelName : jsstring) : Database * list Z :=
  match toolsData with
  | [] => (db, [])
  | t :: rest =>
      let '(db1, i) :=
        saveToolVector db (td_toolName t) (td_description t) (td_vector t)
          modelName in
      let '(db2, ids) := saveToolVectorsBatch db1 rest modelName in
      (db2, i :: ids)
  end.

(** The row the search builds from a vector and the record it is mapped
    to: the columns of the record, the distance of the vector to the query
    and the similarity [1.0 - distance]. *)
Definition joined_row (queryVector : vector) (vte : Z * vector) (tv : ToolVector)
  : SearchResult :=
  let d := vec_distance_cosine E (snd vte) queryVector in
  {| sr_id := tv_id tv; sr_tool_md5 := tv_tool_md5 tv;
     sr_model_name := tv_model_name tv;
     sr_tool_name := tv_tool_name tv;
     sr_description := tv_description tv;
     sr_distance := d; sr_similarity := (1 - d)%float |}.

(** The rows of
    [vec_tool_embeddings vte JOIN tool_mapping tm ON vte.rowid = tm.rowid
     JOIN tool_vectors tv ON tm.tool_id = tv.id]. *)
Definition joined_rows (db : Database) (queryVector : vector)
  : list SearchResult :=
  flat_map (fun vte =>
    flat_map (fun tm =>
      if (fst vte =? fst tm)%Z then
        flat_map (fun tv =>
          if (snd tm =? tv_id tv)%Z then [joined_row queryVector vte tv]
          else []) (tool_vectors db)
      else []) (tool_mapping db))
    (vec_tool_embeddings db).

(** [ORDER BY distance ASC], as a stable insertion sort: rows at the
    same distance stay in the order of the join. *)
Fixpoint insert_by_distance (r : SearchResult) (rows : list SearchResult)
  : list SearchResult :=
  match rows with
  | [] => [r]
  | x :: rest =>
      if PrimFloat.ltb (sr_distance x) (sr_distance r)
      then x :: insert_by_distance r rest
      else r :: rows
  end.

Definition order_by_distance (rows : list SearchResult) : list SearchResult :=
  fold_right insert_by_distance [] rows.

(** The server conditions: [tv.tool_name LIKE ?] for each parameter
    [`${serverName}__%`], joined by OR. *)
Definition server_condition (serverNames : list jsstring) (r : SearchResult)
  : bool :=
  existsb (fun serverName => Sql.like (serverName ++ str "__%") (sr_tool_name r))
    serverNames.

(** [VectorDatabase.searchSimilarVectors]. *)
Definition searchSimilarVectors (db : Database) (queryVector : vector)
    (limit : Z) (threshold : float) (serverNames : option (list jsstring))
  : list SearchResult :=
  let above r := PrimFloat.leb threshold (sr_similarity r) in
  let wanted :=
    match serverNames with
    | Some ((_ :: _) as names) =>
        fun r => above r && server_condition names r
    | _ => above
    end in
  Sql.limit limit (order_by_distance (filter wanted (joined_rows db queryVector))).

(** The records [deleteToolVector] selects: by identity and model, or by
    identity alone when the model name is absent or empty. *)
Definition delete_selection (toolMD5 : jsstring) (modelName : option jsstring)
  : ToolVector -> bool :=
  match modelName with
  | Some ((_ :: _) as m) => md5_model_match toolMD5 m
  | _ => fun r => JS.eqb (tv_tool_md5 r) toolMD5
  end.

(** The transaction of [VectorDatabase.deleteToolVector]: find the ids of
    the records, delete the vectors their mapping rows point to, delete
    the mapping rows, delete the records. *)
Definition deleteToolVector_tx (db : Database) (toolMD5 : jsstring)
    (modelName : option jsstring) : Database * Z :=
  let selected := delete_selection toolMD5 modelName in
  let toolIds := map tv_id (filter selected (tool_vectors db)) in
  match toolIds with
  | [] => (db, 0%Z)
  | _ =>
      let is_tool m := existsb (Z.eqb (snd m)) toolIds in
      let rowids := map fst (filter is_tool (tool_mapping db)) in
      ({| tool_vectors := filter (fun r => negb (selected r)) (tool_vectors db);
          tool_vectors_seq := tool_vectors_seq db;
          vec_tool_embeddings :=
            filter (fun vte => negb (existsb (Z.eqb (fst vte)) rowids))
              (vec_tool_embeddings db);
          vec_seq := vec_seq db;
          tool_mapping := filter (fun m => negb (is_tool m)) (tool_mapping db);
          session_tool_history := session_tool_history db;
          session_seq := session_seq db;
          mcp_servers := mcp_servers db |},
       Z.of_nat (List.length (filter selected (tool_vectors db))))
  end.

(** [VectorDatabase.deleteToolVector]: [None] when the transaction fails
    and the method throws; the database is then as it was. *)
Definition deleteToolVector (db : Database) (toolMD5 : jsstring)
    (modelName : option jsstring) : option (Database * Z) :=
  if delete_fault E toolMD5 then None
  else Some (deleteToolVector_tx db toolMD5 modelName).

(* ----------------------------------------------------------------- *)
(** *** [VectorDatabase]: session history *)

(** [ORDER BY retrieved_at DESC]: a row goes behind the rows of a later
    second; rows of one second stay in the order of the scan. *)
Fixpoint insert_by_time (r : SessionToolHistory) (rows : list SessionToolHistory)
  : list SessionToolHistory :=
  match rows with
  | [] => [r]
  | x :: rest =>
      if (sh_retrieved_at r <? sh_retrieved_at x)%Z
      then x :: insert_by_time r rest
      else r :: rows
  end.

(** [VectorDatabase.getSessionHistory]: the rows of the session, those of
    the latest second first. *)
Definition getSessionHistory (db : Database) (sessionId : jsstring)
  : list SessionToolHistory :=
  fold_right insert_by_time []
    (filter (fun r => JS.eqb (sh_session_id r) sessionId)
       (session_tool_history db)).

(** [VectorDatabase.isToolRetrievedBySession]. *)
Definition isToolRetrievedBySession (db : Database) (sessionId toolMD5 : jsstring)
  : bool :=
  existsb (fun r => JS.eqb (sh_session_id r) sessionId
                    && JS.eqb (sh_tool_md5 r) toolMD5)
    (session_tool_history db).

(** [VectorDatabase.recordSessionToolRetrieval]:
    [INSERT OR IGNORE] under [UNIQUE(session_id, tool_md5)]; the new rowid,
    or [None] when the pair was there already.  The statement draws the
    next id before it meets the constraint, so that an insert that is
    ignored moves the AUTOINCREMENT mark as well. *)
Definition recordSessionToolRetrieval (db : Database)
    (sessionId toolMD5 toolName : jsstring) : Database * option Z :=
  let i := (session_seq db + 1)%Z in
  let ignored := isToolRetrievedBySession db sessionId toolMD5 in
  ({| tool_vectors := tool_vectors db;
      tool_vectors_seq := tool_vectors_seq db;
      vec_tool_embeddings := vec_tool_embeddings db;
      vec_seq := vec_seq db;
      tool_mapping := tool_mapping db;
      session_tool_history :=
        if ignored then session_tool_history db
        else
          session_tool_history db ++
            [{| sh_id := i; sh_session_id := sessionId;
                sh_tool_md5 := toolMD5; sh_tool_name := toolName;
                sh_retrieved_at := CURRENT_TIMESTAMP E i |}];
      session_seq := i;
      mcp_servers := mcp_servers db |},
   if ignored then None else Some i).

Record SessionToolRecord := {
  toolMD5 : jsstring;
  toolName : jsstring
}.

(** [VectorDatabase.recordSessionToolRetrievalBatch]. *)
Fixpoint recordSessionToolRetrievalBatch (db : Database) (sessionId : jsstring)
    (tools : list SessionToolRecord) : Database * list Z :=
  match tools with
  | [] => (db, [])
  | t :: rest =>
      let '(db1, r) :=
        recordSessionToolRetrieval db sessionId (toolMD5 t) (toolName t) in
      let '(db2, ids) := recordSessionToolRetrievalBatch db1 sessionId rest in
      (db2, match r with Some i => i :: ids | None => ids end)
  end.

End VectorDatabase.

(* ================================================================= *)
(** ** Live tools *)

(** A tool of the live catalog, as the MCP client lists it. *)
Record MCPToolInfo (E : Env) := {
  name : option jsstring;
  tool_name : option jsstring;
  description : option jsstring;
  schema : option (JValue E);
  outputSchema : option (JValue E);
  invoke : JValue E -> Outcome (JValue E)
}.

(** [mcpClient.getTools()]. *)
Definition MCPClient (E : Env) := Outcome (list (MCPToolInfo E)).

(* ================================================================= *)
(** ** [VectorSearch]: recommendation and indexing *)

Record SimilarTool := {
  st_tool_md5 : jsstring;
  st_tool_name : jsstring;
  st_description : option jsstring;
  st_similarity : float;
  st_distance : float;
  st_model_name : jsstring
}.

Definition SimilarTool_of (r : SearchResult) : SimilarTool :=
  {| st_tool_md5 := sr_tool_md5 r; st_tool_name := sr_tool_name r;
     st_description := sr_description r; st_similarity := sr_similarity r;
     st_distance := sr_distance r; st_model_name := sr_model_name r |}.

Section VectorSearch.

Variable E : Env.

Record MatchedTool := {
  mt_similarity : float;
  mt_distance : float;
  mt_tool_md5 : jsstring;
  mt_mcp_tool : MCPToolInfo E;
  mt_tool_name : jsstring;
  mt_description : jsstring
}.

Record RecommendationResult := {
  rec_rank : nat;
  rec_tool_name : jsstring;
  rec_similarity : float;
  rec_distance : float;
  rec_tool_md5 : jsstring;
  rec_description : option jsstring;
  rec_mcp_tool : option (MCPToolInfo E)
}.

(** [VectorSearch.searchSimilarTools] of an initialised engine (the
    model name is only logged). *)
Definition searchSimilarTools (db : Database) (query : jsstring) (topK : Z)
    (threshold : float) (serverNames : option (list jsstring))
  : Outcome (list SimilarTool) :=
  queryVector <- vectorizeString E query ;;
  Returned (map SimilarTool_of
              (searchSimilarVectors E db queryVector topK threshold serverNames)).

(** The identity the indexer and the retriever compute for a live tool:
    [name || tool_name || ""] and [description || ""]. *)
Definition live_toolName (t : MCPToolInfo E) : jsstring :=
  or_else (name t) (or_else (tool_name t) []).

Definition live_description (t : MCPToolInfo E) : jsstring :=
  or_else (description t) [].


Definition live_md5 (t : MCPToolInfo E) : jsstring :=
  generateToolMD5 (md5hex E) (live_toolName t) (live_description t).

(** [VectorSearch.findMatchingMCPTools]: for each similar tool, the first
    live tool with its identity. *)
Definition findMatchingMCPTools (similarTools : list SimilarTool)
    (mcpClient : MCPClient E) : Outcome (list MatchedTool) :=
  availableTools <- mcpClient ;;
  Returned
    (flat_map (fun similarTool =>
       match find (fun mcpTool => JS.eqb (live_md5 mcpTool) (st_tool_md5 similarTool))
               availableTools with
       | Some mcpTool =>
           [{| mt_similarity := st_similarity similarTool;
               mt_distance := st_distance similarTool;
               mt_tool_md5 := st_tool_md5 similarTool;
               mt_mcp_tool := mcpTool;
               mt_tool_name := live_toolName mcpTool;
               mt_description := live_description mcpTool |}]
       | None => []
       end) similarTools).

(** [matchedTools.map((tool, index) => ...)]. *)
Fixpoint recommendations_from (index : nat) (includeDetails : bool)
    (matched : list MatchedTool) : list RecommendationResult :=
  match matched with
  | [] => []
  | tool :: rest =>
      {| rec_rank := index + 1;
         rec_tool_name := mt_tool_name tool;
         rec_similarity := mt_similarity tool;
         rec_distance := mt_distance tool;
         rec_tool_md5 := mt_tool_md5 tool;
         rec_description :=
           if includeDetails then Some (mt_description tool) else None;
         rec_mcp_tool :=
           if includeDetails then Some (mt_mcp_tool tool) else None |}
      :: recommendations_from (S index) includeDetails rest
  end.

(** [VectorSearch.recommendTools]. *)
Definition recommendTools (db : Database) (query : jsstring)
    (mcpClient : MCPClient E) (topK : Z) (threshold : float)
    (includeDetails : bool) (serverNames : option (list jsstring))
  : Outcome (list RecommendationResult) :=
  similarTools <- searchSimilarTools db query topK threshold serverNames ;;
  match similarTools with
  | [] => Returned []
  | _ =>
      matchedTools <- findMatchingMCPTools similarTools mcpClient ;;
      Returned (recommendations_from 0 includeDetails matchedTools)
  end.

(** [VectorSearch.identifySimilarToolsToDelete]: the candidates whose
    vector similarity reaches the threshold (the name similarity it also
    computes is only logged). *)
Definition identifySimilarToolsToDelete (newToolName newDescription : jsstring)
    (similarTools : list SearchResult) (similarityThreshold : float)
  : list SearchResult :=
  filter (fun similar => PrimFloat.leb similarityThreshold (sr_similarity similar))
    similarTools.

(** [modelName || process.env.EMBEDDING_MODEL_NAME || default]. *)
Definition defaultModelName (modelName : option jsstring) : jsstring :=
  or_else modelName
    (or_else (EMBEDDING_MODEL_NAME E) (str "doubao-embedding-text-240715")).

Record ToolToVectorize := {
  tv_toolName : jsstring;
  tv_toolDescription : jsstring
}.

(** First loop of [indexMCPTools]: the named tools that are not yet
    stored under their identity and the model. *)
Definition toolsToVectorize (db : Database) (model : jsstring)
    (tools : list (MCPToolInfo E)) : list ToolToVectorize :=
  flat_map (fun tool =>
    let toolName := live_toolName tool in
    let description := live_description tool in
    match toolName with
    | [] => []
    | _ =>
        match getToolByMD5 db (generateToolMD5 (md5hex E) toolName description)
                model with
        | None => [{| tv_toolName := toolName; tv_toolDescription := description |}]
        | Some _ => []
        end
    end) tools.

(** The deletions for one new tool: one [deleteToolVector] per superseded
    candidate; a failed one is logged and skipped. *)
Fixpoint delete_superseded (db : Database) (model : jsstring)
    (toDelete : list SearchResult) : Database * Z :=
  match toDelete with
  | [] => (db, 0%Z)
  | oldTool :: rest =>
      match deleteToolVector E db (sr_tool_md5 oldTool) (Some model) with
      | Some (db1, deletedCount) =>
          let '(db2, total) := delete_superseded db1 model rest in
          (db2, (deletedCount + total)%Z)
      | None => delete_superseded db model rest
      end
  end.

(** The candidates the indexer looks at for a new vector. *)
Definition similar_candidates (db : Database) (v : vector) : list SearchResult :=
  searchSimilarVectors E db v 10 0.7 None.

(** The body of the second loop of [indexMCPTools] for one new tool:
    embed it, delete what it supersedes, hand it over for saving.  A tool
    whose embedding fails is skipped. *)
Definition vectorize_one (db : Database) (model : jsstring)
    (tool : ToolToVectorize) : Database * option ToolData * Z :=
  match vectorizeString E
          (trim (tv_toolName tool ++ str " " ++ tv_toolDescription tool)) with
  | Thrown _ => (db, None, 0%Z)
  | Returned v =>
      let toDelete :=
        identifySimilarToolsToDelete (tv_toolName tool)
          (tv_toolDescription tool) (similar_candidates db v) 0.96 in
      let '(db1, deleted) := delete_superseded db model toDelete in
      (db1,
       Some {| td_toolName := tv_toolName tool;
               td_description := tv_toolDescription tool;
               td_vector := v |},
       deleted)
  end.

(** The second loop of [indexMCPTools]. *)
Fixpoint vectorize_all (db : Database) (model : jsstring)
    (todo : list ToolToVectorize) : Database * list ToolData * Z :=
  match todo with
  | [] => (db, [], 0%Z)
  | tool :: rest =>
      let '(db1, queued, deleted) := vectorize_one db model tool in
      let '(db2, vectorizedTools, total) := vectorize_all db1 model rest in
      (db2,
       match queued with
       | Some t => t :: vectorizedTools
       | None => vectorizedTools
       end,
       (deleted + total)%Z)
  end.

(** What a run of the indexer did. *)
Record IndexRun := {
  ix_db : Database;
  ix_saved : list Z;
  ix_vectorized : list ToolData;
  ix_deleted : Z
}.

(** [VectorSearch.indexMCPTools]. *)
Definition indexMCPTools (db : Database) (mcpClient : MCPClient E)
    (modelName : option jsstring) : Outcome IndexRun :=
  let model := defaultModelName modelName in
  tools <- mcpClient ;;
  match toolsToVectorize db model tools with
  | [] =>
      Returned {| ix_db := db; ix_saved := []; ix_vectorized := [];
                  ix_deleted := 0 |}
  | todo =>
      let '(db1, vectorizedTools, deleted) := vectorize_all db model todo in
      let '(db2, saveResults) := saveToolVectorsBatch E db1 vectorizedTools model in
      Returned {| ix_db := db2; ix_saved := saveResults;
                  ix_vectorized := vectorizedTools; ix_deleted := deleted |}
  end.

End VectorSearch.

Arguments findMatchingMCPTools : clear implicits.
Arguments recommendTools : clear implicits.
Arguments toolsToVectorize : clear implicits.
Arguments indexMCPTools : clear implicits.

(* ================================================================= *)
(** ** The broker: [retriever] and [executor] *)

Module Text.

(** 当前可以使用的服务器： *)
Definition available_servers : jsstring :=
  [24403; 21069; 21487; 20197; 20351; 29992; 30340; 26381; 21153; 22120;
   65306]%N.

(** 、 *)
Definition enumeration_comma : jsstring := [12289]%N.

(** ，务必不要直接使用它们，只可以使用它们用来检索！ *)
Definition retrieval_only : jsstring :=
  [65292; 21153; 24517; 19981; 35201; 30452; 25509; 20351; 29992; 23427;
   20204; 65292; 21482; 21487; 20197; 20351; 29992; 23427; 20204; 29992;
   26469; 26816; 32034; 65281]%N.

(** [ - 工具: ] *)
Definition tools_label : jsstring := [32; 45; 32; 24037; 20855; 58; 32]%N.

(** 未找到md5为 ... 的工具 *)
Definition not_found (md5 : jsstring) : jsstring :=
  [26410; 25214; 21040; 109; 100; 53; 20026]%N ++ md5
  ++ [30340; 24037; 20855]%N.

(** 工具执行失败: ... *)
Definition execution_failed (message : jsstring) : jsstring :=
  [24037; 20855; 25191; 34892; 22833; 36133; 58; 32]%N ++ message.

(** 工具检索失败: ... *)
Definition retrieval_failed (message : jsstring) : jsstring :=
  [24037; 20855; 26816; 32034; 22833; 36133; 58; 32]%N ++ message.

(** 📋 Session ID: ... *)
Definition session_line (sid : jsstring) : jsstring :=
  [55357; 56523; 32; 83; 101; 115; 115; 105; 111; 110; 32; 73; 68; 58; 32]%N
  ++ sid.

(** [ (请保存此ID用于后续检索)] *)
Definition keep_this_id : jsstring :=
  [32; 40; 35831; 20445; 23384; 27492; 73; 68; 29992; 20110; 21518; 32493;
   26816; 32034; 41]%N.

End Text.

Record KnownTool := {
  kt_rank : nat;
  kt_tool_name : jsstring;
  kt_md5 : jsstring
}.

Record QueryTools (T : Type) := {
  query_index : nat;
  query : jsstring;
  tools : list T
}.

Record Summary := {
  new_tools_count : nat;
  known_tools_count : nat;
  session_history_count : nat
}.

Record ExecutorResponse := {
  content_text : option jsstring;
  isError : bool
}.

Section Broker.

Variable E : Env.

Record NewTool := {
  nt_rank : nat;
  nt_tool_name : jsstring;
  nt_md5 : jsstring;
  nt_description : option jsstring;
  nt_similarity : float;
  nt_input_schema : option jsstring;
  nt_output_schema : option (JValue E)
}.

(** [RetrieverResult]; [rr_server_description] is [None] when the key is
    absent. *)
Record RetrieverResult := {
  session_id : jsstring;
  new_tools : list (QueryTools NewTool);
  known_tools : list (QueryTools KnownTool);
  summary : Summary;
  rr_server_description : option jsstring
}.

(** What the [retriever] handler returns: the result and the session
    line, or an error text and the session line with [isError] set. *)
Inductive RetrieverResponse :=
| RetrieverContent (result : RetrieverResult) (note : jsstring)
| RetrieverError (message note : jsstring).

(** [SELECT ... FROM mcp_servers WHERE enabled = 1 ORDER BY server_name]. *)
Fixpoint insert_by_name (r : MCPServerConfig) (rows : list MCPServerConfig)
  : list MCPServerConfig :=
  match rows with
  | [] => [r]
  | x :: rest =>
      if Sql.binary_ltb (server_name r) (server_name x) then r :: rows
      else x :: insert_by_name r rest
  end.

Definition enabled_servers (db : Database) : list MCPServerConfig :=
  fold_right insert_by_name []
    (filter (fun r => (enabled r =? 1)%Z) (mcp_servers db)).

(** The pair (server name, tool name) the description derives from a
    live tool name of the form [serverName__toolName]. *)
Definition server_and_tool (tool : MCPToolInfo E) : jsstring * jsstring :=
  let parts := split (str "__") (or_else (name tool) []) in
  let serverName := or_else (hd_error parts) (str "unknown") in
  let toolName :=
    match join (str "__") (tl parts) with
    | [] => or_else (name tool) []
    | joined => joined
    end in
  (serverName, toolName).

(** The properties a plain object inherits from [Object.prototype], each
    with the [length] of its value: the arity of a function, and none for
    [__proto__], which reads as [Object.prototype] itself. *)
Definition Object_prototype : list (jsstring * option nat) :=
  [(str "constructor", Some 1);
   (str "__defineGetter__", Some 2);
   (str "__defineSetter__", Some 2);
   (str "hasOwnProperty", Some 1);
   (str "__lookupGetter__", Some 1);
   (str "__lookupSetter__", Some 1);
   (str "isPrototypeOf", Some 1);
   (str "propertyIsEnumerable", Some 1);
   (str "toString", Some 0);
   (str "valueOf", Some 0);
   (str "__proto__", None);
   (str "toLocaleString", Some 0)].

(** What [object[key]] reads on a plain object whose own properties hold
    arrays of strings: the array of an own property, else the value
    inherited under a key of [Object.prototype], else [undefined]. *)
Inductive Property : Type :=
| OwnArray (items : list jsstring)
| Inherited (length : option nat)
| Undefined.

(** The own properties of such an object, in the order of their
    creation. *)
Definition PlainObject : Type := list (jsstring * list jsstring).

Definition has_key {V : Type} (key : jsstring) (p : jsstring * V) : bool :=
  JS.eqb (fst p) key.

Definition get_property (object : PlainObject) (key : jsstring) : Property :=
  match find (has_key key) object with
  | Some p => OwnArray (snd p)
  | None =>
      match find (has_key key) Object_prototype with
      | Some p => Inherited (snd p)
      | None => Undefined
      end
  end.

Definition set_property (object : PlainObject) (key : jsstring)
    (items : list jsstring) : PlainObject :=
  map (fun p => if has_key key p then (key, items) else p) object.

(** One round of [tools.forEach]: the tool name is pushed under the
    server name.  An inherited value is truthy, so no array is created
    under its key, and it has no [push]: the call throws ([None]). *)
Definition group_tool (toolsByServer : PlainObject) (tool : MCPToolInfo E)
  : option PlainObject :=
  let '(serverName, toolName) := server_and_tool tool in
  match get_property toolsByServer serverName with
  | Undefined => Some (toolsByServer ++ [(serverName, [toolName])])
  | OwnArray items =>
      Some (set_property toolsByServer serverName (items ++ [toolName]))
  | Inherited _ => None
  end.

(** The object [toolsByServer] grouping the live tools by server, from
    the object built so far; [None] when a round throws. *)
Fixpoint group_tools (toolsByServer : PlainObject) (tools : list (MCPToolInfo E))
  : option PlainObject :=
  match tools with
  | [] => Some toolsByServer
  | tool :: rest =>
      match group_tool toolsByServer tool with
      | Some grouped => group_tools grouped rest
      | None => None
      end
  end.

Definition toolsByServer (tools : list (MCPToolInfo E)) : option PlainObject :=
  group_tools [] tools.

(** A server row without its tools: the name, followed by the
    description in brackets when there is one. *)
Definition described (serverRow : MCPServerConfig) : jsstring :=
  match server_description serverRow with
  | Some ((_ :: _) as d) => server_name serverRow ++ str "(" ++ d ++ str ")"
  | _ => server_name serverRow
  end.

(** The loop over the server rows: the descriptions it pushes and
    whether it throws.  A server name that reads an inherited function
    with a positive [length] passes the test for tools and has no [join]:
    the loop throws there. *)
Fixpoint describe_servers (toolsByServer : PlainObject)
    (mcpServers : list MCPServerConfig) : list jsstring * bool :=
  match mcpServers with
  | [] => ([], false)
  | serverRow :: rest =>
      match get_property toolsByServer (server_name serverRow) with
      | Inherited (Some (S _)) => ([], true)
      | serverTools =>
          let description :=
            match serverTools with
            | OwnArray ((_ :: _) as names) =>
                described serverRow ++ Text.tools_label ++ join (str ", ") names
            | _ => described serverRow
            end in
          let '(later, thrown) := describe_servers toolsByServer rest in
          (description :: later, thrown)
      end
  end.

(** [getEnhancedServerDescription].  When the live catalog cannot be
    listed, or grouping or describing throws, the [catch] block pushes the
    servers without their tools onto the descriptions pushed so far. *)
Definition getEnhancedServerDescription (db : Database) (mcpClient : MCPClient E)
  : jsstring :=
  let mcpServers := enabled_servers db in
  let serverDescriptions :=
    match mcpClient with
    | Thrown _ => map described mcpServers
    | Returned tools =>
        match toolsByServer tools with
        | None => map described mcpServers
        | Some grouped =>
            let '(pushed, thrown) := describe_servers grouped mcpServers in
            if thrown then pushed ++ map described mcpServers else pushed
        end
    end in
  match serverDescriptions with
  | [] => []
  | _ =>
      Text.available_servers
      ++ join Text.enumeration_comma serverDescriptions
      ++ Text.retrieval_only
  end.

(** [Math.random().toString(36).substring(2, 8)], given the text
    [Math.random().toString(36)] evaluates to. *)
Definition generateSessionId (random36 : jsstring) : jsstring :=
  substring 2 8 random36.

(** Session resolution: the id the call works with and whether the
    session is a first-time one. *)
Definition resolve_session (db : Database) (random36 sessionId : jsstring)
  : jsstring * bool :=
  let needToGenerateNewSession :=
    match sessionId with
    | [] => true
    | _ =>
        match getSessionHistory db sessionId with
        | [] => true
        | _ => false
        end
    end in
  if needToGenerateNewSession then (generateSessionId random36, true)
  else (sessionId, false).

Definition has (known : list jsstring) (md5 : jsstring) : bool :=
  existsb (JS.eqb md5) known.

(** The partition of one query's recommendations. *)
Definition known_of (rank : nat) (r : RecommendationResult E) : KnownTool :=
  {| kt_rank := rank; kt_tool_name := rec_tool_name r; kt_md5 := rec_tool_md5 r |}.

Definition new_of (rank : nat) (r : RecommendationResult E) : NewTool :=
  {| nt_rank := rank;
     nt_tool_name := rec_tool_name r;
     nt_md5 := rec_tool_md5 r;
     nt_description := rec_description r;
     nt_similarity := toFixed4 E (rec_similarity r);
     nt_input_schema :=
       match rec_mcp_tool r with
       | Some t =>
           match schema t with
           | Some v => JSON_stringify E v
           | None => None
           end
       | None => None
       end;
     nt_output_schema :=
       match rec_mcp_tool r with
       | Some t => outputSchema t
       | None => None
       end |}.

Fixpoint partition_from (index : nat) (known : list jsstring)
    (topResult : list (RecommendationResult E))
  : list NewTool * list KnownTool :=
  match topResult with
  | [] => ([], [])
  | r :: rest =>
      let '(newToolsForQuery, knownToolsForQuery) :=
        partition_from (S index) known rest in
      if has known (rec_tool_md5 r)
      then (newToolsForQuery, known_of (index + 1) r :: knownToolsForQuery)
      else (new_of (index + 1) r :: newToolsForQuery, knownToolsForQuery)
  end.

(** The loop over the descriptions, from index [i]. *)
Fixpoint retrieve_from (db : Database) (mcpClient : MCPClient E)
    (serverNames : option (list jsstring)) (known : list jsstring)
    (i : nat) (descriptions : list jsstring)
  : Outcome (list (QueryTools NewTool) * list (QueryTools KnownTool)) :=
  match descriptions with
  | [] => Returned ([], [])
  | description :: rest =>
      topResult <- recommendTools E db description mcpClient
                     (TOOL_RETRIEVER_TOP_K E) (TOOL_RETRIEVER_THRESHOLD E)
                     true serverNames ;;
      later <- retrieve_from db mcpClient serverNames known (S i) rest ;;
      let '(newToolsForQuery, knownToolsForQuery) :=
        partition_from 0 known topResult in
      let '(newTools, knownTools) := later in
      Returned
        (match newToolsForQuery with
         | [] => newTools
         | _ => {| query_index := i; query := description;
                   tools := newToolsForQuery |} :: newTools
         end,
         match knownToolsForQuery with
         | [] => knownTools
         | _ => {| query_index := i; query := description;
                   tools := knownToolsForQuery |} :: knownTools
         end)
  end.

Definition count_tools {T : Type} (l : list (QueryTools T)) : nat :=
  fold_left (fun sum item => sum + List.length (tools item)) l 0.

Definition newToolsToRecord (newTools : list (QueryTools NewTool))
  : list SessionToolRecord :=
  flat_map (fun queryResult =>
    map (fun tool => {| toolMD5 := nt_md5 tool; toolName := nt_tool_name tool |})
      (tools queryResult)) newTools.

(** [Set.prototype.size] of the known identities. *)
Definition set_size (l : list jsstring) : nat :=
  List.length (nodup (list_eq_dec N.eq_dec) l).

(** The [retriever] handler.  [random36] is the text
    [Math.random().toString(36)] evaluates to during the call. *)
Definition retriever (db : Database) (mcpClient : MCPClient E)
    (random36 : jsstring) (descriptions : list jsstring)
    (sessionId : jsstring) (serverNames : option (list jsstring))
  : Database * RetrieverResponse :=
  let enhancedServerDescription := getEnhancedServerDescription db mcpClient in
  let '(finalSessionId, isFirstTimeSession) :=
    resolve_session db random36 sessionId in
  let knownToolMD5s := map sh_tool_md5 (getSessionHistory db finalSessionId) in
  match retrieve_from db mcpClient serverNames knownToolMD5s 0 descriptions with
  | Thrown message =>
      (db, RetrieverError (Text.retrieval_failed message)
             (Text.session_line
                (or_else (Some finalSessionId)
                   (or_else (Some sessionId) (str "unknown")))))
  | Returned (newTools, knownTools) =>
      let db1 :=
        match newToolsToRecord newTools with
        | [] => db
        | toRecord =>
            fst (recordSessionToolRetrievalBatch E db finalSessionId toRecord)
        end in
      (db1,
       RetrieverContent
         {| session_id := finalSessionId;
            new_tools := newTools;
            known_tools := knownTools;
            summary :=
              {| new_tools_count := count_tools newTools;
                 known_tools_count := count_tools knownTools;
                 session_history_count :=
                   set_size knownToolMD5s + count_tools newTools |};
            rr_server_description :=
              if isFirstTimeSession then Some enhancedServerDescription
              else None |}
         (Text.session_line finalSessionId ++ Text.keep_this_id))
  end.

(** The identity the [executor] recomputes for a live tool:
    [`${t.name}${t.description}`.trim()], hashed. *)
Definition executor_text (t : MCPToolInfo E) : jsstring :=
  trim (template (name t) ++ template (description t)).

Definition executor_md5 (t : MCPToolInfo E) : jsstring :=
  md5hex E (executor_text t).

(** [tools.find(...)], with the position of the tool found. *)
Fixpoint find_tool (md5 : jsstring) (i : nat) (tools : list (MCPToolInfo E))
  : option (nat * MCPToolInfo E) :=
  match tools with
  | [] => None
  | t :: rest =>
      if JS.eqb (executor_md5 t) md5 then Some (i, t)
      else find_tool md5 (S i) rest
  end.

(** The [executor] handler: the response, and the upstream invocations
    it made, each as the position of the tool in the live catalog and the
    parameters passed. *)
Definition executor (mcpClient : MCPClient E) (md5 : jsstring)
    (parameters : JValue E) : ExecutorResponse * list (nat * JValue E) :=
  match mcpClient with
  | Thrown message =>
      ({| content_text := Some (Text.execution_failed message);
          isError := true |}, [])
  | Returned tools =>
      match find_tool md5 0 tools with
      | None =>
          ({| content_text := Some (Text.not_found md5); isError := true |}, [])
      | Some (i, tool) =>
          match invoke tool parameters with
          | Returned result =>
              ({| content_text := JSON_stringify E result; isError := false |},
               [(i, parameters)])
          | Thrown message =>
              ({| content_text := Some (Text.execution_failed message);
                  isError := true |},
               [(i, parameters)])
          end
      end
  end.

End Broker.

Arguments getEnhancedServerDescription : clear implicits.
Arguments partition_from : clear implicits.
Arguments retrieve_from : clear implicits.
Arguments retriever : clear implicits.
Arguments find_tool : clear implicits.
Arguments executor : clear implicits.

(* ================================================================= *)
(** ** An environment for worked examples *)

Module Example.

(** The distance of the worked examples: the cosine distance, computed
    in binary64.  The vector engine computes it in binary32; the vectors of
    the examples have one coordinate 1 and the others 0, for which every
    operation of either computation is exact: the distance is 0 between a
    vector and itself and 1 between two different ones. *)
Fixpoint dot (a b : vector) : float :=
  match a, b with
  | x :: a', y :: b' => (x * y + dot a' b')%float
  | _, _ => 0%float
  end.

Definition cosine_distance (a b : vector) : float :=
  (1 - dot a b / (PrimFloat.sqrt (dot a a) * PrimFloat.sqrt (dot b b)))%float.

(** An environment whose digest is the text itself (it tells apart any
    two texts, as MD5 does the texts of the examples), whose embedding is
    [embed], whose deletions succeed, whose clock moves by a second with
    every insert into the session table and whose retrieval parameters are
    the defaults. *)
Definition env (embed : jsstring -> Outcome vector) : Env :=
  {| JValue := jsstring;
     JSON_stringify := fun v => Some v;
     md5hex := fun text => text;
     vectorizeString := embed;
     vec_distance_cosine := cosine_distance;
     delete_fault := fun _ => false;
     CURRENT_TIMESTAMP := fun n => n;
     toFixed4 := fun x => x;
     EMBEDDING_MODEL_NAME := None;
     TOOL_RETRIEVER_TOP_K := 5;
     TOOL_RETRIEVER_THRESHOLD := 0.1 |}.

(** Every text embeds to the same unit vector. *)
Definition embed_const : jsstring -> Outcome vector :=
  fun _ => Returned [1%float; 0%float].

(** A live tool with a name and a description that echoes its
    parameters. *)
Definition tool (E : Env) (n d : string) : MCPToolInfo E :=
  {| name := Some (str n); tool_name := None; description := Some (str d);
     schema := None; outputSchema := None;
     invoke := fun parameters => Returned parameters |}.

End Example.

(** The store of the prefix-collision scenario: servers [a] and [aa],
    each with a tool [x], saved under the same model. *)
Definition collision_db : Database :=
  let E := Example.env Example.embed_const in
  let db1 :=
    fst (saveToolVector E empty_db (str "a__x") (str "tool x of a")
           [1%float; 0%float] (str "m")) in
  fst (saveToolVector E db1 (str "aa__x") (str "tool x of aa")
         [1%float; 0%float] (str "m")).

Definition collision_tools (E : Env) : list (MCPToolInfo E) :=
  [Example.tool E "a__x" "tool x of a"; Example.tool E "aa__x" "tool x of aa"].

(** The tool names a response reports as new. *)
Definition new_tool_names (E : Env) (r : RetrieverResponse E) : list jsstring :=
  match r with
  | RetrieverContent result _ =>
      flat_map (fun q => map (@nt_tool_name E) (tools q)) (new_tools result)
  | RetrieverError _ _ _ => []
  end.

(** The names of the stored tools, in table order. *)
Definition stored_names (db : Database) : list jsstring :=
  map tv_tool_name (tool_vectors db).

(** The store a run leaves ([db] when listing the catalog throws), and
    the ids it saved with the number of records it deleted. *)
Definition run_store (db : Database) (o : Outcome IndexRun) : Database :=
  match o with
  | Returned run => ix_db run
  | Thrown _ => db
  end.

Definition run_report (o : Outcome IndexRun) : option (list Z * Z) :=
  match o with
  | Returned run => Some (ix_saved run, ix_deleted run)
  | Thrown _ => None
  end.

(** A catalog of two tools of one server whose texts embed to the same
    vector, and the store in which only the second is indexed. *)
Definition twin_tools (E : Env) : list (MCPToolInfo E) :=
  [Example.tool E "srv__a" "first"; Example.tool E "srv__b" "second"].


(** A store in which the tool [srv__b] is indexed under another model. *)
Definition other_model_db : Database :=
  fst (saveToolVector (Example.env Example.embed_const) empty_db
         (str "srv__b") (str "second") [1%float; 0%float] (str "other-model")).

(** A store with eleven tools of one model, all with the same vector. *)
Definition eleven_db : Database :=
  fst (saveToolVectorsBatch (Example.env Example.embed_const) empty_db
         (map (fun n => {| td_toolName := str "srv__t" ++ [n];
                           td_description := str "variant";
                           td_vector := [1%float; 0%float] |})
            [97; 98; 99; 100; 101; 102; 103; 104; 105; 106; 107]%N)
         (str "m")).

(** The record ids a [deleteToolVector] transaction removes. *)
Definition selected_id (db : Database) (toolMD5 : jsstring)
    (modelName : option jsstring) (i : Z) : Prop :=
  exists r, In r (tool_vectors db)
            /\ delete_selection toolMD5 modelName r = true /\ tv_id r = i.

(** The rowids of the stored vectors. *)
Definition vector_rowids (db : Database) : list Z :=
  map fst (vec_tool_embeddings db).

(** The session id of a response, when it is not an error. *)
Definition response_session_id (E : Env) (r : RetrieverResponse E)
  : option jsstring :=
  match r with
  | RetrieverContent result _ => Some (session_id result)
  | RetrieverError _ _ _ => None
  end.

(** Two stores with the same records, vectors and mapping rows. *)
Definition same_tools (db db' : Database) : Prop :=
  tool_vectors db = tool_vectors db'
  /\ vec_tool_embeddings db = vec_tool_embeddings db'
  /\ tool_mapping db = tool_mapping db'.

(** The summary of a response, when it is not an error. *)
Definition response_summary (E : Env) (r : RetrieverResponse E) : option Summary :=
  match r with
  | RetrieverContent result _ => Some (summary result)
  | RetrieverError _ _ _ => None
  end.

(* ================================================================= *)
(** ** The rest of [VectorDatabase] and [VectorSearch] *)

(** [VectorDatabase.clearSessionHistory]: the rows of the session are
    deleted; the result is their number. *)
Definition clearSessionHistory (db : Database) (sessionId : jsstring)
  : Database * Z :=
  let of_session r := JS.eqb (sh_session_id r) sessionId in
  ({| tool_vectors := tool_vectors db;
      tool_vectors_seq := tool_vectors_seq db;
      vec_tool_embeddings := vec_tool_embeddings db;
      vec_seq := vec_seq db;
      tool_mapping := tool_mapping db;
      session_tool_history :=
        filter (fun r => negb (of_session r)) (session_tool_history db);
      session_seq := session_seq db;
      mcp_servers := mcp_servers db |},
   Z.of_nat (List.length (filter of_session (session_tool_history db)))).

(** [VectorDatabase.getSessionStats]; [ss_latest_retrieval] is [None]
    for [null], the [MAX] over no row. *)
Record SessionStats := {
  ss_session_id : jsstring;
  ss_tools_count : Z;
  ss_latest_retrieval : option Z
}.

Definition getSessionStats (db : Database) (sessionId : jsstring) : SessionStats :=
  let rows :=
    filter (fun r => JS.eqb (sh_session_id r) sessionId)
      (session_tool_history db) in
  {| ss_session_id := sessionId;
     ss_tools_count := Z.of_nat (List.length rows);
     ss_latest_retrieval :=
       match rows with
       | [] => None
       | r :: rest =>
           Some (fold_left Z.max (map sh_retrieved_at rest) (sh_retrieved_at r))
       end |}.

(** [SELECT model_name, COUNT( * ) ... GROUP BY model_name ORDER BY
    model_name]: one more record of the model in the ordered list of
    counts. *)
Fixpoint count_model (model : jsstring) (stats : list (jsstring * Z))
  : list (jsstring * Z) :=
  match stats with
  | [] => [(model, 1%Z)]
  | (m, c) :: rest =>
      if JS.eqb m model then (m, (c + 1)%Z) :: rest
      else if Sql.binary_ltb model m then (model, 1%Z) :: stats
      else (m, c) :: count_model model rest
  end.

Record DatabaseStats := {
  totalTools : Z;
  totalVectors : Z;
  modelStats : list (jsstring * Z)
}.

(** [VectorDatabase.getStats]. *)
Definition getStats (db : Database) : DatabaseStats :=
  {| totalTools := Z.of_nat (List.length (tool_vectors db));
     totalVectors := Z.of_nat (List.length (vec_tool_embeddings db));
     modelStats :=
       fold_left (fun stats r => count_model (tv_model_name r) stats)
         (tool_vectors db) [] |}.

(** The counts listed under a model name. *)
Definition listed_under (model : jsstring) (stats : list (jsstring * Z)) : Z :=
  fold_right Z.add 0%Z
    (map snd (filter (fun e => JS.eqb (fst e) model) stats)).

(** [VectorSearch.clearIndex]: every vector and every mapping row is
    deleted, and the records of the model.  The third statement is built
    by pasting the model name between single quotes; it is the intended
    statement when the name has no single quote (39), the only case that
    is modelled. *)
Definition clearIndex (E : Env) (db : Database) (modelName : option jsstring)
  : option Database :=
  let model := defaultModelName E modelName in
  if existsb (N.eqb 39) model then None
  else
    Some {| tool_vectors :=
              filter (fun r => negb (JS.eqb (tv_model_name r) model))
                (tool_vectors db);
            tool_vectors_seq := tool_vectors_seq db;
            vec_tool_embeddings := [];
            vec_seq := vec_seq db;
            tool_mapping := [];
            session_tool_history := session_tool_history db;
            session_seq := session_seq db;
            mcp_servers := mcp_servers db |}.

(** What the schema and the engine keep true of the three tool tables:
    record ids and vector rowids are distinct and below their sequence
    marks, [tool_mapping] has one row per vector rowid, every mapping row
    points to a stored vector and to a stored record, every vector and
    every record has a mapping row. *)
Definition store_ok (db : Database) : Prop :=
  NoDup (map tv_id (tool_vectors db))
  /\ (forall r, In r (tool_vectors db) -> (tv_id r <= tool_vectors_seq db)%Z)
  /\ NoDup (vector_rowids db)
  /\ (forall i, In i (vector_rowids db) -> (i <= vec_seq db)%Z)
  /\ NoDup (map fst (tool_mapping db))
  /\ (forall m, In m (tool_mapping db) ->
        In (fst m) (vector_rowids db)
        /\ In (snd m) (map tv_id (tool_vectors db)))
  /\ (forall i, In i (vector_rowids db) -> In i (map fst (tool_mapping db)))
  /\ (forall r, In r (tool_vectors db) ->
        exists m, In m (tool_mapping db) /\ snd m = tv_id r).

(** [UNIQUE(session_id, tool_md5)] on [session_tool_history]. *)
Definition history_unique (db : Database) : Prop :=
  NoDup (map (fun r => (sh_session_id r, sh_tool_md5 r)) (session_tool_history db)).

(** The tools of a response, new and known, as (query index, rank, name,
    identity). *)
Definition reported (E : Env) (r : RetrieverResult E)
  : list (nat * nat * jsstring * jsstring) :=
  flat_map (fun q => map (fun t => (query_index q, nt_rank t, nt_tool_name t, nt_md5 t))
                       (tools q)) (new_tools r)
  ++ flat_map (fun q => map (fun t => (query_index q, kt_rank t, kt_tool_name t, kt_md5 t))
                          (tools q)) (known_tools r).


(** A key under which a plain object inherits a value. *)
Definition inherited (key : jsstring) : bool :=
  match find (has_key key) Object_prototype with
  | Some _ => true
  | None => false
  end.

(** A key under which a plain object inherits a function that takes
    arguments: the [length] of what is read is positive. *)
Definition inherits_arity (key : jsstring) : bool :=
  match find (has_key key) Object_prototype with
  | Some (_, Some (S _)) => true
  | _ => false
  end.

(** The tool names of a catalog that are read under a server name, in
    catalog order. *)
Definition tools_under (E : Env) (catalog : list (MCPToolInfo E))
    (serverName : jsstring) : list jsstring :=
  map snd
    (filter (fun p => JS.eqb (fst p) serverName) (map (@server_and_tool E) catalog)).

(** A server row followed by the tools of a catalog read under its
    name. *)
Definition described_with_tools (E : Env) (catalog : list (MCPToolInfo E))
    (serverRow : MCPServerConfig) : jsstring :=
  match tools_under catalog (server_name serverRow) with
  | [] => described serverRow
  | names => described serverRow ++ Text.tools_label ++ join (str ", ") names
  end.

(** The object grouping the tools holds, under each server name read off
    a tool, the tools read under that name, and no other key. *)
Definition grouped_as (E : Env) (object : PlainObject)
    (done : list (MCPToolInfo E)) : Prop :=
  forall key,
    find (has_key key) object
    = match tools_under done key with
      | [] => None
      | names => Some (key, names)
      end.



(** A store with an enabled server [a] and an enabled server named
    [constructor]. *)
Definition constructor_db : Database :=
  {| tool_vectors := []; tool_vectors_seq := 0;
     vec_tool_embeddings := []; vec_seq := 0;
     tool_mapping := []; session_tool_history := []; session_seq := 0;
     mcp_servers :=
       [{| server_name := str "constructor"; server_description := None;
           enabled := 1 |};
        {| server_name := str "a"; server_description := None; enabled := 1 |}] |}.

(** Rows in the order [ORDER BY distance ASC] leaves them in: no row
    is at a smaller distance than the row before it. *)
Fixpoint ascending (rows : list SearchResult) : Prop :=
  match rows with
  | [] => True
  | x :: rest =>
      match rest with
      | [] => True
      | y :: _ => PrimFloat.ltb (sr_distance y) (sr_distance x) = false
      end
      /\ ascending rest
  end.

(** A list of numbers in strictly increasing order. *)
Fixpoint increasing (l : list nat) : Prop :=
  match l with
  | [] => True
  | x :: rest => (forall y, In y rest -> x < y) /\ increasing rest
  end.

(** What stands behind a tool the retriever reports for a description:
    the first live tool with the reported identity, whose name is the
    reported name, and a row with that identity in the search for the
    embedding of the description; the rank is a position in that
    search. *)
Definition surfaced (E : Env) (db : Database) (liveTools : list (MCPToolInfo E))
    (serverNames : option (list jsstring)) (description : jsstring)
    (rank : nat) (reportedName md5 : jsstring) : Prop :=
  exists t v row,
    find (fun u => JS.eqb (live_md5 u) md5) liveTools = Some t
    /\ live_toolName t = reportedName
    /\ vectorizeString E description = Returned v
    /\ In row (searchSimilarVectors E db v (TOOL_RETRIEVER_TOP_K E)
                 (TOOL_RETRIEVER_THRESHOLD E) serverNames)
    /\ sr_tool_md5 row = md5
    /\ 1 <= rank
    /\ rank <= List.length
                 (searchSimilarVectors E db v (TOOL_RETRIEVER_TOP_K E)
                    (TOOL_RETRIEVER_THRESHOLD E) serverNames).

Arguments surfaced : clear implicits.

(* ================================================================= *)
(** ** [ToolRecommender] *)

(** 工具推荐系统未初始化 *)
Definition not_initialized : jsstring :=
  [24037; 20855; 25512; 33616; 31995; 32479; 26410; 21021; 22987; 21270]%N.

(** MCP客户端未提供 *)
Definition no_mcp_client : jsstring :=
  [77; 67; 80; 23458; 25143; 31471; 26410; 25552; 20379]%N.

(** The state of a recommender: whether it was initialised, the store
    of its search engine and its MCP client, [None] for [null]. *)
Record ToolRecommender (E : Env) := {
  tr_isReady : bool;
  tr_store : Database;
  tr_mcpClient : option (MCPClient E)
}.

(** What [findMatchingMCPTools] gets from the client of a recommender:
    it throws on a [null] client before it lists the tools. *)
Definition tr_client (E : Env) (r : ToolRecommender E) : MCPClient E :=
  match tr_mcpClient r with
  | Some client => client
  | None => Thrown no_mcp_client
  end.

(** [RecommendationOptions]; an absent key is [None]. *)
Record RecommendationOptions := {
  ro_topK : option Z;
  ro_threshold : option float;
  ro_includeDetails : option bool;
  ro_format : option jsstring
}.

Definition no_options : RecommendationOptions :=
  {| ro_topK := None; ro_threshold := None; ro_includeDetails := None;
     ro_format := None |}.

(** A formatted recommendation: [SimpleRecommendation],
    [DetailedRecommendation], or the raw result. *)
Inductive Recommendation (E : Env) :=
| Simple (name : jsstring) (similarity : float)
| Detailed (rank : nat) (name : jsstring) (description : option jsstring)
    (similarity : float) (confidence : jsstring)
| Raw (result : RecommendationResult E).

Arguments Simple {E} name similarity.
Arguments Detailed {E} rank name description similarity confidence.
Arguments Raw {E} result.

(** [ToolRecommender.getConfidenceLevel]. *)
Definition getConfidenceLevel (similarity : float) : jsstring :=
  if PrimFloat.leb 0.8 similarity then str "very_high"
  else if PrimFloat.leb 0.6 similarity then str "high"
  else if PrimFloat.leb 0.4 similarity then str "medium"
  else if PrimFloat.leb 0.2 similarity then str "low"
  else str "very_low".

Definition simple_of (E : Env) (tool : RecommendationResult E) : Recommendation E :=
  Simple (rec_tool_name tool) (toFixed4 E (rec_similarity tool)).

Definition detailed_of (E : Env) (tool : RecommendationResult E) : Recommendation E :=
  Detailed (rec_rank tool) (rec_tool_name tool) (rec_description tool)
    (toFixed4 E (rec_similarity tool)) (getConfidenceLevel (rec_similarity tool)).

(** The tool name a formatted recommendation carries. *)
Definition recommendation_name (E : Env) (x : Recommendation E) : jsstring :=
  match x with
  | Simple name _ => name
  | Detailed _ name _ _ _ => name
  | Raw result => rec_tool_name result
  end.

(** [ToolRecommender.formatResults]: any other format falls back on
    [includeDetails]. *)
Definition formatResults (E : Env) (recommendations : list (RecommendationResult E))
    (format : jsstring) (includeDetails : bool) : list (Recommendation E) :=
  if JS.eqb format (str "simple") then map (@simple_of E) recommendations
  else if JS.eqb format (str "detailed") then map (@detailed_of E) recommendations
  else if JS.eqb format (str "raw") then map Raw recommendations
  else if includeDetails then map (@detailed_of E) recommendations
  else map (@simple_of E) recommendations.

Definition option_default {A : Type} (x : option A) (d : A) : A :=
  match x with
  | Some a => a
  | None => d
  end.

(** [ToolRecommender.recommend]: the search always asks for details;
    the option [includeDetails] only picks the fallback format. *)
Definition recommend (E : Env) (r : ToolRecommender E) (query : jsstring)
    (options : RecommendationOptions) : Outcome (list (Recommendation E)) :=
  if negb (tr_isReady r) then Thrown not_initialized
  else
    let topK := option_default (ro_topK options) 3%Z in
    let threshold := option_default (ro_threshold options) 0.1%float in
    let includeDetails := option_default (ro_includeDetails options) false in
    let format := option_default (ro_format options) (str "simple") in
    recommendations <- recommendTools E (tr_store r) query (tr_client r)
                         topK threshold true None ;;
    Returned (formatResults recommendations format includeDetails).

(** [ToolRecommender.getBestTool]; [threshold] is [None] when the
    argument is left out. *)
Definition getBestTool (E : Env) (r : ToolRecommender E) (query : jsstring)
    (threshold : option float) : Outcome (option (Recommendation E)) :=
  recommendations <-
    recommend r query
      {| ro_topK := Some 1%Z;
         ro_threshold := Some (option_default threshold 0.3%float);
         ro_includeDetails := None;
         ro_format := Some (str "detailed") |} ;;
  Returned (hd_error recommendations).

Arguments formatResults : clear implicits.
Arguments recommend : clear implicits.
Arguments getBestTool : clear implicits.

(* ================================================================= *)
(** ** [parseEnvVariable] *)

(** The longest run of units that satisfy [p], and what follows it. *)
Fixpoint span (p : N -> bool) (s : jsstring) : jsstring * jsstring :=
  match s with
  | [] => ([], [])
  | c :: s' =>
      if p c then let '(run, rest) := span p s' in (c :: run, rest)
      else ([], s)
  end.

(** A match of the pattern of [parseEnvVariable] at the head of a text:
    [$] and [{], a variable name of one or more units other than [:] and
    [}], optionally [:] and a default value of any number of units other
    than [}], and [}].  The result is the variable name, the default value
    when the optional group took part, and what follows the match.  Units:
    [$] 36, [{] 123, [:] 58, [}] 125. *)
Definition placeholder (s : jsstring)
  : option (jsstring * option jsstring * jsstring) :=
  match s with
  | 36%N :: 123%N :: s1 =>
      match span (fun c => negb ((c =? 58) || (c =? 125))%N) s1 with
      | ([], _) => None
      | (variableName, 125%N :: rest) => Some (variableName, None, rest)
      | (variableName, 58%N :: s2) =>
          match span (fun c => negb (c =? 125)%N) s2 with
          | (defaultValue, 125%N :: rest) =>
              Some (variableName, Some defaultValue, rest)
          | _ => None
          end
      | _ => None
      end
  | _ => None
  end.

(** The global [value.replace] over that pattern: [skip] counts the units of a match
    still to be passed over; [env] is [process.env] (for names that are
    not members of [Object.prototype]). *)
Fixpoint replace_placeholders (env : jsstring -> option jsstring) (skip : nat)
    (s : jsstring) : jsstring :=
  match s with
  | [] => []
  | c :: s' =>
      match skip with
      | S k => replace_placeholders env k s'
      | O =>
          match placeholder s with
          | Some (variableName, defaultValue, rest) =>
              match env variableName with
              | Some envValue => envValue
              | None => or_else defaultValue []
              end
              ++ replace_placeholders env (List.length s' - List.length rest) s'
          | None => c :: replace_placeholders env 0 s'
          end
      end
  end.

(** [parseEnvVariable] of a string (any other value is returned as it
    is). *)
Definition parseEnvVariable (env : jsstring -> option jsstring) (value : jsstring)
  : jsstring :=
  replace_placeholders env 0 value.

(* ================================================================= *)
(** ** [calculateNameSimilarity] *)

(** The cells of row [j] of the matrix after the first one, from row
    [j - 1]: [previous] holds the cells of row [j - 1] from the one above
    and to the left on, [left] is the cell to the left; [c2] is
    [str2[j - 1]]. *)
Fixpoint matrix_cells (c2 : N) (str1 : jsstring) (previous : list nat)
    (left : nat) : list nat :=
  match str1, previous with
  | c1 :: str1', diagonal :: previous' =>
      match previous' with
      | above :: _ =>
          let cell :=
            if (c1 =? c2)%N then diagonal
            else Nat.min (Nat.min (above + 1) (left + 1)) (diagonal + 1) in
          cell :: matrix_cells c2 str1' previous' cell
      | [] => []
      end
  | _, _ => []
  end.

(** Row [j] ([matrix[j][0] = j]) and the rows after it, down to the
    last one. *)
Fixpoint matrix_last_row (str1 str2 : jsstring) (previous : list nat) (j : nat)
  : list nat :=
  match str2 with
  | [] => previous
  | c2 :: str2' =>
      matrix_last_row str1 str2' (j :: matrix_cells c2 str1 previous j) (S j)
  end.

(** [matrix[len2][len1]], the first row being [0, 1, ..., len1]. *)
Definition levenshtein (str1 str2 : jsstring) : nat :=
  nth (List.length str1)
    (matrix_last_row str1 str2 (seq 0 (S (List.length str1))) 1) 0.

(** A length or a distance as a JavaScript number. *)
Definition number (n : nat) : float :=
  PrimFloat.of_uint63 (Uint63.of_Z (Z.of_nat n)).

(** [VectorSearch.calculateNameSimilarity] (its test [maxLen === 0]
    comes after the test for an empty name and never holds). *)
Definition calculateNameSimilarity (str1 str2 : jsstring) : float :=
  match str1, str2 with
  | [], _ => 0%float
  | _, [] => 0%float
  | _, _ =>
      if JS.eqb str1 str2 then 1%float
      else
        let maxLen := Nat.max (List.length str1) (List.length str2) in
        (1 - number (levenshtein str1 str2) / number maxLen)%float
  end.

(* ================================================================= *)
(** ** Facts about strings *)

Unset Implicit Arguments.

Example trim_hello : trim (str "  hello world  ") = str "hello world".
Proof. reflexivity. Qed.

Example trim_line_ends : trim ([9; 10; 160]%N ++ str "x y" ++ [13; 8232]%N) = str "x y".
Proof. reflexivity. Qed.

Example split_server_tool :
  split (str "__") (str "feishu__docx__create") = [str "feishu"; str "docx"; str "create"].
Proof. reflexivity. Qed.

Example split_three_underscores :
  split (str "__") (str "a___b") = [str "a"; str "_b"].
Proof. reflexivity. Qed.

Example split_empty : split (str "__") [] = [[]].
Proof. reflexivity. Qed.

Example substring_random : substring 2 8 (str "0.4fzyo82mvyr") = str "4fzyo8".
Proof. reflexivity. Qed.

Example like_prefix : Sql.like (str "a__%") (str "a__x") = true.
Proof. reflexivity. Qed.

(** Astral code points come after the others, as their UTF-8 bytes
    do: U+1F600 (a surrogate pair) after U+FF21. *)
Example binary_order_astral :
  Sql.binary_ltb [65313%N] [55357%N; 56832%N] = true
  /\ JS.ltb [65313%N] [55357%N; 56832%N] = false.
Proof. split; reflexivity. Qed.

(** The distance of the examples between the two unit vectors they
    use. *)
Example cosine_distance_axes :
  Example.cosine_distance [1%float; 0%float] [1%float; 0%float] = 0%float
  /\ Example.cosine_distance [0%float; 1%float] [1%float; 0%float] = 1%float.
Proof. split; reflexivity. Qed.

(** Rows of one second come back in the order they were inserted in,
    behind the rows of a later second. *)
Example history_same_second :
  let row i t := {| sh_id := i; sh_session_id := str "s"; sh_tool_md5 := [];
                    sh_tool_name := []; sh_retrieved_at := t |} in
  map sh_id (fold_right insert_by_time [] [row 1 5; row 2 5; row 3 7]%Z)
  = [3; 1; 2]%Z.
Proof. reflexivity. Qed.

Example like_other_server : Sql.like (str "a__%") (str "b__x") = false.
Proof. reflexivity. Qed.

Example like_folds_case : Sql.like (str "a__%") (str "A__X") = true.
Proof. reflexivity. Qed.

Example like_too_short : Sql.like (str "a__%") (str "ab") = false.
Proof. reflexivity. Qed.

Lemma jseqb_eq (a b : jsstring) : JS.eqb a b = true <-> a = b.
Proof.
  unfold JS.eqb. destruct (list_eq_dec N.eq_dec a b); split; congruence.
Qed.

Lemma jseqb_refl (a : jsstring) : JS.eqb a a = true.
Proof. now apply jseqb_eq. Qed.

Lemma jseqb_neq (a b : jsstring) : JS.eqb a b = false <-> a <> b.
Proof.
  unfold JS.eqb. destruct (list_eq_dec N.eq_dec a b); split; congruence.
Qed.

Section TrimFacts.

Variable p : N -> bool.

Lemma dropWhile_all (w s : jsstring) :
  forallb p w = true -> dropWhile p (w ++ s) = dropWhile p s.
Proof.
  induction w as [|c w IH]; simpl; intros H; [reflexivity|].
  apply andb_true_iff in H as [Hc Hw]. rewrite Hc. now apply IH.
Qed.

Lemma dropWhile_all_nil (w : jsstring) :
  forallb p w = true -> dropWhile p w = [].
Proof.
  intros H. rewrite <- (app_nil_r w). now rewrite dropWhile_all.
Qed.

Lemma dropWhile_some (s t : jsstring) :
  forallb p s = false -> dropWhile p (s ++ t) = dropWhile p s ++ t.
Proof.
  induction s as [|c s IH]; simpl; intros H; [discriminate|].
  destruct (p c); simpl in H; [now apply IH | reflexivity].
Qed.

(** What [dropWhile] removes is a run of matching units, and what it
    leaves does not start with one. *)
Lemma dropWhile_split (s : jsstring) :
  exists w, s = w ++ dropWhile p s /\ forallb p w = true.
Proof.
  induction s as [|c s [w [E Hw]]]; simpl.
  - now exists [].
  - destruct (p c) eqn:Hc.
    + exists (c :: w). simpl. rewrite Hc, Hw. split; [now f_equal | reflexivity].
    + now exists [].
Qed.

Lemma dropWhile_head (s : jsstring) (c : N) (r : jsstring) :
  dropWhile p s = c :: r -> p c = false.
Proof.
  induction s as [|d s IH]; simpl; [discriminate|].
  destruct (p d) eqn:Hd; [exact IH|].
  intros E. injection E as -> _. exact Hd.
Qed.

Lemma dropWhile_idem (s : jsstring) :
  dropWhile p (dropWhile p s) = dropWhile p s.
Proof.
  destruct (dropWhile p s) as [|c r] eqn:E; [reflexivity|].
  simpl. now rewrite (dropWhile_head s c r E).
Qed.

End TrimFacts.

Lemma forallb_rev (p : N -> bool) (s : jsstring) :
  forallb p (rev s) = forallb p s.
Proof.
  induction s as [|c s IH]; simpl; [reflexivity|].
  rewrite forallb_app, IH. simpl. rewrite andb_true_r. apply andb_comm.
Qed.

Lemma trimEnd_app_ws (s w : jsstring) :
  forallb isWhiteSpace w = true -> trimEnd (s ++ w) = trimEnd s.
Proof.
  intros H. unfold trimEnd. rewrite rev_app_distr, dropWhile_all; [reflexivity|].
  now rewrite forallb_rev.
Qed.

(** Whitespace appended to a text does not survive [trim]. *)
Lemma trim_app_ws (s w : jsstring) :
  forallb isWhiteSpace w = true -> trim (s ++ w) = trim s.
Proof.
  intros H. unfold trim, trimStart.
  destruct (forallb isWhiteSpace s) eqn:Hs.
  - rewrite dropWhile_all by exact Hs.
    now rewrite (dropWhile_all_nil _ w H), (dropWhile_all_nil _ s Hs).
  - rewrite dropWhile_some by exact Hs. now apply trimEnd_app_ws.
Qed.

(** Whitespace in front of a text does not survive [trim] either. *)
Lemma trim_ws_app (w s : jsstring) :
  forallb isWhiteSpace w = true -> trim (w ++ s) = trim s.
Proof.
  intros H. unfold trim, trimStart. now rewrite dropWhile_all.
Qed.

(** [trim] removes a run of whitespace at each end and nothing else. *)
Lemma trim_split (s : jsstring) :
  exists pre post,
    s = pre ++ trim s ++ post
    /\ forallb isWhiteSpace pre = true
    /\ forallb isWhiteSpace post = true.
Proof.
  destruct (dropWhile_split isWhiteSpace s) as [pre [E Hpre]].
  destruct (dropWhile_split isWhiteSpace (rev (trimStart s))) as [q [Eq Hq]].
  exists pre, (rev q). repeat split.
  - unfold trim, trimEnd. rewrite <- rev_app_distr, <- Eq, rev_involutive.
    exact E.
  - exact Hpre.
  - now rewrite forallb_rev.
Qed.

(** The trimmed text neither starts nor ends with whitespace. *)
Lemma trim_ends (s : jsstring) :
  (forall c r, trim s = c :: r -> isWhiteSpace c = false)
  /\ (forall r c, trim s = r ++ [c] -> isWhiteSpace c = false).
Proof.
  split.
  - intros c r E. unfold trim, trimEnd, trimStart in E.
    destruct (dropWhile_split isWhiteSpace (rev (dropWhile isWhiteSpace s)))
      as [q [Eq Hq]].
    apply (f_equal (@rev N)) in Eq. rewrite rev_involutive, rev_app_distr in Eq.
    rewrite E in Eq. simpl in Eq.
    eapply dropWhile_head with (s := s). rewrite Eq. reflexivity.
  - intros r c E. unfold trim, trimEnd in E.
    apply (f_equal (@rev N)) in E. rewrite rev_involutive, rev_app_distr in E.
    simpl in E. exact (dropWhile_head _ _ _ _ E).
Qed.

Lemma trim_idem (s : jsstring) : trim (trim s) = trim s.
Proof.
  destruct (trim_ends s) as [Hh Hl].
  destruct (trim s) as [|c r] eqn:E; [reflexivity|].
  unfold trim at 1, trimStart. simpl. rewrite (Hh c r eq_refl).
  unfold trimEnd.
  destruct (rev (c :: r)) as [|d q] eqn:Er.
  - apply (f_equal (@rev N)) in Er. rewrite rev_involutive in Er. discriminate.
  - simpl. rewrite (Hl (rev q) d).
    + rewrite <- Er. apply rev_involutive.
    + apply (f_equal (@rev N)) in Er. rewrite rev_involutive in Er. exact Er.
Qed.

(* ================================================================= *)
(** ** Properties of the tool identity *)

(** C4. The identity of a tool is the MD5 digest of its display name
    immediately followed by its description, with the whitespace at the two
    ends of the concatenation removed and nothing else: the hashed text is
    what remains of the concatenation between a leading and a trailing run
    of whitespace, and it neither starts nor ends with whitespace.  Equal
    inputs give equal identities, whitespace appended to the description
    does not change the identity, and the descriptions [hello world] and
    [hello world ] give the same identity. *)
Theorem generateToolMD5_spec (md5hex : jsstring -> jsstring) :
  (forall n d,
      exists text pre post,
        generateToolMD5 md5hex n d = md5hex text
        /\ n ++ d = pre ++ text ++ post
        /\ forallb isWhiteSpace pre = true
        /\ forallb isWhiteSpace post = true
        /\ (forall c r, text = c :: r -> isWhiteSpace c = false)
        /\ (forall r c, text = r ++ [c] -> isWhiteSpace c = false))
  /\ (forall n n' d d',
         n = n' -> d = d' ->
         generateToolMD5 md5hex n d = generateToolMD5 md5hex n' d')
  /\ (forall n d w,
         forallb isWhiteSpace w = true ->
         generateToolMD5 md5hex n (d ++ w) = generateToolMD5 md5hex n d)
  /\ (forall n,
         generateToolMD5 md5hex n (str "hello world ")
         = generateToolMD5 md5hex n (str "hello world")).
Proof.
  repeat split.
  - intros n d.
    destruct (trim_split (n ++ d)) as [pre [post [E [Hpre Hpost]]]].
    destruct (trim_ends (n ++ d)) as [Hh Hl].
    exists (trim (n ++ d)), pre, post. repeat split; assumption.
  - intros n n' d d' -> ->. reflexivity.
  - intros n d w Hw. unfold generateToolMD5.
    now rewrite app_assoc, trim_app_ws.
  - intros n. unfold generateToolMD5.
    change (str "hello world ") with (str "hello world" ++ [32%N]).
    now rewrite app_assoc, trim_app_ws.
Qed.


(** C4, at the two descriptions of the scenario and at a digest that
    returns its text. *)
Lemma generateToolMD5_spec_witness :
  generateToolMD5 (fun text => text) (str "A") (str "hello world" ++ [32%N])
  = generateToolMD5 (fun text => text) (str "A") (str "hello world").
Proof.
  apply (proj1 (proj2 (proj2 (generateToolMD5_spec (fun text => text))))).
  reflexivity.
Defined.

(* ================================================================= *)
(** ** The executor and the identity it recomputes *)




Section ExecutorFacts.

Variable E : Env.

Lemma find_tool_some (md5 : jsstring) (tools : list (MCPToolInfo E)) :
  forall base i t,
    find_tool E md5 base tools = Some (i, t) ->
    base <= i
    /\ nth_error tools (i - base) = Some t
    /\ executor_md5 t = md5
    /\ (forall j t', j < i - base -> nth_error tools j = Some t' ->
                     executor_md5 t' <> md5).
Proof.
  induction tools as [|x rest IH]; simpl; intros base i t H; [discriminate|].
  destruct (JS.eqb (executor_md5 x) md5) eqn:Hx.
  - injection H as <- <-. apply jseqb_eq in Hx.
    rewrite Nat.sub_diag. repeat split; auto. intros j t' Hj. lia.
  - apply IH in H as [Hle [Hnth [Hmd5 Hfirst]]].
    apply jseqb_neq in Hx.
    replace (i - base) with (S (i - S base)) by lia.
    repeat split; auto; [lia|].
    intros [|j] t' Hj Ht'; simpl in Ht'.
    + injection Ht' as <-. exact Hx.
    + apply (Hfirst j t'); [lia | exact Ht'].
Qed.

Lemma find_tool_none (md5 : jsstring) (tools : list (MCPToolInfo E)) :
  forall base,
    find_tool E md5 base tools = None <->
    (forall t, In t tools -> executor_md5 t <> md5).
Proof.
  induction tools as [|x rest IH]; simpl; intros base.
  - split; [intros _ t [] | reflexivity].
  - destruct (JS.eqb (executor_md5 x) md5) eqn:Hx.
    + apply jseqb_eq in Hx. split; [discriminate|].
      intros H. exfalso. apply (H x); auto.
    + apply jseqb_neq in Hx. rewrite IH. split.
      * intros H t [<- | Ht]; auto.
      * intros H t Ht. apply H. now right.
Qed.

(** The first live tool with the identity is the one [find_tool] finds. *)
Lemma find_tool_first (md5 : jsstring) (tools : list (MCPToolInfo E)) (i : nat)
    (t : MCPToolInfo E) :
  nth_error tools i = Some t ->
  executor_md5 t = md5 ->
  (forall j t', j < i -> nth_error tools j = Some t' -> executor_md5 t' <> md5) ->
  find_tool E md5 0 tools = Some (i, t).
Proof.
  intros Hnth Hmd5 Hfirst.
  destruct (find_tool E md5 0 tools) as [[k u]|] eqn:F.
  - apply find_tool_some in F as [_ [Hk [Hu Hkfirst]]].
    rewrite Nat.sub_0_r in Hk, Hkfirst.
    destruct (Nat.lt_trichotomy i k) as [Hlt | [-> | Hgt]].
    + exfalso. exact (Hkfirst i t Hlt Hnth Hmd5).
    + rewrite Hnth in Hk. now injection Hk as ->.
    + exfalso. exact (Hfirst k u Hgt Hk Hu).
  - exfalso. apply (proj1 (find_tool_none md5 tools 0) F t); auto.
    eapply nth_error_In; eauto.
Qed.

(** C9. With the live catalog listed, the executor recomputes the
    identity of the live tools in order, the MD5 digest of the trimmed text
    of the tool's name followed by its description, and invokes the first
    one whose digest is the requested one, once and with the given
    parameters: it answers with the serialised upstream result in one text
    block, or with an error block when the invocation throws.  When no live
    tool has that digest it invokes nothing and answers with an error
    block.  The persisted catalog is not an input of the handler. *)
Theorem executor_resolution (tools : list (MCPToolInfo E)) (md5 : jsstring)
    (parameters : JValue E) :
  (forall i t,
      nth_error tools i = Some t ->
      md5hex E (trim (template (name t) ++ template (description t))) = md5 ->
      (forall j t', j < i -> nth_error tools j = Some t' ->
         md5hex E (trim (template (name t') ++ template (description t')))
         <> md5) ->
      snd (executor E (Returned tools) md5 parameters) = [(i, parameters)]
      /\ (forall result,
             invoke t parameters = Returned result ->
             fst (executor E (Returned tools) md5 parameters)
             = {| content_text := JSON_stringify E result; isError := false |})
      /\ (forall message,
             invoke t parameters = Thrown message ->
             fst (executor E (Returned tools) md5 parameters)
             = {| content_text := Some (Text.execution_failed message);
                  isError := true |}))
  /\ ((forall t, In t tools ->
         md5hex E (trim (template (name t) ++ template (description t)))
         <> md5) ->
      executor E (Returned tools) md5 parameters
      = ({| content_text := Some (Text.not_found md5); isError := true |}, [])).
Proof.
  split.
  - intros i t Hnth Hmd5 Hfirst.
    unfold executor. rewrite (find_tool_first md5 tools i t Hnth Hmd5 Hfirst).
    destruct (invoke t parameters) as [result | message]; simpl;
      repeat split; intros x Hx; try discriminate; now injection Hx as <-.
  - intros Hnone. unfold executor.
    now rewrite (proj2 (find_tool_none md5 tools 0) Hnone).
Qed.

(** A catalog that cannot be listed gives an error block as well. *)
Lemma executor_catalog_failure (message md5 : jsstring) (parameters : JValue E) :
  executor E (Thrown message) md5 parameters
  = ({| content_text := Some (Text.execution_failed message); isError := true |},
     []).
Proof. reflexivity. Qed.


End ExecutorFacts.

(** C9, on a catalog of two tools of which the second has the identity
    asked for. *)
Lemma executor_resolution_witness :
  let E := Example.env Example.embed_const in
  let tools := [Example.tool E "srv__s" "other"; Example.tool E "srv__t" "does t"] in
  executor E (Returned tools) (str "srv__tdoes t") (str "{}")
  = ({| content_text := Some (str "{}"); isError := false |},
     [(1, str "{}")]).
Proof.
  intros E tools.
  destruct (proj1 (executor_resolution E tools (str "srv__tdoes t") (str "{}"))
              1 (Example.tool E "srv__t" "does t") eq_refl eq_refl)
    as [Hlog [Hok _]].
  - intros [|[|j]] t' Hj Ht'; try lia.
    injection Ht' as <-. vm_compute. discriminate.
  - rewrite (surjective_pairing (executor _ _ _ _)), Hlog, (Hok (str "{}") eq_refl).
    reflexivity.
Defined.


(* ================================================================= *)
(** ** Generated session ids *)

Lemma firstn_forallb (p : N -> bool) (n : nat) (s : jsstring) :
  forallb p s = true -> forallb p (firstn n s) = true.
Proof.
  revert s. induction n as [|n IH]; intros [|c s]; simpl; auto.
  intros H. apply andb_true_iff in H as [-> Hs]. now apply IH.
Qed.

(** What the generator does guarantee: the id is the first six digits
    after the point, so it has at most six units, all of them base-36
    digits, and exactly six when the expansion has that many. *)
Lemma generateSessionId_shape (digits : jsstring) :
  forallb is_base36_digit digits = true ->
  generateSessionId (str "0." ++ digits) = firstn 6 digits
  /\ List.length (generateSessionId (str "0." ++ digits)) <= 6
  /\ forallb is_base36_digit (generateSessionId (str "0." ++ digits)) = true
  /\ (6 <= List.length digits ->
      List.length (generateSessionId (str "0." ++ digits)) = 6).
Proof.
  intros H. unfold generateSessionId, substring. simpl skipn. simpl Nat.sub.
  repeat split.
  - apply firstn_le_length.
  - now apply firstn_forallb.
  - intros Hlen. rewrite length_firstn. lia.
Qed.

(** C7. [Math.random()] can return 0.5, whose base-36 expansion is
    [0.i]; the id generated from it is the one-unit string [i], not a
    string of six units.  From 0, whose expansion is [0], the id is
    empty.  This holds for an empty and for an unknown session id alike. *)
Theorem generated_session_id_short (db : Database) :
  fraction36 (str "i") = (18, 36)%Z
  /\ generateSessionId (str "0.i") = str "i"
  /\ List.length (generateSessionId (str "0.i")) = 1
  /\ generateSessionId (str "0") = []
  /\ resolve_session db (str "0.i") [] = (str "i", true)
  /\ resolve_session empty_db (str "0.i") (str "ZZZZZZ") = (str "i", true)
  /\ response_session_id
       (snd (retriever (Example.env Example.embed_const) collision_db
               (Returned (collision_tools _)) (str "0.i") [str "tool x"] []
               None))
     = Some (str "i").
Proof. repeat split. Qed.

(* ================================================================= *)
(** ** The similarity search *)

Lemma In_firstn {A : Type} (n : nat) (rows : list A) (x : A) :
  In x (firstn n rows) -> In x rows.
Proof.
  revert rows. induction n as [|n IH]; intros [|y rows]; simpl; auto.
  - intros [].
  - intros [-> | H]; auto.
Qed.

Lemma In_limit {A : Type} (n : Z) (rows : list A) (x : A) :
  In x (Sql.limit n rows) -> In x rows.
Proof.
  unfold Sql.limit. destruct (n <? 0)%Z; [auto|]. apply In_firstn.
Qed.

Lemma In_insert_by_distance (r x : SearchResult) (rows : list SearchResult) :
  In x (insert_by_distance r rows) <-> x = r \/ In x rows.
Proof.
  induction rows as [|y rest IH]; simpl.
  - intuition auto.
  - destruct (PrimFloat.ltb (sr_distance y) (sr_distance r)); simpl.
    + rewrite IH. intuition auto.
    + intuition auto.
Qed.

Lemma In_order_by_distance (x : SearchResult) (rows : list SearchResult) :
  In x (order_by_distance rows) <-> In x rows.
Proof.
  induction rows as [|y rest IH]; simpl; [reflexivity|].
  rewrite In_insert_by_distance, IH. intuition auto.
Qed.

Lemma order_by_distance_length (rows : list SearchResult) :
  List.length (order_by_distance rows) = List.length rows.
Proof.
  assert (Hins : forall r l,
             List.length (insert_by_distance r l) = S (List.length l)).
  { intros r l. induction l as [|y l IH]; simpl; [reflexivity|].
    destruct (PrimFloat.ltb (sr_distance y) (sr_distance r)); simpl; auto. }
  induction rows as [|y rest IH]; simpl; [reflexivity|].
  now rewrite Hins, IH.
Qed.

Section SearchFacts.

Variable E : Env.

(** Every row of a search is a joined row whose similarity reaches the
    threshold. *)
Lemma searchSimilarVectors_sound (db : Database) (q : vector) (k : Z)
    (threshold : float) (serverNames : option (list jsstring)) (r : SearchResult) :
  In r (searchSimilarVectors E db q k threshold serverNames) ->
  In r (joined_rows E db q)
  /\ PrimFloat.leb threshold (sr_similarity r) = true.
Proof.
  unfold searchSimilarVectors. intros H.
  apply In_limit, In_order_by_distance, filter_In in H as [Hin Hw].
  split; [exact Hin|].
  destruct serverNames as [[|s names]|]; auto.
  now apply andb_true_iff in Hw as [Hw _].
Qed.

(** What the server filter does guarantee: the name of every returned
    row matches the [LIKE] pattern of one of the servers. *)
Lemma searchSimilarVectors_server_like (db : Database) (q : vector) (k : Z)
    (threshold : float) (s : jsstring) (names : list jsstring) (r : SearchResult) :
  In r (searchSimilarVectors E db q k threshold (Some (s :: names))) ->
  exists serverName,
    In serverName (s :: names)
    /\ Sql.like (serverName ++ str "__%") (sr_tool_name r) = true.
Proof.
  unfold searchSimilarVectors. intros H.
  apply In_limit, In_order_by_distance, filter_In in H as [_ Hw].
  apply andb_true_iff in Hw as [_ Hw].
  unfold server_condition in Hw. apply existsb_exists in Hw. exact Hw.
Qed.

(** A joined row comes from a vector, a mapping row and a record. *)
Lemma joined_rows_In (db : Database) (q : vector) (r : SearchResult) :
  In r (joined_rows E db q) <->
  exists vte tm tv,
    In vte (vec_tool_embeddings db) /\ In tm (tool_mapping db)
    /\ In tv (tool_vectors db)
    /\ fst vte = fst tm /\ snd tm = tv_id tv
    /\ r = joined_row E q vte tv.
Proof.
  unfold joined_rows. rewrite in_flat_map. split.
  - intros [vte [Hvte H]]. apply in_flat_map in H as [tm [Htm H]].
    destruct (fst vte =? fst tm)%Z eqn:E1; [|destruct H].
    apply in_flat_map in H as [tv [Htv H]].
    destruct (snd tm =? tv_id tv)%Z eqn:E2; [|destruct H].
    destruct H as [<- | []].
    exists vte, tm, tv. apply Z.eqb_eq in E1, E2. repeat split; auto.
  - intros [vte [tm [tv [Hvte [Htm [Htv [E1 [E2 ->]]]]]]]].
    exists vte. split; [exact Hvte|]. apply in_flat_map.
    exists tm. split; [exact Htm|].
    rewrite (proj2 (Z.eqb_eq _ _) E1). apply in_flat_map.
    exists tv. split; [exact Htv|].
    rewrite (proj2 (Z.eqb_eq _ _) E2). now left.
Qed.

End SearchFacts.

(** C1. With servers [a] and [aa] each holding a tool [x], a search
    filtered to the server [a] returns both [a__x] and [aa__x], and so
    does a retrieval with that server list, although [aa__x] does not
    start with [a__]: in the [LIKE] pattern [a__%] each underscore matches
    any character. *)
Theorem server_filter_prefix_collision :
  let E := Example.env Example.embed_const in
  map sr_tool_name
    (searchSimilarVectors E collision_db [1%float; 0%float] 5 0.1
       (Some [str "a"]))
  = [str "a__x"; str "aa__x"]
  /\ starts_with (str "a__") (str "aa__x") = false
  /\ Sql.like (str "a" ++ str "__%") (str "aa__x") = true
  /\ new_tool_names
       (snd (retriever E collision_db (Returned (collision_tools E))
               (str "0.4fzyo82mvyr") [str "tool x"] [] (Some [str "a"])))
     = [str "a__x"; str "aa__x"].
Proof. vm_compute. repeat split. Qed.

(* ================================================================= *)
(** ** Records, vectors and mapping rows *)

Section StoreFacts.

Variable E : Env.

(** Saving a tool that is already stored adds a mapping row to its
    record, whatever the store, as long as no mapping row carries a rowid
    the vector table has yet to hand out. *)
Lemma saveToolVector_existing (db : Database) (n d : jsstring) (v : vector)
    (m : jsstring) (row : ToolVector) :
  (forall mp, In mp (tool_mapping db) -> (fst mp <= vec_seq db)%Z) ->
  getToolByMD5 db (generateToolMD5 (md5hex E) n d) m = Some row ->
  snd (saveToolVector E db n d v m) = tv_id row
  /\ mappings_of (fst (saveToolVector E db n d v m)) (tv_id row)
     = mappings_of db (tv_id row) ++ [((vec_seq db + 1)%Z, tv_id row)]
  /\ List.length (vec_tool_embeddings (fst (saveToolVector E db n d v m)))
     = S (List.length (vec_tool_embeddings db)).
Proof.
  intros Hfresh Hrow. unfold saveToolVector. rewrite Hrow. simpl.
  split; [reflexivity|]. split.
  - unfold mappings_of. simpl. rewrite filter_app. simpl.
    rewrite Z.eqb_refl. f_equal.
    f_equal. apply forallb_filter_id. apply forallb_forall.
    intros mp Hmp. apply Hfresh in Hmp.
    apply negb_true_iff, Z.eqb_neq. lia.
  - rewrite length_app. simpl. lia.
Qed.

(** C5. Saving the same tool twice into an empty store leaves one
    record with two mapping rows and two vectors: the second save updates
    the record, inserts a second vector and adds a mapping row under the
    new rowid, which replaces nothing. *)
Theorem upsert_existing_second_vector (n d : jsstring) (v1 v2 : vector)
    (m : jsstring) :
  let db1 := fst (saveToolVector E empty_db n d v1 m) in
  let db2 := fst (saveToolVector E db1 n d v2 m) in
  snd (saveToolVector E empty_db n d v1 m) = 1%Z
  /\ snd (saveToolVector E db1 n d v2 m) = 1%Z
  /\ map tv_id (tool_vectors db2) = [1%Z]
  /\ tool_mapping db2 = [(1, 1); (2, 1)]%Z
  /\ vec_tool_embeddings db2 = [(1%Z, v1); (2%Z, v2)].
Proof.
  unfold saveToolVector, getToolByMD5, md5_model_match. simpl.
  rewrite !jseqb_refl. simpl. repeat split.
Qed.

End StoreFacts.

(* ================================================================= *)
(** ** Retrieval *)

Section RetrievalFacts.

Variable E : Env.

Lemma count_tools_from {T : Type} (l : list (QueryTools T)) (n : nat) :
  fold_left (fun sum item => sum + List.length (tools item)) l n
  = n + count_tools l.
Proof.
  unfold count_tools. revert n.
  induction l as [|x l IH]; intros n; simpl; [lia|].
  rewrite IH, (IH (List.length (tools x))). lia.
Qed.

Lemma count_tools_cons {T : Type} (x : QueryTools T) (l : list (QueryTools T)) :
  count_tools (x :: l) = List.length (tools x) + count_tools l.
Proof.
  unfold count_tools at 1. simpl. apply count_tools_from.
Qed.

(** With no live tool nothing is recommended. *)
Lemma recommendTools_no_live_tools (db : Database) (text : jsstring) (k : Z)
    (threshold : float) (details : bool) (serverNames : option (list jsstring))
    (v : vector) :
  vectorizeString E text = Returned v ->
  recommendTools E db text (Returned []) k threshold details serverNames
  = Returned [].
Proof.
  intros Hv. unfold recommendTools, searchSimilarTools. rewrite Hv. simpl.
  destruct (map SimilarTool_of _) as [|x l]; [reflexivity|].
  unfold findMatchingMCPTools. simpl.
  replace (flat_map _ l) with (@nil (MatchedTool E)); [reflexivity|].
  induction l; simpl; auto.
Qed.

Lemma retrieve_from_no_live_tools (db : Database)
    (serverNames : option (list jsstring)) (known : list jsstring)
    (descriptions : list jsstring) :
  (forall d, In d descriptions -> exists v, vectorizeString E d = Returned v) ->
  forall i,
    retrieve_from E db (Returned []) serverNames known i descriptions
    = Returned ([], []).
Proof.
  induction descriptions as [|d rest IH]; intros Hv i; simpl; [reflexivity|].
  destruct (Hv d (or_introl eq_refl)) as [v Hd].
  rewrite (recommendTools_no_live_tools _ _ _ _ _ _ v Hd). simpl.
  rewrite IH; [reflexivity|]. intros d' Hd'. apply Hv. now right.
Qed.

(** [server_description] is part of a result exactly when the session is
    a first-time one. *)
Lemma server_description_first_time (db : Database) (mcpClient : MCPClient E)
    (random36 : jsstring) (descriptions : list jsstring) (sessionId : jsstring)
    (serverNames : option (list jsstring)) (db' : Database)
    (result : RetrieverResult E) (note : jsstring) :
  retriever E db mcpClient random36 descriptions sessionId serverNames
  = (db', RetrieverContent result note) ->
  session_id result = fst (resolve_session db random36 sessionId)
  /\ (rr_server_description result
      = if snd (resolve_session db random36 sessionId)
        then Some (getEnhancedServerDescription E db mcpClient) else None).
Proof.
  unfold retriever.
  destruct (resolve_session db random36 sessionId) as [sid first].
  destruct (retrieve_from _ _ _ _ _ _ _) as [[n k] | msg]; [|discriminate].
  intros H. injection H as _ <- _. simpl. now destruct first.
Qed.

(** The session is a first-time one when no session id is given or the
    given one has no history. *)
Lemma first_time_session (db : Database) (random36 sessionId : jsstring) :
  snd (resolve_session db random36 sessionId) = true
  <-> sessionId = [] \/ getSessionHistory db sessionId = [].
Proof.
  unfold resolve_session. destruct sessionId as [|c s].
  - simpl. tauto.
  - destruct (getSessionHistory db (c :: s)) as [|h hs]; simpl.
    + tauto.
    + split; [discriminate|]. intros [H | H]; discriminate.
Qed.

(** C8, as amended.  In every result, whatever the store, the catalog and
    the session id, [server_description] is present exactly when the
    session is a first-time one, that is when no session id was given or
    the given one has no history, and it is then the text
    [getEnhancedServerDescription] makes.  With no enabled server in the
    store, no live tool and descriptions that embed, a retrieval with an
    empty session id leaves the store as it is and answers with no new
    tools, no known tools, the id generated from the random text, which has
    six characters when that text has eight or more, and a
    [server_description] that is present and is the empty string. *)
Theorem empty_catalog_retrieval (db : Database) (random36 : jsstring)
    (descriptions : list jsstring) (serverNames : option (list jsstring)) :
  (forall mcpClient sessionId db' result note,
      retriever E db mcpClient random36 descriptions sessionId serverNames
      = (db', RetrieverContent result note) ->
      (rr_server_description result <> None
       <-> sessionId = [] \/ getSessionHistory db sessionId = [])
      /\ (sessionId = [] \/ getSessionHistory db sessionId = [] ->
          rr_server_description result
          = Some (getEnhancedServerDescription E db mcpClient)))
  /\ (enabled_servers db = [] ->
      (forall d, In d descriptions -> exists v, vectorizeString E d = Returned v) ->
      exists result note,
        retriever E db (Returned []) random36 descriptions [] serverNames
        = (db, RetrieverContent result note)
        /\ new_tools result = []
        /\ known_tools result = []
        /\ session_id result = generateSessionId random36
        /\ (8 <= List.length random36 -> List.length (session_id result) = 6)
        /\ rr_server_description result = Some []).
Proof.
  split.
  - intros mcpClient sessionId db' result note H.
    apply server_description_first_time in H as [_ ->].
    rewrite <- (first_time_session db random36 sessionId).
    destruct (snd (resolve_session db random36 sessionId)); split;
      try split; congruence.
  - intros Hnone Hv. unfold retriever.
    unfold getEnhancedServerDescription. rewrite Hnone. simpl.
    rewrite (retrieve_from_no_live_tools _ _ _ _ Hv). simpl.
    eexists. eexists. split; [reflexivity|]. simpl. repeat split.
    intros Hlen. unfold generateSessionId, substring.
    rewrite firstn_length_le; [reflexivity|]. rewrite length_skipn. lia.
Qed.

(** The store after a retrieval that answers. *)
Lemma retriever_records (db : Database) (mcpClient : MCPClient E)
    (random36 : jsstring) (descriptions : list jsstring) (sessionId : jsstring)
    (serverNames : option (list jsstring)) (db' : Database)
    (result : RetrieverResult E) (note : jsstring) :
  retriever E db mcpClient random36 descriptions sessionId serverNames
  = (db', RetrieverContent result note) ->
  let sid := fst (resolve_session db random36 sessionId) in
  let known := map sh_tool_md5 (getSessionHistory db sid) in
  session_id result = sid
  /\ retrieve_from E db mcpClient serverNames known 0 descriptions
     = Returned (new_tools result, known_tools result)
  /\ db' = fst (recordSessionToolRetrievalBatch E db sid
                  (newToolsToRecord (new_tools result)))
  /\ new_tools_count (summary result) = count_tools (new_tools result)
  /\ known_tools_count (summary result) = count_tools (known_tools result).
Proof.
  unfold retriever.
  destruct (resolve_session db random36 sessionId) as [sid first]. simpl.
  destruct (retrieve_from _ _ _ _ _ _ _) as [[n k] | msg]; [|discriminate].
  intros H. injection H as <- <- _. simpl. repeat split.
  destruct (newToolsToRecord n); reflexivity.
Qed.

(* ----------------------------------------------------------------- *)
(** *** Session history *)

(** Ordering by time rearranges the rows and nothing else. *)
Lemma insert_by_time_perm (r : SessionToolHistory) (rows : list SessionToolHistory) :
  Permutation (insert_by_time r rows) (r :: rows).
Proof.
  induction rows as [|x rest IH]; simpl; [apply Permutation_refl|].
  destruct (sh_retrieved_at r <? sh_retrieved_at x)%Z.
  - eapply perm_trans; [apply perm_skip, IH | apply perm_swap].
  - apply Permutation_refl.
Qed.

Lemma by_time_perm (rows : list SessionToolHistory) :
  Permutation (fold_right insert_by_time [] rows) rows.
Proof.
  induction rows as [|r rest IH]; simpl; [apply perm_nil|].
  eapply perm_trans; [apply insert_by_time_perm | apply perm_skip, IH].
Qed.

Lemma getSessionHistory_perm (db : Database) (sid : jsstring) :
  Permutation (getSessionHistory db sid)
    (filter (fun r => JS.eqb (sh_session_id r) sid) (session_tool_history db)).
Proof. apply by_time_perm. Qed.

Lemma getSessionHistory_In (db : Database) (sid : jsstring) (r : SessionToolHistory) :
  In r (getSessionHistory db sid)
  <-> In r (session_tool_history db) /\ JS.eqb (sh_session_id r) sid = true.
Proof.
  split; intros H.
  - apply (Permutation_in _ (getSessionHistory_perm db sid)) in H.
    apply filter_In in H. exact H.
  - apply (Permutation_in _ (Permutation_sym (getSessionHistory_perm db sid))).
    apply filter_In. exact H.
Qed.

Lemma getSessionHistory_length (db : Database) (sid : jsstring) :
  List.length (getSessionHistory db sid)
  = List.length (filter (fun r => JS.eqb (sh_session_id r) sid)
                   (session_tool_history db)).
Proof. apply Permutation_length, getSessionHistory_perm. Qed.

Lemma has_history (db : Database) (sid md5 : jsstring) :
  has (map sh_tool_md5 (getSessionHistory db sid)) md5
  = isToolRetrievedBySession db sid md5.
Proof.
  unfold has, isToolRetrievedBySession.
  apply eq_true_iff_eq. rewrite !existsb_exists. split.
  - intros [x [Hx Heq]]. apply in_map_iff in Hx as [r [<- Hr]].
    apply getSessionHistory_In in Hr as [Hr Hs].
    exists r. split; [exact Hr|]. rewrite Hs. simpl.
    apply jseqb_eq in Heq. apply jseqb_eq. congruence.
  - intros [r [Hr Hb]]. apply andb_true_iff in Hb as [Hs Hm].
    exists (sh_tool_md5 r). split.
    + apply in_map, getSessionHistory_In. now split.
    + apply jseqb_eq in Hm. apply jseqb_eq. congruence.
Qed.

Lemma history_nonempty (db : Database) (sid md5 : jsstring) :
  isToolRetrievedBySession db sid md5 = true -> getSessionHistory db sid <> [].
Proof.
  rewrite <- has_history. unfold has. intros H Hnil. rewrite Hnil in H.
  discriminate.
Qed.

Lemma record_same_tools (db : Database) (sid md5 n : jsstring) :
  same_tools db (fst (recordSessionToolRetrieval E db sid md5 n)).
Proof.
  unfold recordSessionToolRetrieval, same_tools. simpl. auto.
Qed.

Lemma record_keeps (db : Database) (sid md5 n sid' md5' : jsstring) :
  isToolRetrievedBySession db sid' md5' = true ->
  isToolRetrievedBySession (fst (recordSessionToolRetrieval E db sid md5 n))
    sid' md5' = true.
Proof.
  unfold recordSessionToolRetrieval.
  destruct (isToolRetrievedBySession db sid md5); simpl; auto.
  unfold isToolRetrievedBySession. simpl. rewrite existsb_app.
  intros ->. reflexivity.
Qed.

Lemma record_records (db : Database) (sid md5 n : jsstring) :
  isToolRetrievedBySession (fst (recordSessionToolRetrieval E db sid md5 n))
    sid md5 = true.
Proof.
  unfold recordSessionToolRetrieval.
  destruct (isToolRetrievedBySession db sid md5) eqn:H; simpl; auto.
  unfold isToolRetrievedBySession. simpl. rewrite existsb_app. simpl.
  rewrite !jseqb_refl. simpl. apply orb_true_r.
Qed.

Lemma batch_step (db : Database) (sid : jsstring) (t : SessionToolRecord)
    (rest : list SessionToolRecord) :
  fst (recordSessionToolRetrievalBatch E db sid (t :: rest))
  = fst (recordSessionToolRetrievalBatch E
           (fst (recordSessionToolRetrieval E db sid (toolMD5 t) (toolName t)))
           sid rest).
Proof.
  cbn [recordSessionToolRetrievalBatch].
  destruct (recordSessionToolRetrieval E db sid (toolMD5 t) (toolName t))
    as [db1 r]. cbn [fst].
  destruct (recordSessionToolRetrievalBatch E db1 sid rest) as [db2 ids].
  reflexivity.
Qed.

Lemma batch_same_tools (sid : jsstring) (l : list SessionToolRecord) :
  forall db, same_tools db (fst (recordSessionToolRetrievalBatch E db sid l)).
Proof.
  induction l as [|t rest IH]; intros db.
  - simpl. unfold same_tools. auto.
  - rewrite batch_step.
    destruct (record_same_tools db sid (toolMD5 t) (toolName t)) as [A [B C]].
    destruct (IH (fst (recordSessionToolRetrieval E db sid (toolMD5 t) (toolName t))))
      as [A' [B' C']].
    unfold same_tools. rewrite A, B, C. auto.
Qed.

Lemma batch_keeps (sid sid' md5' : jsstring) (l : list SessionToolRecord) :
  forall db,
    isToolRetrievedBySession db sid' md5' = true ->
    isToolRetrievedBySession (fst (recordSessionToolRetrievalBatch E db sid l))
      sid' md5' = true.
Proof.
  induction l as [|t rest IH]; intros db H; [exact H|].
  rewrite batch_step. apply IH. now apply record_keeps.
Qed.

Lemma batch_records (sid : jsstring) (l : list SessionToolRecord) :
  forall db t,
    In t l ->
    isToolRetrievedBySession (fst (recordSessionToolRetrievalBatch E db sid l))
      sid (toolMD5 t) = true.
Proof.
  induction l as [|x rest IH]; intros db t Hin; [destruct Hin|].
  rewrite batch_step. destruct Hin as [-> | Hin].
  - apply batch_keeps, record_records.
  - now apply IH.
Qed.

(* ----------------------------------------------------------------- *)
(** *** Replaying a retrieval *)

Lemma recommendTools_same_tools (db db' : Database) (text : jsstring)
    (mcpClient : MCPClient E) (k : Z) (threshold : float) (details : bool)
    (serverNames : option (list jsstring)) :
  same_tools db db' ->
  recommendTools E db text mcpClient k threshold details serverNames
  = recommendTools E db' text mcpClient k threshold details serverNames.
Proof.
  intros [A [B C]].
  unfold recommendTools, searchSimilarTools, searchSimilarVectors, joined_rows.
  now rewrite A, B, C.
Qed.

Lemma partition_lengths (known : list jsstring)
    (recs : list (RecommendationResult E)) :
  forall i,
    List.length (fst (partition_from E i known recs))
    + List.length (snd (partition_from E i known recs))
    = List.length recs.
Proof.
  induction recs as [|r rest IH]; intros i; simpl; [reflexivity|].
  specialize (IH (S i)).
  destruct (partition_from E (S i) known rest) as [n k].
  destruct (has known (rec_tool_md5 r)); simpl in *; lia.
Qed.

Lemma partition_all_known (known : list jsstring)
    (recs : list (RecommendationResult E)) :
  (forall r, In r recs -> has known (rec_tool_md5 r) = true) ->
  forall i, fst (partition_from E i known recs) = [].
Proof.
  induction recs as [|r rest IH]; intros Hall i; simpl; [reflexivity|].
  rewrite (Hall r (or_introl eq_refl)).
  specialize (IH (fun x Hx => Hall x (or_intror Hx)) (S i)).
  destruct (partition_from E (S i) known rest) as [n k]. exact IH.
Qed.

(** A recommendation is known or is reported as new. *)
Lemma partition_covers (known : list jsstring)
    (recs : list (RecommendationResult E)) :
  forall i r,
    In r recs ->
    has known (rec_tool_md5 r) = true
    \/ exists t, In t (fst (partition_from E i known recs))
                 /\ nt_md5 t = rec_tool_md5 r.
Proof.
  induction recs as [|x rest IH]; intros i r Hin; [destruct Hin|].
  simpl. specialize (IH (S i)).
  destruct (partition_from E (S i) known rest) as [n k].
  destruct Hin as [-> | Hin].
  - destruct (has known (rec_tool_md5 r)) eqn:Hk; [now left|].
    right. exists (new_of (i + 1) r). split; [now left | reflexivity].
  - destruct (IH r Hin) as [Hk | [t [Ht Hmd5]]]; [now left|].
    right. exists t. split; [|exact Hmd5].
    destruct (has known (rec_tool_md5 x)); simpl in *; auto.
Qed.

(** A retrieval replayed over the same tools with a known set that
    holds what was known and what was reported as new reports nothing as
    new and everything as known. *)
Lemma retrieve_from_replay (db db' : Database) (mcpClient : MCPClient E)
    (serverNames : option (list jsstring)) (known1 known2 : list jsstring)
    (descriptions : list jsstring) :
  same_tools db db' ->
  (forall md5, has known1 md5 = true -> has known2 md5 = true) ->
  forall i n1 k1,
    retrieve_from E db mcpClient serverNames known1 i descriptions
    = Returned (n1, k1) ->
    (forall q t, In q n1 -> In t (tools q) -> has known2 (nt_md5 t) = true) ->
    exists k2,
      retrieve_from E db' mcpClient serverNames known2 i descriptions
      = Returned ([], k2)
      /\ count_tools k2 = count_tools n1 + count_tools k1.
Proof.
  intros Hsame Hsub.
  induction descriptions as [|d rest IH]; intros i n1 k1 H Hnew; simpl in *.
  - injection H as <- <-. exists []. split; reflexivity.
  - rewrite <- (recommendTools_same_tools db db' _ _ _ _ _ _ Hsame).
    destruct (recommendTools E db d mcpClient _ _ true serverNames)
      as [recs | msg]; [|discriminate]. simpl in *.
    destruct (retrieve_from E db mcpClient serverNames known1 (S i) rest)
      as [[n' k'] | msg] eqn:Hrest; [|discriminate]. simpl in *.
    pose proof (partition_lengths known1 recs 0) as Hlen1.
    pose proof (partition_covers known1 recs 0) as Hcov.
    destruct (partition_from E 0 known1 recs) as [nq kq]. simpl in *.
    injection H as <- <-.
    assert (Hall : forall r, In r recs -> has known2 (rec_tool_md5 r) = true).
    { intros r Hr. destruct (Hcov r Hr) as [Hk | [t [Ht Hmd5]]]; [now apply Hsub|].
      rewrite <- Hmd5. destruct nq as [|t0 nq]; [destruct Ht|].
      eapply Hnew; [left; reflexivity | exact Ht]. }
    destruct (IH (S i) n' k' Hrest) as [k2 [Hk2 Hcount]].
    { intros q t Hq Ht. apply (Hnew q t); [|exact Ht].
      destruct nq; [exact Hq | now right]. }
    rewrite Hk2. simpl.
    pose proof (partition_lengths known2 recs 0) as Hlen2.
    pose proof (partition_all_known known2 recs Hall 0) as Hnil.
    destruct (partition_from E 0 known2 recs) as [nq2 kq2]. simpl in *.
    subst nq2. eexists. split; [reflexivity|].
    assert (Hn1 : count_tools
                    match nq with
                    | [] => n'
                    | _ :: _ => {| query_index := i; query := d; tools := nq |} :: n'
                    end = List.length nq + count_tools n').
    { destruct nq; [reflexivity | now rewrite count_tools_cons]. }
    assert (Hk1 : count_tools
                    match kq with
                    | [] => k'
                    | _ :: _ => {| query_index := i; query := d; tools := kq |} :: k'
                    end = List.length kq + count_tools k').
    { destruct kq; [reflexivity | now rewrite count_tools_cons]. }
    rewrite Hn1, Hk1.
    destruct kq2; [simpl in *; lia | rewrite count_tools_cons; simpl in *; lia].
Qed.

(** C2, as amended.  If a retrieval answers, every tool it reports as
    new is in the history of the session of the answer in the store it
    leaves, and that session is the one asked for when that one had a
    history.  A second retrieval over that store with the same live
    catalog, descriptions and server list and with the session id of the
    first answer, that id not being empty, answers too, reports no new
    tool, and counts at least as many known tools as the first reported
    new. *)
Theorem session_monotonicity (db : Database) (mcpClient : MCPClient E)
    (random1 random2 : jsstring) (descriptions : list jsstring)
    (sessionId : jsstring) (serverNames : option (list jsstring))
    (db1 : Database) (r1 : RetrieverResult E) (note1 : jsstring) :
  retriever E db mcpClient random1 descriptions sessionId serverNames
  = (db1, RetrieverContent r1 note1) ->
  (forall q t, In q (new_tools r1) -> In t (tools q) ->
               isToolRetrievedBySession db1 (session_id r1) (nt_md5 t) = true)
  /\ (sessionId <> [] -> getSessionHistory db sessionId <> [] ->
      session_id r1 = sessionId)
  /\ (session_id r1 <> [] ->
      exists db2 r2 note2,
        retriever E db1 mcpClient random2 descriptions (session_id r1) serverNames
        = (db2, RetrieverContent r2 note2)
        /\ new_tools r2 = []
        /\ new_tools_count (summary r2) = 0
        /\ new_tools_count (summary r1) <= known_tools_count (summary r2)).
Proof.
  intros H1.
  destruct (retriever_records _ _ _ _ _ _ _ _ _ H1)
    as [Hsid [Hret [Hdb1 [Hnc Hkc]]]].
  rewrite Hsid.
  assert (Hfirst : sessionId <> [] -> getSessionHistory db sessionId <> [] ->
                   fst (resolve_session db random1 sessionId) = sessionId).
  { intros Hne Hhist. unfold resolve_session.
    destruct sessionId as [|c s]; [contradiction|].
    destruct (getSessionHistory db (c :: s)); [contradiction | reflexivity]. }
  remember (fst (resolve_session db random1 sessionId)) as sid eqn:Esid.
  clear Esid Hsid.
  assert (Hrec : forall q t, In q (new_tools r1) -> In t (tools q) ->
                 isToolRetrievedBySession db1 sid (nt_md5 t) = true).
  { intros q t Hq Ht. rewrite Hdb1.
    apply (batch_records sid (newToolsToRecord (new_tools r1)) db
             {| toolMD5 := nt_md5 t; toolName := nt_tool_name t |}).
    unfold newToolsToRecord. apply in_flat_map. exists q. split; [exact Hq|].
    apply in_map_iff. exists t. now split. }
  split; [exact Hrec|]. split; [exact Hfirst|].
  intros Hne.
  assert (Hsame : same_tools db db1).
  { rewrite Hdb1. apply batch_same_tools. }
  assert (Hkeep : forall md5, isToolRetrievedBySession db sid md5 = true ->
                              isToolRetrievedBySession db1 sid md5 = true).
  { intros md5 Hk. rewrite Hdb1. now apply batch_keeps. }
  destruct (resolve_session db1 random2 sid) as [sid2 first2] eqn:Hres.
  assert (Hcases :
            (forall md5, isToolRetrievedBySession db sid md5 = true ->
                         has (map sh_tool_md5 (getSessionHistory db1 sid2)) md5
                         = true)
            /\ (forall q t, In q (new_tools r1) -> In t (tools q) ->
                            has (map sh_tool_md5 (getSessionHistory db1 sid2))
                              (nt_md5 t) = true)).
  { unfold resolve_session in Hres.
    destruct sid as [|c s]; [contradiction|].
    destruct (getSessionHistory db1 (c :: s)) as [|h hs] eqn:Hh.
    - split.
      + intros md5 Hk. apply Hkeep, history_nonempty in Hk. contradiction.
      + intros q t Hq Ht. pose proof (Hrec q t Hq Ht) as Hk.
        apply history_nonempty in Hk. contradiction.
    - injection Hres as <- _. split.
      + intros md5 Hk. rewrite has_history. now apply Hkeep.
      + intros q t Hq Ht. rewrite has_history. exact (Hrec q t Hq Ht). }
  destruct Hcases as [Hsub Hnew].
  destruct (retrieve_from_replay db db1 mcpClient serverNames
              (map sh_tool_md5 (getSessionHistory db sid))
              (map sh_tool_md5 (getSessionHistory db1 sid2))
              descriptions Hsame) with (i := 0) (n1 := new_tools r1)
              (k1 := known_tools r1) as [k2 [Hk2 Hcount]].
  - intros md5 Hk. rewrite has_history in Hk. now apply Hsub.
  - exact Hret.
  - exact Hnew.
  - unfold retriever. rewrite Hres, Hk2. simpl.
    eexists. eexists. eexists. split; [reflexivity|]. simpl.
    repeat split. rewrite Hnc. lia.
Qed.

End RetrievalFacts.

(** C8: with no server at all the description that is returned is the
    empty string; and when the random number is one half, whose text in
    base 36 is [0.i], the session id that is generated has one
    character. *)
Lemma empty_catalog_description_empty :
  let E := Example.env Example.embed_const in
  snd (retriever E empty_db (Returned []) (str "0.4fzyo82mvyr")
         [str "anything"] [] None)
  = RetrieverContent
      {| session_id := str "4fzyo8";
         new_tools := [];
         known_tools := [];
         summary := {| new_tools_count := 0; known_tools_count := 0;
                       session_history_count := 0 |};
         rr_server_description := Some [] |}
      (Text.session_line (str "4fzyo8") ++ Text.keep_this_id)
  /\ snd (retriever E empty_db (Returned []) (str "0.i") [str "anything"] []
            None)
     = RetrieverContent
         {| session_id := str "i";
            new_tools := [];
            known_tools := [];
            summary := {| new_tools_count := 0; known_tools_count := 0;
                          session_history_count := 0 |};
            rr_server_description := Some [] |}
         (Text.session_line (str "i") ++ Text.keep_this_id).
Proof. split; vm_compute; reflexivity. Qed.

(** C8, as amended, on the empty store. *)
Lemma empty_catalog_retrieval_witness :
  let E := Example.env Example.embed_const in
  exists result note,
    retriever E empty_db (Returned []) (str "0.4fzyo82mvyr") [str "anything"]
      [] None
    = (empty_db, RetrieverContent result note)
    /\ new_tools result = []
    /\ known_tools result = []
    /\ session_id result = generateSessionId (str "0.4fzyo82mvyr")
    /\ List.length (session_id result) = 6
    /\ rr_server_description result = Some [].
Proof.
  intros E.
  destruct (proj2 (empty_catalog_retrieval E empty_db (str "0.4fzyo82mvyr")
                     [str "anything"] None) eq_refl
              (fun d _ => ex_intro _ [1%float; 0%float] eq_refl))
    as [result [note [H [Hn [Hk [Hs [Hl Hd]]]]]]].
  exists result, note. repeat split; try assumption.
  apply Hl. simpl. lia.
Defined.

(* ================================================================= *)
(** ** Deleting records *)

Section DeleteFacts.

Variable E : Env.

Arguments delete_selection : simpl never.

Lemma no_selected (db : Database) (md5 : jsstring) (mn : option jsstring) :
  map tv_id (filter (delete_selection md5 mn) (tool_vectors db)) = [] ->
  forall r, In r (tool_vectors db) -> delete_selection md5 mn r = false.
Proof.
  intros Hnil r Hr. apply map_eq_nil in Hnil.
  destruct (delete_selection md5 mn r) eqn:Hs; [|reflexivity].
  assert (Hin : In r (filter (delete_selection md5 mn) (tool_vectors db)))
    by (apply filter_In; now split).
  rewrite Hnil in Hin. destruct Hin.
Qed.

Lemma existsb_selected (db : Database) (md5 : jsstring) (mn : option jsstring)
    (i : Z) :
  existsb (Z.eqb i) (map tv_id (filter (delete_selection md5 mn) (tool_vectors db)))
  = true <-> selected_id db md5 mn i.
Proof.
  rewrite existsb_exists. unfold selected_id. split.
  - intros [x [Hx Heq]]. apply Z.eqb_eq in Heq. subst x.
    apply in_map_iff in Hx as [r [Hid Hr]]. apply filter_In in Hr as [Hr Hs].
    now exists r.
  - intros [r [Hr [Hs Hid]]]. exists i. split; [|apply Z.eqb_refl].
    apply in_map_iff. exists r. split; [exact Hid|]. apply filter_In. now split.
Qed.

(** The records that remain are the ones that were not selected. *)
Lemma tx_records (db : Database) (md5 : jsstring) (mn : option jsstring)
    (r : ToolVector) :
  In r (tool_vectors (fst (deleteToolVector_tx db md5 mn)))
  <-> In r (tool_vectors db) /\ delete_selection md5 mn r = false.
Proof.
  unfold deleteToolVector_tx.
  destruct (map tv_id (filter (delete_selection md5 mn) (tool_vectors db)))
    as [|i ids] eqn:Hids; simpl.
  - split; [|tauto]. intros Hr. split; [exact Hr|].
    now apply (no_selected db md5 mn Hids).
  - rewrite filter_In, negb_true_iff. reflexivity.
Qed.

(** The mapping rows that remain are the ones of records that were not
    selected. *)
Lemma tx_mapping (db : Database) (md5 : jsstring) (mn : option jsstring)
    (m : Z * Z) :
  In m (tool_mapping (fst (deleteToolVector_tx db md5 mn)))
  <-> In m (tool_mapping db) /\ ~ selected_id db md5 mn (snd m).
Proof.
  unfold deleteToolVector_tx.
  destruct (map tv_id (filter (delete_selection md5 mn) (tool_vectors db)))
    as [|i ids] eqn:Hids; simpl.
  - split; [|tauto]. intros Hm. split; [exact Hm|].
    intros [r [Hr [Hs _]]].
    rewrite (no_selected db md5 mn Hids r Hr) in Hs. discriminate.
  - change (In m (filter (fun m0 => negb (existsb (Z.eqb (snd m0)) (i :: ids)))
                    (tool_mapping db))
            <-> In m (tool_mapping db) /\ ~ selected_id db md5 mn (snd m)).
    rewrite filter_In, negb_true_iff, <- Hids, <- not_true_iff_false.
    now rewrite existsb_selected.
Qed.

(** No vector is added, and the vectors of the mapping rows that were
    removed are removed. *)
Lemma tx_vectors (db : Database) (md5 : jsstring) (mn : option jsstring) :
  (forall x, In x (vec_tool_embeddings (fst (deleteToolVector_tx db md5 mn))) ->
             In x (vec_tool_embeddings db))
  /\ (forall m, In m (tool_mapping db) -> selected_id db md5 mn (snd m) ->
                ~ In (fst m) (vector_rowids (fst (deleteToolVector_tx db md5 mn)))).
Proof.
  unfold deleteToolVector_tx, vector_rowids.
  destruct (map tv_id (filter (delete_selection md5 mn) (tool_vectors db)))
    as [|i ids] eqn:Hids.
  - simpl. split; [tauto|]. intros m _ [r [Hr [Hs _]]].
    rewrite (no_selected db md5 mn Hids r Hr) in Hs. discriminate.
  - set (rowids := map fst (filter (fun m0 => existsb (Z.eqb (snd m0)) (i :: ids))
                               (tool_mapping db))).
    change (vec_tool_embeddings (fst _))
      with (filter (fun vte => negb (existsb (Z.eqb (fst vte)) rowids))
              (vec_tool_embeddings db)).
    split.
    + intros x Hx. now apply filter_In in Hx.
    + intros m Hm Hsel Hin. apply in_map_iff in Hin as [vte [Hfst Hvte]].
      apply filter_In in Hvte as [_ Hkeep]. apply negb_true_iff in Hkeep.
      rewrite <- not_true_iff_false in Hkeep. apply Hkeep.
      apply existsb_exists. exists (fst m). split; [|now apply Z.eqb_eq].
      unfold rowids. apply in_map. apply filter_In. split; [exact Hm|].
      rewrite <- Hids. now apply existsb_selected.
Qed.

(** The vectors that remain are the ones no mapping row ties to a
    record that was selected. *)
Lemma tx_vectors_exact (db : Database) (md5 : jsstring) (mn : option jsstring)
    (x : Z * vector) :
  In x (vec_tool_embeddings (fst (deleteToolVector_tx db md5 mn)))
  <-> In x (vec_tool_embeddings db)
      /\ (forall m, In m (tool_mapping db) -> fst m = fst x ->
                    ~ selected_id db md5 mn (snd m)).
Proof.
  unfold deleteToolVector_tx.
  destruct (map tv_id (filter (delete_selection md5 mn) (tool_vectors db)))
    as [|i ids] eqn:Hids.
  - simpl. split; [|tauto]. intros Hx. split; [exact Hx|].
    intros m _ _ [r [Hr [Hs _]]].
    rewrite (no_selected db md5 mn Hids r Hr) in Hs. discriminate.
  - set (rowids := map fst (filter (fun m0 => existsb (Z.eqb (snd m0)) (i :: ids))
                               (tool_mapping db))).
    change (vec_tool_embeddings (fst _))
      with (filter (fun vte => negb (existsb (Z.eqb (fst vte)) rowids))
              (vec_tool_embeddings db)).
    rewrite filter_In, negb_true_iff, <- not_true_iff_false, existsb_exists.
    split; intros [Hx Hk]; (split; [exact Hx|]).
    + intros m Hm Hfst Hsel. apply Hk. exists (fst m).
      split; [|now apply Z.eqb_eq]. unfold rowids. apply in_map.
      apply filter_In. split; [exact Hm|].
      rewrite <- Hids. now apply existsb_selected.
    + intros [j [Hj Heq]]. apply Z.eqb_eq in Heq. unfold rowids in Hj.
      apply in_map_iff in Hj as [m [Hfm Hm]]. apply filter_In in Hm as [Hm Hsel].
      rewrite <- Hids in Hsel. apply existsb_selected in Hsel.
      apply (Hk m Hm); congruence.
Qed.


(** Selecting by identity and a model covers the records stored under
    that identity and model. *)
Lemma selection_covers (md5 model : jsstring) (r : ToolVector) :
  md5_model_match md5 model r = true ->
  delete_selection md5 (Some model) r = true.
Proof.
  unfold delete_selection. destruct model as [|c model]; [|auto].
  unfold md5_model_match. intros H. now apply andb_true_iff in H as [H _].
Qed.

Lemma getToolByMD5_none (db : Database) (md5 model : jsstring) :
  getToolByMD5 db md5 model = None
  <-> (forall r, In r (tool_vectors db) -> md5_model_match md5 model r = false).
Proof.
  unfold getToolByMD5. split.
  - intros H r Hr. exact (find_none _ _ H r Hr).
  - intros H. destruct (find _ _) as [r|] eqn:F; [|reflexivity].
    apply find_some in F as [Hr Hm]. rewrite (H r Hr) in Hm. discriminate.
Qed.

(** What [delete_superseded] does to a record [tv], a mapping row [tm] of
    that record and the vector of that row. *)
Lemma delete_superseded_rows (model : jsstring) (tv : ToolVector) (tm : Z * Z) :
  snd tm = tv_id tv ->
  forall toDelete db,
    let db1 := fst (delete_superseded E db model toDelete) in
    (In tv (tool_vectors db) \/ ~ In tm (tool_mapping db)) ->
    (In tm (tool_mapping db) \/ ~ In (fst tm) (vector_rowids db)) ->
    (In tv (tool_vectors db1) \/ ~ In tm (tool_mapping db1))
    /\ (In tm (tool_mapping db1) \/ ~ In (fst tm) (vector_rowids db1))
    /\ (In tv (tool_vectors db1) -> In tv (tool_vectors db))
    /\ ((exists c, In c toDelete
                   /\ delete_fault E (sr_tool_md5 c) = false
                   /\ delete_selection (sr_tool_md5 c) (Some model) tv = true) ->
        ~ In tv (tool_vectors db1)).
Proof.
  intros Hid. induction toDelete as [|c rest IH]; intros db db1 I1 I2.
  - subst db1. simpl. repeat split; auto. intros [c [[] _]].
  - subst db1. simpl. unfold deleteToolVector.
    destruct (delete_fault E (sr_tool_md5 c)) eqn:Hfault.
    + destruct (IH db I1 I2) as [J1 [J2 [J3 J4]]].
      repeat split; auto.
      intros [c' [[<- | Hc'] [Hf Hs]]]; [congruence|].
      apply J4. now exists c'.
    + destruct (deleteToolVector_tx db (sr_tool_md5 c) (Some model))
        as [dbx n] eqn:Htx.
      assert (Hdbx : dbx = fst (deleteToolVector_tx db (sr_tool_md5 c) (Some model)))
        by now rewrite Htx.
      assert (K1 : In tv (tool_vectors dbx) \/ ~ In tm (tool_mapping dbx)).
      { rewrite Hdbx.
        destruct (delete_selection (sr_tool_md5 c) (Some model) tv) eqn:Hs.
        - right. rewrite tx_mapping. intros [Hm Hnot].
          destruct I1 as [Htv | Hno]; [|contradiction].
          apply Hnot. exists tv. repeat split; auto.
        - destruct I1 as [Htv | Hno].
          + left. apply tx_records. now split.
          + right. rewrite tx_mapping. tauto. }
      assert (K2 : In tm (tool_mapping dbx) \/ ~ In (fst tm) (vector_rowids dbx)).
      { rewrite Hdbx. destruct (tx_vectors db (sr_tool_md5 c) (Some model))
          as [Vsub Vgone].
        destruct I2 as [Hm | Hno].
        - assert (Hdec : forall a b : Z * Z, {a = b} + {a <> b})
            by (decide equality; apply Z.eq_dec).
          destruct (in_dec Hdec tm
                      (tool_mapping (fst (deleteToolVector_tx db (sr_tool_md5 c)
                                            (Some model))))) as [Hin | Hout].
          + now left.
          + right. apply Vgone; [exact Hm|].
            destruct (existsb (Z.eqb (snd tm))
                        (map tv_id (filter (delete_selection (sr_tool_md5 c)
                                              (Some model)) (tool_vectors db))))
              eqn:Hsel; [now apply existsb_selected in Hsel|].
            exfalso. apply Hout. apply tx_mapping. split; [exact Hm|].
            rewrite <- existsb_selected. congruence.
        - right. intros Hin. apply Hno. unfold vector_rowids in *.
          apply in_map_iff in Hin as [x [Hx Hin]]. apply in_map_iff.
          exists x. split; [exact Hx | now apply Vsub]. }
      specialize (IH dbx K1 K2).
      destruct (delete_superseded E dbx model rest) as [db2 total] eqn:Hrest.
      simpl in *. destruct IH as [J1 [J2 [J3 J4]]].
      assert (Hback : In tv (tool_vectors dbx) -> In tv (tool_vectors db)).
      { rewrite Hdbx. intros H. now apply tx_records in H. }
      repeat split; auto.
      intros [c' [[<- | Hc'] [Hf Hs]]].
      * intros Hin. apply J3 in Hin. rewrite Hdbx in Hin.
        apply tx_records in Hin as [_ Hns]. congruence.
      * apply J4. now exists c'.
Qed.

End DeleteFacts.

(* ================================================================= *)
(** ** Indexing *)

Section IndexFacts.

Variable E : Env.

Lemma getToolByMD5_found (db : Database) (md5 model : jsstring) :
  getToolByMD5 db md5 model <> None
  <-> exists r, In r (tool_vectors db) /\ md5_model_match md5 model r = true.
Proof.
  unfold getToolByMD5. split.
  - destruct (find _ _) as [r|] eqn:F; [|congruence].
    intros _. apply find_some in F. now exists r.
  - intros [r [Hr Hm]] F. rewrite (find_none _ _ F r Hr) in Hm. discriminate.
Qed.

(** Saving never removes an identity from the store and stores the
    identity of what it saves. *)
Lemma saveToolVector_keeps (db : Database) (n d : jsstring) (v : vector)
    (m md5 model : jsstring) :
  getToolByMD5 db md5 model <> None ->
  getToolByMD5 (fst (saveToolVector E db n d v m)) md5 model <> None.
Proof.
  rewrite !getToolByMD5_found. intros [r [Hr Hm]].
  unfold saveToolVector.
  destruct (getToolByMD5 db (generateToolMD5 (md5hex E) n d) m) as [row|]; simpl.
  - exists (update_tool (tv_id row) n d r). split; [now apply in_map|].
    unfold update_tool. now destruct (tv_id r =? tv_id row)%Z.
  - exists r. split; [|exact Hm]. apply in_or_app. now left.
Qed.

Lemma saveToolVector_stores (db : Database) (n d : jsstring) (v : vector)
    (m : jsstring) :
  getToolByMD5 (fst (saveToolVector E db n d v m))
    (generateToolMD5 (md5hex E) n d) m <> None.
Proof.
  destruct (getToolByMD5 db (generateToolMD5 (md5hex E) n d) m) as [row|] eqn:F.
  - apply saveToolVector_keeps. congruence.
  - apply getToolByMD5_found. unfold saveToolVector. rewrite F. simpl.
    eexists. split; [apply in_or_app; right; left; reflexivity|].
    unfold md5_model_match. simpl. now rewrite !jseqb_refl.
Qed.

Lemma batch_save_step (db : Database) (t : ToolData) (rest : list ToolData)
    (m : jsstring) :
  fst (saveToolVectorsBatch E db (t :: rest) m)
  = fst (saveToolVectorsBatch E
           (fst (saveToolVector E db (td_toolName t) (td_description t)
                   (td_vector t) m)) rest m).
Proof.
  simpl.
  destruct (saveToolVector E db (td_toolName t) (td_description t)
              (td_vector t) m) as [db1 i]. simpl.
  destruct (saveToolVectorsBatch E db1 rest m) as [db2 ids]. reflexivity.
Qed.

Lemma saveToolVectorsBatch_keeps (l : list ToolData) (m md5 model : jsstring) :
  forall db,
    getToolByMD5 db md5 model <> None ->
    getToolByMD5 (fst (saveToolVectorsBatch E db l m)) md5 model <> None.
Proof.
  induction l as [|t rest IH]; intros db H; [exact H|].
  rewrite batch_save_step. apply IH. now apply saveToolVector_keeps.
Qed.

Lemma saveToolVectorsBatch_stores (l : list ToolData) (m : jsstring) :
  forall db t,
    In t l ->
    getToolByMD5 (fst (saveToolVectorsBatch E db l m))
      (generateToolMD5 (md5hex E) (td_toolName t) (td_description t)) m
    <> None.
Proof.
  induction l as [|x rest IH]; intros db t Hin; [destruct Hin|].
  rewrite batch_save_step. destruct Hin as [-> | Hin].
  - apply saveToolVectorsBatch_keeps, saveToolVector_stores.
  - now apply IH.
Qed.

(** The text the indexer embeds for a tool. *)
Lemma vectorize_one_queues (db : Database) (model : jsstring)
    (tool : ToolToVectorize) (v : vector) :
  vectorizeString E
    (trim (tv_toolName tool ++ str " " ++ tv_toolDescription tool))
  = Returned v ->
  snd (fst (vectorize_one E db model tool))
  = Some {| td_toolName := tv_toolName tool;
            td_description := tv_toolDescription tool;
            td_vector := v |}.
Proof.
  intros Hv. unfold vectorize_one. rewrite Hv.
  now destruct (delete_superseded E db model _).
Qed.


(** Every new tool whose text embeds is handed over for saving. *)
Lemma vectorize_all_queues (model : jsstring) (todo : list ToolToVectorize) :
  forall db tool v,
    In tool todo ->
    vectorizeString E
      (trim (tv_toolName tool ++ str " " ++ tv_toolDescription tool))
    = Returned v ->
    In {| td_toolName := tv_toolName tool;
          td_description := tv_toolDescription tool;
          td_vector := v |}
      (snd (fst (vectorize_all E db model todo))).
Proof.
  induction todo as [|x rest IH]; intros db tool v Hin Hv; [destruct Hin|].
  simpl.
  pose proof (vectorize_one_queues db model x) as Hq.
  destruct (vectorize_one E db model x) as [[db1 queued] deleted]. simpl in Hq.
  specialize (IH db1 tool v).
  destruct (vectorize_all E db1 model rest) as [[db2 vs] total]. simpl in *.
  destruct Hin as [-> | Hin].
  - rewrite (Hq v Hv). now left.
  - destruct queued; [right|]; now apply IH.
Qed.


Lemma toolsToVectorize_In (db : Database) (model : jsstring)
    (tools : list (MCPToolInfo E)) (x : ToolToVectorize) :
  In x (toolsToVectorize E db model tools)
  <-> exists t, In t tools
                /\ live_toolName t <> []
                /\ getToolByMD5 db (live_md5 t) model = None
                /\ x = {| tv_toolName := live_toolName t;
                          tv_toolDescription := live_description t |}.
Proof.
  unfold toolsToVectorize, live_md5. rewrite in_flat_map. split.
  - intros [t [Ht Hx]]. exists t. split; [exact Ht|].
    destruct (live_toolName t) as [|c n] eqn:Hn; [destruct Hx|].
    destruct (getToolByMD5 db _ model) eqn:F; [destruct Hx|].
    destruct Hx as [<- | []]. repeat split; congruence.
  - intros [t [Ht [Hn [F ->]]]]. exists t. split; [exact Ht|].
    destruct (live_toolName t) as [|c n] eqn:Hname; [contradiction|].
    rewrite F. now left.
Qed.

(** A run of the indexer over a catalog that can be listed, in one
    expression. *)
Lemma indexMCPTools_eq (db : Database) (tools : list (MCPToolInfo E))
    (modelName : option jsstring) :
  let model := defaultModelName E modelName in
  let looped := vectorize_all E db model (toolsToVectorize E db model tools) in
  let saved :=
    saveToolVectorsBatch E (fst (fst looped)) (snd (fst looped)) model in
  indexMCPTools E db (Returned tools) modelName
  = Returned {| ix_db := fst saved; ix_saved := snd saved;
                ix_vectorized := snd (fst looped); ix_deleted := snd looped |}.
Proof.
  intros model looped saved. subst saved looped.
  unfold indexMCPTools, bind. fold model.
  destruct (toolsToVectorize E db model tools) as [|x todo]; [reflexivity|].
  cbv beta iota. generalize (x :: todo). intros l.
  destruct (vectorize_all E db model l) as [[db1 vs] deleted].
  change (fst (fst (db1, vs, deleted))) with db1.
  change (snd (fst (db1, vs, deleted))) with vs.
  change (snd (db1, vs, deleted)) with deleted.
  now destruct (saveToolVectorsBatch E db1 vs model).
Qed.

(** The store a run of the indexer leaves. *)
Lemma indexMCPTools_db (db : Database) (tools : list (MCPToolInfo E))
    (modelName : option jsstring) (run : IndexRun) :
  indexMCPTools E db (Returned tools) modelName = Returned run ->
  let model := defaultModelName E modelName in
  let todo := toolsToVectorize E db model tools in
  ix_db run
  = fst (saveToolVectorsBatch E (fst (fst (vectorize_all E db model todo)))
           (snd (fst (vectorize_all E db model todo))) model).
Proof.
  rewrite indexMCPTools_eq. intros H. injection H as <-. reflexivity.
Qed.

(** A named tool that is not in the store and whose text embeds is in
    the store after the run, whatever happens to the deletions. *)
Lemma indexMCPTools_saves_new (db : Database) (tools : list (MCPToolInfo E))
    (modelName : option jsstring) (run : IndexRun) (t : MCPToolInfo E)
    (v : vector) :
  indexMCPTools E db (Returned tools) modelName = Returned run ->
  In t tools ->
  live_toolName t <> [] ->
  getToolByMD5 db (live_md5 t) (defaultModelName E modelName) = None ->
  vectorizeString E (trim (live_toolName t ++ str " " ++ live_description t))
  = Returned v ->
  getToolByMD5 (ix_db run) (live_md5 t) (defaultModelName E modelName) <> None.
Proof.
  intros Hrun Ht Hn Hnew Hv. rewrite (indexMCPTools_db _ _ _ _ Hrun).
  apply (saveToolVectorsBatch_stores _ _ _
           {| td_toolName := live_toolName t;
              td_description := live_description t; td_vector := v |}).
  apply (vectorize_all_queues _ _ _
           {| tv_toolName := live_toolName t;
              tv_toolDescription := live_description t |} v); [|exact Hv].
  apply toolsToVectorize_In. now exists t.
Qed.

(* ----------------------------------------------------------------- *)
(** *** Near-duplicate replacement *)

Lemma delete_superseded_records (model : jsstring) (toDelete : list SearchResult) :
  forall db,
    let db1 := fst (delete_superseded E db model toDelete) in
    (forall r, In r (tool_vectors db1) -> In r (tool_vectors db))
    /\ (forall c r, In c toDelete -> delete_fault E (sr_tool_md5 c) = false ->
                    In r (tool_vectors db1) ->
                    delete_selection (sr_tool_md5 c) (Some model) r = false).
Proof.
  induction toDelete as [|c rest IH]; intros db db1; subst db1; simpl.
  - split; [auto | intros c r []].
  - unfold deleteToolVector.
    destruct (delete_fault E (sr_tool_md5 c)) eqn:Hfault.
    + destruct (IH db) as [J1 J2]. split; [exact J1|].
      intros c' r [<- | Hc'] Hf Hr; [congruence | now apply (J2 c')].
    + destruct (deleteToolVector_tx db (sr_tool_md5 c) (Some model))
        as [dbx n] eqn:Htx.
      assert (Hdbx : dbx = fst (deleteToolVector_tx db (sr_tool_md5 c) (Some model)))
        by now rewrite Htx.
      specialize (IH dbx).
      destruct (delete_superseded E dbx model rest) as [db2 total].
      simpl in *. destruct IH as [J1 J2].
      assert (Hback : forall r, In r (tool_vectors dbx) ->
                 In r (tool_vectors db)
                 /\ delete_selection (sr_tool_md5 c) (Some model) r = false).
      { rewrite Hdbx. intros r. apply tx_records. }
      split.
      * intros r Hr. now apply Hback, J1.
      * intros c' r [<- | Hc'] Hf Hr; [now apply Hback, J1 | now apply (J2 c')].
Qed.

(** What the deletions for one new tool leave: the records none of the
    deletions that go through selects, the mapping rows of no such record
    and the vectors of no such mapping row. *)
Lemma delete_superseded_exact (model : jsstring) (toDelete : list SearchResult) :
  forall db,
    let db1 := fst (delete_superseded E db model toDelete) in
    let spared r :=
      forall c, In c toDelete -> delete_fault E (sr_tool_md5 c) = false ->
                delete_selection (sr_tool_md5 c) (Some model) r = false in
    (forall r, In r (tool_vectors db1) <-> In r (tool_vectors db) /\ spared r)
    /\ (forall m,
          In m (tool_mapping db1)
          <-> In m (tool_mapping db)
              /\ (forall r, In r (tool_vectors db) -> tv_id r = snd m -> spared r))
    /\ (forall x,
          In x (vec_tool_embeddings db1)
          <-> In x (vec_tool_embeddings db)
              /\ (forall m r, In m (tool_mapping db) -> fst m = fst x ->
                              In r (tool_vectors db) -> tv_id r = snd m ->
                              spared r)).
Proof.
  induction toDelete as [|c rest IH]; intros db db1 spared; subst db1 spared.
  - simpl. repeat split; try tauto; intros; contradiction.
  - cbn [delete_superseded]. unfold deleteToolVector.
    destruct (delete_fault E (sr_tool_md5 c)) eqn:Hfault.
    + destruct (IH db) as [R [M V]]. split; [|split].
      * intros r. rewrite R. split; intros [Hr Hs]; (split; [exact Hr|]).
        -- intros c' [<- | Hc'] Hf; [congruence | now apply Hs].
        -- intros c' Hc'. apply Hs. now right.
      * intros m. rewrite M. split; intros [Hm Hs]; (split; [exact Hm|]).
        -- intros r Hr Hid c' [<- | Hc'] Hf; [congruence | now apply (Hs r)].
        -- intros r Hr Hid c' Hc'. apply (Hs r Hr Hid). now right.
      * intros x. rewrite V. split; intros [Hx Hs]; (split; [exact Hx|]).
        -- intros m r Hm Hfst Hr Hid c' [<- | Hc'] Hf;
             [congruence | now apply (Hs m r)].
        -- intros m r Hm Hfst Hr Hid c' Hc'. apply (Hs m r Hm Hfst Hr Hid).
           now right.
    + destruct (deleteToolVector_tx db (sr_tool_md5 c) (Some model))
        as [dbx n] eqn:Htx.
      assert (Hdbx : dbx = fst (deleteToolVector_tx db (sr_tool_md5 c) (Some model)))
        by now rewrite Htx.
      specialize (IH dbx).
      destruct (delete_superseded E dbx model rest) as [db2 total].
      cbn [fst] in *. destruct IH as [R [M V]].
      assert (Rx : forall r, In r (tool_vectors dbx)
                   <-> In r (tool_vectors db)
                       /\ delete_selection (sr_tool_md5 c) (Some model) r = false)
        by (rewrite Hdbx; intros r; apply tx_records).
      assert (Mx : forall m, In m (tool_mapping dbx)
                   <-> In m (tool_mapping db)
                       /\ (forall r, In r (tool_vectors db) -> tv_id r = snd m ->
                              delete_selection (sr_tool_md5 c) (Some model) r
                              = false)).
      { rewrite Hdbx. intros m. rewrite tx_mapping. unfold selected_id.
        split; intros [Hm Hs]; (split; [exact Hm|]).
        - intros r Hr Hid.
          destruct (delete_selection (sr_tool_md5 c) (Some model) r) eqn:Hsel;
            [|reflexivity].
          exfalso. apply Hs. now exists r.
        - intros [r [Hr [Hsel Hid]]]. rewrite (Hs r Hr Hid) in Hsel.
          discriminate. }
      assert (Vx : forall x, In x (vec_tool_embeddings dbx)
                   <-> In x (vec_tool_embeddings db)
                       /\ (forall m r, In m (tool_mapping db) -> fst m = fst x ->
                              In r (tool_vectors db) -> tv_id r = snd m ->
                              delete_selection (sr_tool_md5 c) (Some model) r
                              = false)).
      { rewrite Hdbx. intros x. rewrite tx_vectors_exact. unfold selected_id.
        split; intros [Hx Hs]; (split; [exact Hx|]).
        - intros m r Hm Hfst Hr Hid.
          destruct (delete_selection (sr_tool_md5 c) (Some model) r) eqn:Hsel;
            [|reflexivity].
          exfalso. apply (Hs m Hm Hfst). now exists r.
        - intros m Hm Hfst [r [Hr [Hsel Hid]]].
          rewrite (Hs m r Hm Hfst Hr Hid) in Hsel. discriminate. }
      split; [|split].
      * intros r. rewrite R, Rx. split.
        -- intros [[Hr Hc] Hs]. split; [exact Hr|].
           intros c' [<- | Hc'] Hf; [exact Hc | now apply Hs].
        -- intros [Hr Hs]. split; [split; [exact Hr|]|].
           ++ apply Hs; [now left | exact Hfault].
           ++ intros c' Hc'. apply Hs. now right.
      * intros m. rewrite M, Mx. split.
        -- intros [[Hm Hc] Hs]. split; [exact Hm|].
           intros r Hr Hid c' [<- | Hc'] Hf; [now apply Hc|].
           apply (Hs r); auto. apply Rx. split; [exact Hr | now apply Hc].
        -- intros [Hm Hs]. split; [split; [exact Hm|]|].
           ++ intros r Hr Hid. apply (Hs r Hr Hid); [now left | exact Hfault].
           ++ intros r Hr Hid c' Hc'. apply Rx in Hr as [Hr _].
              apply (Hs r Hr Hid). now right.
      * intros x. rewrite V, Vx. split.
        -- intros [[Hx Hc] Hs]. split; [exact Hx|].
           intros m r Hm Hfst Hr Hid c' [<- | Hc'] Hf; [now apply (Hc m r)|].
           apply (Hs m r); auto.
           ++ apply Mx. split; [exact Hm|]. intros r' Hr' Hid'.
              now apply (Hc m r').
           ++ apply Rx. split; [exact Hr | now apply (Hc m r)].
        -- intros [Hx Hs]. split; [split; [exact Hx|]|].
           ++ intros m r Hm Hfst Hr Hid.
              apply (Hs m r Hm Hfst Hr Hid); [now left | exact Hfault].
           ++ intros m r Hm Hfst Hr Hid c' Hc'.
              apply Mx in Hm as [Hm _]. apply Rx in Hr as [Hr _].
              apply (Hs m r Hm Hfst Hr Hid). now right.
Qed.

(** C3, as amended.  For a new tool whose text embeds to [v], the
    indexer searches with [v], top 10, threshold 0.70 and no server
    filter, which gives at most ten candidates.  Whatever the deletions
    do, the tool is handed over for saving, and a named tool that was not
    in the store is in the store after the run.  The deletions add no
    record.  For every candidate of that search with similarity at least
    0.96 whose deletion does not fail, no record with the identity of the
    candidate is left under the model being indexed; and when the
    candidate is stored under that model, its record, the mapping row and
    the vector it was found through are removed.  Nothing else is removed:
    a record stays exactly when no candidate of the search with similarity
    at least 0.96 whose deletion goes through selects it, a mapping row
    stays exactly when every record it points to stays, and a vector stays
    exactly when every record a mapping row ties it to stays.  So a record
    whose identity is not that of one of the at most ten candidates with
    similarity at least 0.96 stays, and so does, the model being indexed
    having a name, every record stored under another model: the records
    that go are then the ones stored under the model being indexed with
    the identity of a candidate of the search with similarity at least 0.96
    whose deletion goes through.  The new tools are saved, in one batch,
    after the deletions for all of them, and the model a run indexes under
    has a name. *)
Theorem near_duplicate_replacement (db : Database) (model : jsstring)
    (tool : ToolToVectorize) (v : vector) :
  vectorizeString E
    (trim (tv_toolName tool ++ str " " ++ tv_toolDescription tool))
  = Returned v ->
  let candidates := searchSimilarVectors E db v 10 0.7 None in
  let db1 := fst (fst (vectorize_one E db model tool)) in
  let spared r :=
    forall c, In c candidates ->
              PrimFloat.leb 0.96 (sr_similarity c) = true ->
              delete_fault E (sr_tool_md5 c) = false ->
              delete_selection (sr_tool_md5 c) (Some model) r = false in
  snd (fst (vectorize_one E db model tool))
  = Some {| td_toolName := tv_toolName tool;
            td_description := tv_toolDescription tool; td_vector := v |}
  /\ List.length candidates <= 10
  /\ (forall tools modelName run t v',
         indexMCPTools E db (Returned tools) modelName = Returned run ->
         In t tools -> live_toolName t <> [] ->
         getToolByMD5 db (live_md5 t) (defaultModelName E modelName) = None ->
         vectorizeString E
           (trim (live_toolName t ++ str " " ++ live_description t))
         = Returned v' ->
         getToolByMD5 (ix_db run) (live_md5 t) (defaultModelName E modelName)
         <> None)
  /\ (forall r, In r (tool_vectors db1) -> In r (tool_vectors db))
  /\ (forall c,
         In c candidates ->
         PrimFloat.leb 0.96 (sr_similarity c) = true ->
         delete_fault E (sr_tool_md5 c) = false ->
         getToolByMD5 db1 (sr_tool_md5 c) model = None)
  /\ (forall vte tm tv,
         In vte (vec_tool_embeddings db) -> In tm (tool_mapping db) ->
         In tv (tool_vectors db) ->
         fst vte = fst tm -> snd tm = tv_id tv ->
         In (joined_row E v vte tv) candidates ->
         PrimFloat.leb 0.96 (sr_similarity (joined_row E v vte tv)) = true ->
         delete_fault E (tv_tool_md5 tv) = false ->
         tv_model_name tv = model ->
         ~ In tv (tool_vectors db1)
         /\ ~ In tm (tool_mapping db1)
         /\ ~ In (fst vte) (vector_rowids db1))
  /\ (forall r, In r (tool_vectors db1) <-> In r (tool_vectors db) /\ spared r)
  /\ (forall tm,
        In tm (tool_mapping db1)
        <-> In tm (tool_mapping db)
            /\ (forall r, In r (tool_vectors db) -> tv_id r = snd tm -> spared r))
  /\ (forall vte,
        In vte (vec_tool_embeddings db1)
        <-> In vte (vec_tool_embeddings db)
            /\ (forall tm r, In tm (tool_mapping db) -> fst tm = fst vte ->
                             In r (tool_vectors db) -> tv_id r = snd tm ->
                             spared r))
  /\ (forall r,
        In r (tool_vectors db) ->
        (forall c, In c candidates ->
                   PrimFloat.leb 0.96 (sr_similarity c) = true ->
                   sr_tool_md5 c <> tv_tool_md5 r) ->
        In r (tool_vectors db1))
  /\ (model <> [] ->
      forall r, In r (tool_vectors db) -> tv_model_name r <> model ->
                In r (tool_vectors db1))
  /\ (model <> [] ->
      forall r,
        In r (tool_vectors db1)
        <-> In r (tool_vectors db)
            /\ ~ (tv_model_name r = model
                  /\ exists c,
                       In c candidates
                       /\ PrimFloat.leb 0.96 (sr_similarity c) = true
                       /\ delete_fault E (sr_tool_md5 c) = false
                       /\ sr_tool_md5 c = tv_tool_md5 r))
  /\ (forall tools modelName run,
        indexMCPTools E db (Returned tools) modelName = Returned run ->
        let indexed := defaultModelName E modelName in
        let looped :=
          vectorize_all E db indexed (toolsToVectorize E db indexed tools) in
        ix_vectorized run = snd (fst looped)
        /\ ix_deleted run = snd looped
        /\ ix_db run
           = fst (saveToolVectorsBatch E (fst (fst looped)) (snd (fst looped))
                    indexed)
        /\ indexed <> []).
Proof.
  intros Hv candidates db1 spared.
  split; [now apply vectorize_one_queues|].
  split; [apply (firstn_le_length 10)|].
  split; [intros tools modelName run t v'; apply indexMCPTools_saves_new|].
  assert (Hdb1 : db1 = fst (delete_superseded E db model
                              (identifySimilarToolsToDelete (tv_toolName tool)
                                 (tv_toolDescription tool) candidates 0.96))).
  { subst db1. unfold vectorize_one. rewrite Hv.
    fold (similar_candidates E db v). unfold similar_candidates. fold candidates.
    now destruct (delete_superseded E db model _). }
  assert (HtoDelete : forall c, In c candidates ->
            PrimFloat.leb 0.96 (sr_similarity c) = true ->
            In c (identifySimilarToolsToDelete (tv_toolName tool)
                    (tv_toolDescription tool) candidates 0.96)).
  { intros c Hc Hs. unfold identifySimilarToolsToDelete.
    apply filter_In. now split. }
  destruct (delete_superseded_records model
              (identifySimilarToolsToDelete (tv_toolName tool)
                 (tv_toolDescription tool) candidates 0.96) db) as [Hsub Hgone].
  rewrite <- Hdb1 in Hsub, Hgone.
  assert (Hspared : forall r,
            spared r
            <-> (forall c,
                   In c (identifySimilarToolsToDelete (tv_toolName tool)
                           (tv_toolDescription tool) candidates 0.96) ->
                   delete_fault E (sr_tool_md5 c) = false ->
                   delete_selection (sr_tool_md5 c) (Some model) r = false)).
  { intros r. unfold spared, identifySimilarToolsToDelete. split.
    - intros H c Hc. apply filter_In in Hc as [Hc Hs]. now apply H.
    - intros H c Hc Hs. apply H. apply filter_In. now split. }
  destruct (delete_superseded_exact model
              (identifySimilarToolsToDelete (tv_toolName tool)
                 (tv_toolDescription tool) candidates 0.96) db) as [R [M V]].
  rewrite <- Hdb1 in R, M, V.
  assert (Hrecords : forall r, In r (tool_vectors db1)
                               <-> In r (tool_vectors db) /\ spared r).
  { intros r. rewrite R. split; intros [Hr H]; (split; [exact Hr|]);
      now apply Hspared. }
  split; [exact Hsub|].
  split; [|split; [|split; [|split; [|split; [|split; [|split; [|split]]]]]]].
  9: { intros tools modelName run Hrun indexed looped.
       rewrite indexMCPTools_eq in Hrun. injection Hrun as <-.
       repeat split. subst indexed. unfold defaultModelName.
       destruct modelName as [[|u m]|]; simpl; try discriminate;
         destruct (EMBEDDING_MODEL_NAME E) as [[|u' m']|]; simpl; discriminate. }
  8: { intros Hmodel r. rewrite Hrecords.
       destruct model as [|u model]; [contradiction|].
       unfold spared, delete_selection, md5_model_match.
       split; intros [Hr H]; (split; [exact Hr|]).
       - intros [Hm [c [Hc [Hs [Hf Hmd5]]]]].
         specialize (H c Hc Hs Hf). rewrite Hmd5, Hm, !jseqb_refl in H.
         discriminate.
       - intros c Hc Hs Hf.
         destruct (JS.eqb (tv_tool_md5 r) (sr_tool_md5 c)) eqn:Hmd5;
           [|reflexivity].
         destruct (JS.eqb (tv_model_name r) (u :: model)) eqn:Hm;
           [|reflexivity].
         exfalso. apply H. apply jseqb_eq in Hmd5, Hm.
         split; [exact Hm|]. exists c. repeat split; auto. }
  7: { intros Hmodel r Hr Hother. apply Hrecords. split; [exact Hr|].
       intros c _ _ _. unfold delete_selection.
       destruct model as [|u model]; [contradiction|].
       unfold md5_model_match. apply andb_false_iff. right.
       now apply jseqb_neq. }
  6: { intros r Hr Hnone. apply Hrecords. split; [exact Hr|].
       intros c Hc Hs _.
       assert (Hmd5 : JS.eqb (tv_tool_md5 r) (sr_tool_md5 c) = false)
         by (apply jseqb_neq; intros Heq; now apply (Hnone c Hc Hs)).
       unfold delete_selection, md5_model_match.
       destruct model as [|u model]; rewrite Hmd5; reflexivity. }
  5: { intros vte. rewrite V. split; intros [Hx H]; (split; [exact Hx|]);
         intros tm r Htm Hfst Hr Hid; apply Hspared; now apply (H tm r). }
  4: { intros tm. rewrite M. split; intros [Hm H]; (split; [exact Hm|]);
         intros r Hr Hid; apply Hspared; now apply (H r). }
  3: exact Hrecords.
  - intros c Hc Hs Hf. apply getToolByMD5_none. intros r Hr.
    destruct (md5_model_match (sr_tool_md5 c) model r) eqn:Hm; [|reflexivity].
    apply selection_covers in Hm.
    rewrite (Hgone c r (HtoDelete c Hc Hs) Hf Hr) in Hm. discriminate.
  - intros vte tm tv Hvte Htm Htv Hrow Hid Hc Hs Hf Hmodel.
    destruct (delete_superseded_rows E model tv tm Hid
                (identifySimilarToolsToDelete (tv_toolName tool)
                   (tv_toolDescription tool) candidates 0.96) db)
      as [J1 [J2 [_ J4]]].
    + now left.
    + now left.
    + rewrite <- Hdb1 in J1, J2, J4.
      assert (Hno : ~ In tv (tool_vectors db1)).
      { apply J4. exists (joined_row E v vte tv).
        split; [now apply HtoDelete|]. split; [exact Hf|].
        apply selection_covers. unfold md5_model_match. simpl.
        now rewrite Hmodel, !jseqb_refl. }
      assert (Hnom : ~ In tm (tool_mapping db1)) by tauto.
      repeat split; auto. rewrite Hrow. tauto.
Qed.

(* ----------------------------------------------------------------- *)
(** *** Indexing twice *)




End IndexFacts.

(** C2: with a session id that has no history, the second of two
    identical retrievals reports the same two tools as new again. *)
Lemma session_replay_unknown_id :
  let E := Example.env Example.embed_const in
  let first :=
    retriever E collision_db (Returned (collision_tools E))
      (str "0.4fzyo82mvyr") [str "tool x"] (str "ZZZZZZ") None in
  let second :=
    retriever E (fst first) (Returned (collision_tools E))
      (str "0.9k2j5h7d1aa") [str "tool x"] (str "ZZZZZZ") None in
  response_summary (snd first)
  = Some {| new_tools_count := 2; known_tools_count := 0;
            session_history_count := 2 |}
  /\ response_summary (snd second)
     = Some {| new_tools_count := 2; known_tools_count := 0;
               session_history_count := 2 |}.
Proof. vm_compute. split; reflexivity. Qed.

(** C2, as amended, replayed with the id the first answer carries. *)
Lemma session_monotonicity_witness :
  let E := Example.env Example.embed_const in
  let first :=
    retriever E collision_db (Returned (collision_tools E))
      (str "0.4fzyo82mvyr") [str "tool x"] (str "ZZZZZZ") None in
  exists db2 r2 note2,
    retriever E (fst first) (Returned (collision_tools E))
      (str "0.9k2j5h7d1aa") [str "tool x"] (str "4fzyo8") None
    = (db2, RetrieverContent r2 note2)
    /\ new_tools r2 = []
    /\ new_tools_count (summary r2) = 0
    /\ 2 <= known_tools_count (summary r2).
Proof.
  intros E first.
  edestruct (session_monotonicity E collision_db (Returned (collision_tools E))
               (str "0.4fzyo82mvyr") (str "0.9k2j5h7d1aa") [str "tool x"]
               (str "ZZZZZZ") None) as [_ [_ H]].
  - vm_compute. reflexivity.
  - apply H. discriminate.
Defined.

(** C3: a stored tool at similarity 1 to the new vector survives the
    run when it is stored under another model than the one being indexed,
    and so does the eleventh of eleven stored tools at similarity 1, which
    the search for the ten nearest does not return. *)
Lemma superseded_tool_survives :
  let E := Example.env Example.embed_const in
  let new_tool := [Example.tool E "srv__a" "first"] in
  map sr_similarity (similar_candidates E other_model_db [1%float; 0%float])
  = [1%float]
  /\ run_report (indexMCPTools E other_model_db (Returned new_tool) (Some (str "m")))
     = Some ([2%Z], 0%Z)
  /\ stored_names
       (run_store other_model_db
          (indexMCPTools E other_model_db (Returned new_tool) (Some (str "m"))))
     = [str "srv__b"; str "srv__a"]
  /\ List.length (stored_names eleven_db) = 11
  /\ run_report (indexMCPTools E eleven_db (Returned new_tool) (Some (str "m")))
     = Some ([12%Z], 10%Z)
  /\ List.length
       (stored_names
          (run_store eleven_db
             (indexMCPTools E eleven_db (Returned new_tool) (Some (str "m")))))
     = 2.
Proof. vm_compute. repeat split. Qed.

(** C3, as amended: indexing [srv__a] over a store that holds [srv__b]
    under the same model removes [srv__b]. *)
Lemma near_duplicate_replacement_witness :
  let E := Example.env Example.embed_const in
  let db :=
    fst (saveToolVector E empty_db (str "srv__b") (str "second")
           [1%float; 0%float] (str "m")) in
  let tool := {| tv_toolName := str "srv__a"; tv_toolDescription := str "first" |} in
  getToolByMD5 (fst (fst (vectorize_one E db (str "m") tool)))
    (str "srv__bsecond") (str "m") = None.
Proof.
  intros E db tool.
  apply (proj1 (proj2 (proj2 (proj2 (proj2
           (near_duplicate_replacement E db (str "m") tool [1%float; 0%float]
              eq_refl)))))
           {| sr_id := 1; sr_tool_md5 := str "srv__bsecond";
              sr_model_name := str "m"; sr_tool_name := str "srv__b";
              sr_description := Some (str "second");
              sr_distance := 0; sr_similarity := 1 |}).
  - vm_compute. left. reflexivity.
  - reflexivity.
  - reflexivity.
Defined.



(* ================================================================= *)
(** ** Integrity of the tool tables *)

Lemma NoDup_snoc {A : Type} (l : list A) (x : A) :
  NoDup l -> ~ In x l -> NoDup (l ++ [x]).
Proof.
  intros Hl Hx. induction Hl as [|y l Hy Hl IH]; simpl.
  - constructor; [intros [] | constructor].
  - constructor.
    + rewrite in_app_iff. simpl. intros [H | [H | []]]; [contradiction|].
      apply Hx. now left.
    + apply IH. intros H. apply Hx. now right.
Qed.

(** Rows with distinct keys keep distinct keys when some are dropped. *)
Lemma distinct_keys_filter {Row Key : Type} (key : Row -> Key)
    (keep : Row -> bool) (rows : list Row) :
  NoDup (map key rows) -> NoDup (map key (filter keep rows)).
Proof.
  induction rows as [|row rows IH]; simpl; [auto|].
  intros Hrows. inversion Hrows as [|k ks Hrow Hrest]; subst.
  destruct (keep row); simpl; [|auto].
  constructor; [|auto]. intros Hin. apply Hrow.
  apply in_map_iff in Hin as [other [Hkey Hin]].
  apply filter_In in Hin as [Hin _].
  apply in_map_iff. now exists other.
Qed.

Lemma NoDup_map_eq {A B : Type} (f : A -> B) (l : list A) (x y : A) :
  NoDup (map f l) -> In x l -> In y l -> f x = f y -> x = y.
Proof.
  induction l as [|z l IH]; simpl; [intros _ []|].
  intros H. inversion H as [|b l' Hz Hl]; subst.
  intros [-> | Hx] [-> | Hy] Heq; auto.
  - exfalso. apply Hz. rewrite Heq. now apply in_map.
  - exfalso. apply Hz. rewrite <- Heq. now apply in_map.
Qed.

Lemma filter_all {A : Type} (p : A -> bool) (l : list A) :
  (forall x, In x l -> p x = true) -> filter p l = l.
Proof.
  intros H. induction l as [|x l IH]; simpl; [reflexivity|].
  rewrite (H x (or_introl eq_refl)). f_equal. apply IH.
  intros y Hy. apply H. now right.
Qed.

Lemma store_ok_empty : store_ok empty_db.
Proof.
  unfold store_ok, vector_rowids. simpl.
  split; [constructor|]. split; [intros r []|].
  split; [constructor|]. split; [intros i []|].
  split; [constructor|]. split; [intros m []|].
  split; [intros i [] | intros r []].
Qed.

Section StoreIntegrity.

Variable E : Env.

Arguments delete_selection : simpl never.

(** A store whose record table, record sequence mark, and newest vector
    and mapping row are the ones a save writes. *)
Lemma saved_store_ok (db : Database) (records : list ToolVector) (seq toolId : Z)
    (v : vector) :
  store_ok db ->
  NoDup (map tv_id records) ->
  (forall r, In r records -> (tv_id r <= seq)%Z) ->
  (forall i, In i (map tv_id (tool_vectors db)) -> In i (map tv_id records)) ->
  (forall i, In i (map tv_id records) ->
             i = toolId \/ In i (map tv_id (tool_vectors db))) ->
  In toolId (map tv_id records) ->
  store_ok
    {| tool_vectors := records;
       tool_vectors_seq := seq;
       vec_tool_embeddings := vec_tool_embeddings db ++ [((vec_seq db + 1)%Z, v)];
       vec_seq := (vec_seq db + 1)%Z;
       tool_mapping :=
         filter (fun m => negb (fst m =? vec_seq db + 1)%Z) (tool_mapping db)
         ++ [((vec_seq db + 1)%Z, toolId)];
       session_tool_history := session_tool_history db;
       session_seq := session_seq db;
       mcp_servers := mcp_servers db |}.
Proof.
  intros [N1 [B1 [N2 [B2 [N3 [R [V T]]]]]]] Nr Br Hold Hnew Hid.
  assert (Hkeep : filter (fun m => negb (fst m =? vec_seq db + 1)%Z) (tool_mapping db)
                  = tool_mapping db).
  { apply filter_all. intros m Hm. apply negb_true_iff, Z.eqb_neq.
    destruct (R m Hm) as [Hv _]. apply B2 in Hv. lia. }
  unfold store_ok, vector_rowids in *. simpl. rewrite Hkeep.
  rewrite !map_app. simpl.
  split; [exact Nr|]. split; [exact Br|].
  split.
  { apply NoDup_snoc; [exact N2|]. intros H. apply B2 in H. lia. }
  split.
  { intros i Hi. apply in_app_iff in Hi as [Hi | [<- | []]]; [|lia].
    apply B2 in Hi. lia. }
  split.
  { apply NoDup_snoc; [exact N3|]. intros H.
    apply in_map_iff in H as [m [Hm H]]. destruct (R m H) as [Hv _].
    rewrite Hm in Hv. apply B2 in Hv. lia. }
  split.
  { intros m Hm. apply in_app_iff in Hm as [Hm | [<- | []]].
    - destruct (R m Hm) as [Hv Hr]. split.
      + apply in_or_app. now left.
      + now apply Hold.
    - simpl. split; [|exact Hid]. apply in_or_app. right. now left. }
  split.
  { intros i Hi. apply in_app_iff in Hi as [Hi | [<- | []]].
    - apply in_or_app. left. now apply V.
    - apply in_or_app. right. now left. }
  intros r Hr. destruct (Hnew (tv_id r) (in_map tv_id _ _ Hr)) as [Heq | Hin].
  - exists ((vec_seq db + 1)%Z, toolId). split; [|now simpl].
    apply in_or_app. right. now left.
  - apply in_map_iff in Hin as [r0 [Hr0 Hin]].
    destruct (T r0 Hin) as [m [Hm Hs]]. exists m. split; [|congruence].
    apply in_or_app. now left.
Qed.

Lemma update_tool_ids (tid : Z) (n d : jsstring) (l : list ToolVector) :
  map tv_id (map (update_tool tid n d) l) = map tv_id l.
Proof.
  rewrite map_map. apply map_ext. intros r. unfold update_tool.
  now destruct (tv_id r =? tid)%Z.
Qed.

Lemma save_ok (db : Database) (n d : jsstring) (v : vector) (m : jsstring) :
  store_ok db -> store_ok (fst (saveToolVector E db n d v m)).
Proof.
  intros Hok. pose proof Hok as [N1 [B1 _]]. unfold saveToolVector.
  destruct (getToolByMD5 db (generateToolMD5 (md5hex E) n d) m) as [row|] eqn:F;
    simpl; apply saved_store_ok; auto.
  - now rewrite update_tool_ids.
  - intros r Hr. apply in_map_iff in Hr as [r0 [<- Hr0]].
    unfold update_tool. destruct (tv_id r0 =? tv_id row)%Z; simpl; auto.
  - intros i. now rewrite update_tool_ids.
  - intros i. rewrite update_tool_ids. auto.
  - rewrite update_tool_ids. apply in_map. unfold getToolByMD5 in F.
    now apply find_some in F.
  - rewrite map_app. simpl. apply NoDup_snoc; [exact N1|].
    intros H. apply in_map_iff in H as [r [Hid Hr]]. apply B1 in Hr. lia.
  - intros r Hr. apply in_app_iff in Hr as [Hr | [<- | []]]; simpl; [|lia].
    apply B1 in Hr. lia.
  - intros i Hi. rewrite map_app. apply in_or_app. now left.
  - intros i. rewrite map_app, in_app_iff. simpl. intuition auto.
  - rewrite map_app. apply in_or_app. right. now left.
Qed.

Lemma batch_save_ok (l : list ToolData) (m : jsstring) :
  forall db, store_ok db -> store_ok (fst (saveToolVectorsBatch E db l m)).
Proof.
  induction l as [|t rest IH]; intros db Hok; [exact Hok|].
  rewrite batch_save_step. apply IH. now apply save_ok.
Qed.

(** The tables a delete transaction leaves, also when it selects
    nothing. *)
Lemma tx_tables (db : Database) (md5 : jsstring) (mn : option jsstring) :
  let db' := fst (deleteToolVector_tx db md5 mn) in
  let ids := map tv_id (filter (delete_selection md5 mn) (tool_vectors db)) in
  let is_tool := fun m : Z * Z => existsb (Z.eqb (snd m)) ids in
  let rowids := map fst (filter is_tool (tool_mapping db)) in
  tool_vectors db'
  = filter (fun r => negb (delete_selection md5 mn r)) (tool_vectors db)
  /\ vec_tool_embeddings db'
     = filter (fun vte => negb (existsb (Z.eqb (fst vte)) rowids))
         (vec_tool_embeddings db)
  /\ tool_mapping db' = filter (fun m => negb (is_tool m)) (tool_mapping db)
  /\ tool_vectors_seq db' = tool_vectors_seq db
  /\ vec_seq db' = vec_seq db
  /\ session_tool_history db' = session_tool_history db
  /\ session_seq db' = session_seq db
  /\ mcp_servers db' = mcp_servers db.
Proof.
  intros db' ids is_tool rowids. subst db' rowids is_tool.
  unfold deleteToolVector_tx. fold ids.
  destruct ids as [|i rest] eqn:Hids.
  - simpl. pose proof (no_selected db md5 mn Hids) as Hno.
    assert (Hnil : filter (fun _ : Z * Z => false) (tool_mapping db) = [])
      by (induction (tool_mapping db); simpl; auto).
    rewrite Hnil. simpl.
    split; [symmetry; apply filter_all; intros r Hr; now rewrite (Hno r Hr)|].
    split; [symmetry; apply filter_all; auto|].
    split; [symmetry; apply filter_all; auto|].
    repeat split.
  - cbv beta iota. unfold fst at 1 2 3 4 5 6 7 8.
    cbv beta iota. repeat split.
Qed.

Lemma tx_ok (db : Database) (md5 : jsstring) (mn : option jsstring) :
  store_ok db -> store_ok (fst (deleteToolVector_tx db md5 mn)).
Proof.
  intros [N1 [B1 [N2 [B2 [N3 [R [V T]]]]]]].
  destruct (tx_tables db md5 mn) as [Et [Ev [Em [Es [Evs _]]]]].
  set (ids := map tv_id (filter (delete_selection md5 mn) (tool_vectors db))) in *.
  set (is_tool := fun m : Z * Z => existsb (Z.eqb (snd m)) ids) in *.
  set (rowids := map fst (filter is_tool (tool_mapping db))) in *.
  assert (Hsel : forall r, In r (tool_vectors db) ->
                   (In (tv_id r) ids <-> delete_selection md5 mn r = true)).
  { intros r Hr. unfold ids. split.
    - intros H. apply in_map_iff in H as [r0 [Hid H]].
      apply filter_In in H as [Hr0 Hs0].
      now rewrite <- (NoDup_map_eq tv_id _ _ _ N1 Hr0 Hr Hid).
    - intros H. apply in_map. apply filter_In. now split. }
  assert (Htool : forall m, is_tool m = true <-> In (snd m) ids).
  { intros m. unfold is_tool. rewrite existsb_exists. split.
    - intros [x [Hx Heq]]. apply Z.eqb_eq in Heq. now subst.
    - intros H. exists (snd m). split; [exact H | apply Z.eqb_refl]. }
  assert (Hrow : forall m, In m (tool_mapping db) ->
                   (In (fst m) rowids <-> is_tool m = true)).
  { intros m Hm. unfold rowids. split.
    - intros H. apply in_map_iff in H as [m0 [Hf H]].
      apply filter_In in H as [Hm0 Ht0].
      now rewrite <- (NoDup_map_eq fst _ _ _ N3 Hm0 Hm Hf).
    - intros H. apply in_map. apply filter_In. now split. }
  assert (Hgone : forall i, existsb (Z.eqb i) rowids = true <-> In i rowids).
  { intros i. rewrite existsb_exists. split.
    - intros [x [Hx Heq]]. apply Z.eqb_eq in Heq. now subst.
    - intros H. exists i. split; [exact H | apply Z.eqb_refl]. }
  unfold store_ok, vector_rowids in *. rewrite Et, Ev, Em, Es, Evs.
  split; [now apply distinct_keys_filter|].
  split; [intros r Hr; apply filter_In in Hr as [Hr _]; auto|].
  split; [now apply distinct_keys_filter|].
  split.
  { intros i Hi. apply in_map_iff in Hi as [x [<- Hx]].
    apply filter_In in Hx as [Hx _]. apply B2. now apply in_map. }
  split; [now apply distinct_keys_filter|].
  split.
  { intros m Hm'. apply filter_In in Hm' as [Hin Hnot].
    apply negb_true_iff in Hnot. change (is_tool m = false) in Hnot.
    destruct (R m Hin) as [Hvec Hrec]. split.
    - apply in_map_iff in Hvec as [vte [Hf Hvte]]. apply in_map_iff.
      exists vte. split; [exact Hf|]. apply filter_In. split; [exact Hvte|].
      apply negb_true_iff. apply not_true_iff_false. rewrite Hgone, Hf.
      rewrite (Hrow m Hin). congruence.
    - apply in_map_iff in Hrec as [r [Hid Hr]]. apply in_map_iff.
      exists r. split; [exact Hid|]. apply filter_In. split; [exact Hr|].
      apply negb_true_iff. apply not_true_iff_false.
      rewrite <- (Hsel r Hr), Hid, <- Htool. congruence. }
  split.
  { intros i Hi. apply in_map_iff in Hi as [vte [<- Hvte]].
    apply filter_In in Hvte as [Hvte Hnot]. apply negb_true_iff in Hnot.
    pose proof (V (fst vte) (in_map fst _ _ Hvte)) as Hmap.
    apply in_map_iff in Hmap as [m [Hf Hin]]. apply in_map_iff.
    exists m. split; [exact Hf|]. apply filter_In. split; [exact Hin|].
    apply negb_true_iff. apply not_true_iff_false.
    change (is_tool m <> true).
    rewrite <- (Hrow m Hin), Hf, <- Hgone. congruence. }
  intros r Hr. apply filter_In in Hr as [Hr Hnot]. apply negb_true_iff in Hnot.
  destruct (T r Hr) as [m [Hin Hs']]. exists m. split; [|exact Hs'].
  apply filter_In. split; [exact Hin|].
  apply negb_true_iff. apply not_true_iff_false.
  change (is_tool m <> true).
  rewrite Htool, Hs', (Hsel r Hr). congruence.
Qed.

Lemma delete_superseded_ok (model : jsstring) (toDelete : list SearchResult) :
  forall db, store_ok db -> store_ok (fst (delete_superseded E db model toDelete)).
Proof.
  induction toDelete as [|c rest IH]; intros db Hok; [exact Hok|].
  simpl. unfold deleteToolVector.
  destruct (delete_fault E (sr_tool_md5 c)); [now apply IH|].
  pose proof (tx_ok db (sr_tool_md5 c) (Some model) Hok) as Htx.
  destruct (deleteToolVector_tx db (sr_tool_md5 c) (Some model)) as [dbx n].
  specialize (IH dbx Htx).
  now destruct (delete_superseded E dbx model rest).
Qed.

Lemma vectorize_all_ok (model : jsstring) (todo : list ToolToVectorize) :
  forall db, store_ok db -> store_ok (fst (fst (vectorize_all E db model todo))).
Proof.
  induction todo as [|x rest IH]; intros db Hok; [exact Hok|].
  simpl.
  assert (H1 : store_ok (fst (fst (vectorize_one E db model x)))).
  { unfold vectorize_one. destruct (vectorizeString E _) as [v|msg]; [|exact Hok].
    pose proof (delete_superseded_ok model
                  (identifySimilarToolsToDelete (tv_toolName x)
                     (tv_toolDescription x) (similar_candidates E db v) 0.96)
                  db Hok) as Hd.
    now destruct (delete_superseded E db model _). }
  destruct (vectorize_one E db model x) as [[db1 queued] deleted].
  specialize (IH db1 H1).
  now destruct (vectorize_all E db1 model rest) as [[db2 vs] total].
Qed.

(** X1. The three writers of the tool tables keep the tool tables
    consistent: after [saveToolVector], after [saveToolVectorsBatch] and
    after a [deleteToolVector] that does not throw, record ids and vector
    rowids are still distinct and below their sequence marks, every mapping
    row still joins a stored vector to a stored record, and every vector
    and every record still has a mapping row. *)
Theorem writers_keep_store_ok (db : Database) :
  store_ok db ->
  (forall n d v m, store_ok (fst (saveToolVector E db n d v m)))
  /\ (forall l m, store_ok (fst (saveToolVectorsBatch E db l m)))
  /\ (forall md5 mn db' count,
         deleteToolVector E db md5 mn = Some (db', count) -> store_ok db').
Proof.
  intros Hok. split; [|split].
  - intros n d v m. now apply save_ok.
  - intros l m. now apply batch_save_ok.
  - intros md5 mn db' count. unfold deleteToolVector.
    destruct (delete_fault E md5); [discriminate|].
    intros H. injection H as H.
    assert (Hd : db' = fst (deleteToolVector_tx db md5 mn)) by now rewrite H.
    rewrite Hd. now apply tx_ok.
Qed.

(** X2. A run of the indexer keeps the tool tables consistent, whatever
    the catalog, whichever embeddings fail and whichever deletions
    fail. *)
Theorem indexMCPTools_keeps_store_ok (db : Database) (mcpClient : MCPClient E)
    (modelName : option jsstring) (run : IndexRun) :
  store_ok db ->
  indexMCPTools E db mcpClient modelName = Returned run ->
  store_ok (ix_db run).
Proof.
  intros Hok Hrun. destruct mcpClient as [tools | msg]; [|discriminate].
  rewrite (indexMCPTools_db E db tools modelName run Hrun).
  apply batch_save_ok, vectorize_all_ok, Hok.
Qed.

End StoreIntegrity.

(* ================================================================= *)
(** ** Saving, looking up, searching and deleting *)

Lemma find_map_same {A : Type} (p : A -> bool) (f : A -> A) (l : list A) :
  (forall x, p (f x) = p x) -> find p (map f l) = option_map f (find p l).
Proof.
  intros H. induction l as [|x l IH]; simpl; [reflexivity|].
  rewrite H. now destruct (p x).
Qed.

Lemma find_app_none {A : Type} (p : A -> bool) (l l' : list A) :
  find p l = None -> find p (l ++ l') = find p l'.
Proof.
  induction l as [|x l IH]; simpl; [reflexivity|].
  destruct (p x); [discriminate | exact IH].
Qed.

Lemma find_filter_keep {A : Type} (p q : A -> bool) (l : list A) :
  (forall x, In x l -> p x = true -> q x = true) ->
  find p (filter q l) = find p l.
Proof.
  intros H. induction l as [|x l IH]; simpl; [reflexivity|].
  assert (IH' : find p (filter q l) = find p l)
    by (apply IH; intros y Hy; apply H; now right).
  destruct (p x) eqn:Hp.
  - rewrite (H x (or_introl eq_refl) Hp). simpl. now rewrite Hp.
  - destruct (q x); simpl; [now rewrite Hp | exact IH'].
Qed.

Lemma filter_none {A : Type} (p : A -> bool) (l : list A) :
  (forall x, In x l -> p x = false) -> filter p l = [].
Proof.
  intros H. induction l as [|x l IH]; simpl; [reflexivity|].
  rewrite (H x (or_introl eq_refl)). apply IH. intros y Hy. apply H. now right.
Qed.

Lemma limit_complete {A : Type} (k : Z) (l : list A) (x : A) :
  In x l ->
  In x (Sql.limit k l) \/ Z.of_nat (List.length (Sql.limit k l)) = k.
Proof.
  intros Hx. unfold Sql.limit. destruct (k <? 0)%Z eqn:Hk; [now left|].
  apply Z.ltb_ge in Hk.
  destruct (le_lt_dec (List.length l) (Z.to_nat k)) as [Hle | Hlt].
  - left. now rewrite firstn_all2.
  - right. rewrite length_firstn. lia.
Qed.

Lemma limit_length {A : Type} (k : Z) (l : list A) :
  (0 <= k)%Z -> (Z.of_nat (List.length (Sql.limit k l)) <= k)%Z.
Proof.
  intros Hk. unfold Sql.limit. destruct (k <? 0)%Z eqn:Hlt.
  - apply Z.ltb_lt in Hlt. lia.
  - rewrite length_firstn. lia.
Qed.

Section RoundTrips.

Variable E : Env.

Arguments delete_selection : simpl never.

(** A joined row above the threshold is returned by an unfiltered
    search unless the result is cut at the limit. *)
Lemma search_complete (db : Database) (q : vector) (k : Z) (threshold : float)
    (r : SearchResult) :
  In r (joined_rows E db q) ->
  PrimFloat.leb threshold (sr_similarity r) = true ->
  In r (searchSimilarVectors E db q k threshold None)
  \/ Z.of_nat (List.length (searchSimilarVectors E db q k threshold None)) = k.
Proof.
  intros Hr Hth. unfold searchSimilarVectors. apply limit_complete.
  apply In_order_by_distance. apply filter_In. now split.
Qed.

(** The record a save writes or updates. *)
Lemma saved_record_In (db : Database) (n d : jsstring) (v : vector)
    (m : jsstring) :
  exists r,
    In r (tool_vectors (fst (saveToolVector E db n d v m)))
    /\ tv_id r = snd (saveToolVector E db n d v m)
    /\ tv_tool_md5 r = generateToolMD5 (md5hex E) n d
    /\ tv_model_name r = m
    /\ tv_tool_name r = n
    /\ tv_description r = Some d.
Proof.
  unfold saveToolVector.
  destruct (getToolByMD5 db (generateToolMD5 (md5hex E) n d) m) as [row|] eqn:F;
    simpl.
  - exists (update_tool (tv_id row) n d row).
    unfold getToolByMD5 in F. apply find_some in F as [Hr Hm].
    split; [now apply in_map|].
    unfold md5_model_match in Hm.
    apply andb_true_iff in Hm as [H1 H2]. apply jseqb_eq in H1, H2.
    unfold update_tool. rewrite Z.eqb_refl. simpl. repeat split; auto.
  - eexists. split; [apply in_or_app; right; left; reflexivity|].
    repeat split.
Qed.

(** X3. After [saveToolVector], [getToolByMD5] with the identity of the
    saved name and description and with the model finds a record with the
    returned id, that name and that description, whether the tool was
    stored before or not. *)
Theorem save_then_lookup (db : Database) (n d : jsstring) (v : vector)
    (m : jsstring) :
  exists r,
    getToolByMD5 (fst (saveToolVector E db n d v m))
      (generateToolMD5 (md5hex E) n d) m = Some r
    /\ tv_id r = snd (saveToolVector E db n d v m)
    /\ tv_tool_md5 r = generateToolMD5 (md5hex E) n d
    /\ tv_model_name r = m
    /\ tv_tool_name r = n
    /\ tv_description r = Some d.
Proof.
  unfold saveToolVector.
  destruct (getToolByMD5 db (generateToolMD5 (md5hex E) n d) m) as [row|] eqn:F;
    unfold getToolByMD5 in *; simpl.
  - rewrite find_map_same, F.
    + simpl. eexists. split; [reflexivity|].
      apply find_some in F as [_ Hm]. unfold md5_model_match in Hm.
      apply andb_true_iff in Hm as [H1 H2]. apply jseqb_eq in H1, H2.
      unfold update_tool. rewrite Z.eqb_refl. simpl. repeat split; auto.
    + intros x. unfold update_tool, md5_model_match.
      now destruct (tv_id x =? tv_id row)%Z.
  - rewrite find_app_none by exact F. simpl.
    unfold md5_model_match at 1. simpl. rewrite !jseqb_refl. simpl.
    eexists. split; [reflexivity|]. repeat split.
Qed.

(** X4. After [saveToolVector] the vector just saved is searchable: a
    search with any query returns the saved tool, with its name, its
    identity and the distance of the saved vector to the query, whenever
    that similarity reaches the threshold, unless the result is full (as
    many rows as the limit). *)
Theorem save_then_search (db : Database) (n d : jsstring) (v q : vector)
    (m : jsstring) (k : Z) (threshold : float) :
  let db' := fst (saveToolVector E db n d v m) in
  let distance := vec_distance_cosine E v q in
  PrimFloat.leb threshold (1 - distance)%float = true ->
  (exists r,
      In r (searchSimilarVectors E db' q k threshold None)
      /\ sr_id r = snd (saveToolVector E db n d v m)
      /\ sr_tool_md5 r = generateToolMD5 (md5hex E) n d
      /\ sr_model_name r = m
      /\ sr_tool_name r = n
      /\ sr_description r = Some d
      /\ sr_distance r = distance)
  \/ Z.of_nat (List.length (searchSimilarVectors E db' q k threshold None)) = k.
Proof.
  intros db' distance Hth.
  destruct (saved_record_In db n d v m) as [r [Hr [Hid [Hmd5 [Hm [Hn Hd]]]]]].
  fold db' in Hr.
  assert (Hrow : In (joined_row E q ((vec_seq db + 1)%Z, v) r) (joined_rows E db' q)).
  { apply joined_rows_In.
    exists ((vec_seq db + 1)%Z, v), ((vec_seq db + 1)%Z, tv_id r), r.
    subst db'. rewrite Hid. unfold saveToolVector in *.
    destruct (getToolByMD5 db (generateToolMD5 (md5hex E) n d) m) as [row|];
      simpl in *; repeat split; auto;
      apply in_or_app; right; now left. }
  destruct (search_complete db' q k threshold _ Hrow Hth) as [Hin | Hfull];
    [left | now right].
  eexists. split; [exact Hin|]. simpl. repeat split; auto.
Qed.

(** X5. After a [deleteToolVector] that does not throw, no record with
    the deleted identity is left under the model given, and under no model
    at all when the model is absent or empty; lookups of any other identity
    answer as before; and the count returned is the number of records
    removed. *)
Theorem delete_then_lookup (db : Database) (md5 : jsstring)
    (mn : option jsstring) (db' : Database) (count : Z) :
  deleteToolVector E db md5 mn = Some (db', count) ->
  (forall model, mn = Some model -> getToolByMD5 db' md5 model = None)
  /\ (mn = None \/ mn = Some [] ->
      forall model, getToolByMD5 db' md5 model = None)
  /\ (forall md5' model, md5' <> md5 ->
        getToolByMD5 db' md5' model = getToolByMD5 db md5' model)
  /\ (Z.of_nat (List.length (tool_vectors db))
      = Z.of_nat (List.length (tool_vectors db')) + count)%Z.
Proof.
  unfold deleteToolVector. destruct (delete_fault E md5); [discriminate|].
  intros H. injection H as H.
  assert (Hd : db' = fst (deleteToolVector_tx db md5 mn)) by now rewrite H.
  assert (Hc : count = snd (deleteToolVector_tx db md5 mn)) by now rewrite H.
  destruct (tx_tables db md5 mn) as [Et _]. rewrite <- Hd in Et.
  split; [|split; [|split]].
  - intros model ->. apply getToolByMD5_none. intros r Hr.
    rewrite Et in Hr. apply filter_In in Hr as [_ Hs].
    apply negb_true_iff in Hs. apply not_true_iff_false. intros Hm.
    apply selection_covers in Hm. congruence.
  - intros Hmn model. apply getToolByMD5_none. intros r Hr.
    rewrite Et in Hr. apply filter_In in Hr as [_ Hs].
    apply negb_true_iff in Hs. unfold md5_model_match.
    assert (Hsel : delete_selection md5 mn r = JS.eqb (tv_tool_md5 r) md5)
      by (destruct Hmn as [-> | ->]; reflexivity).
    rewrite <- Hsel, Hs. reflexivity.
  - intros md5' model Hneq. unfold getToolByMD5. rewrite Et.
    apply find_filter_keep. intros r _ Hm. apply negb_true_iff.
    apply not_true_iff_false. intros Hs.
    unfold md5_model_match in Hm. apply andb_true_iff in Hm as [Hm _].
    apply jseqb_eq in Hm.
    assert (Hmd5 : JS.eqb (tv_tool_md5 r) md5 = true).
    { unfold delete_selection, md5_model_match in Hs.
      destruct mn as [[|c model0]|]; auto.
      now apply andb_true_iff in Hs as [Hs _]. }
    apply jseqb_eq in Hmd5. congruence.
  - rewrite Et, Hc. unfold deleteToolVector_tx.
    pose proof (filter_length (delete_selection md5 mn) (tool_vectors db)) as Hlen.
    destruct (filter (delete_selection md5 mn) (tool_vectors db)) as [|r0 l0];
      simpl in *; lia.
Qed.

(** X6. Saving a tool that was not stored and deleting it again under
    the same, non-empty model removes one record and leaves the records,
    the vectors and the mapping rows of a consistent store as they were;
    the ids are spent: the sequence marks stay advanced. *)
Theorem save_then_delete (db : Database) (n d : jsstring) (v : vector)
    (c : N) (m : jsstring) :
  let model := c :: m in
  let md5 := generateToolMD5 (md5hex E) n d in
  let db1 := fst (saveToolVector E db n d v model) in
  store_ok db ->
  getToolByMD5 db md5 model = None ->
  delete_fault E md5 = false ->
  exists db2,
    deleteToolVector E db1 md5 (Some model) = Some (db2, 1%Z)
    /\ same_tools db db2
    /\ tool_vectors_seq db2 = (tool_vectors_seq db + 1)%Z
    /\ vec_seq db2 = (vec_seq db + 1)%Z.
Proof.
  intros model md5 db1 [N1 [B1 [N2 [B2 [N3 [R [V T]]]]]]] F Hfault.
  unfold deleteToolVector. rewrite Hfault.
  exists (fst (deleteToolVector_tx db1 md5 (Some model))).
  assert (Hkeep : filter (fun tm => negb (fst tm =? vec_seq db + 1)%Z) (tool_mapping db)
                  = tool_mapping db).
  { apply filter_all. intros tm Hm. apply negb_true_iff, Z.eqb_neq.
    destruct (R tm Hm) as [Hv _]. apply B2 in Hv. lia. }
  set (new := {| tv_id := (tool_vectors_seq db + 1)%Z; tv_tool_md5 := md5;
                 tv_model_name := model; tv_tool_name := n;
                 tv_description := Some d |}).
  assert (E1 : tool_vectors db1 = tool_vectors db ++ [new]
               /\ vec_tool_embeddings db1
                  = vec_tool_embeddings db ++ [((vec_seq db + 1)%Z, v)]
               /\ tool_mapping db1
                  = tool_mapping db
                    ++ [((vec_seq db + 1)%Z, (tool_vectors_seq db + 1)%Z)]
               /\ tool_vectors_seq db1 = (tool_vectors_seq db + 1)%Z
               /\ vec_seq db1 = (vec_seq db + 1)%Z).
  { subst db1. unfold saveToolVector. fold md5. rewrite F. simpl.
    rewrite Hkeep. repeat split. }
  destruct E1 as [Et [Ev [Em [Es Evs]]]].
  assert (Hsel : delete_selection md5 (Some model) = md5_model_match md5 model)
    by reflexivity.
  assert (Hold : forall r, In r (tool_vectors db) ->
                   md5_model_match md5 model r = false)
    by (now apply getToolByMD5_none).
  assert (Hnew : md5_model_match md5 model new = true)
    by (unfold md5_model_match; simpl; now rewrite !jseqb_refl).
  assert (Hids : map tv_id (filter (delete_selection md5 (Some model))
                              (tool_vectors db1))
                 = [(tool_vectors_seq db + 1)%Z]).
  { rewrite Hsel, Et, filter_app, (filter_none _ _ Hold). simpl.
    now rewrite Hnew. }
  assert (Hrows : filter (fun tm : Z * Z =>
                            existsb (Z.eqb (snd tm)) [(tool_vectors_seq db + 1)%Z])
                    (tool_mapping db1)
                  = [((vec_seq db + 1)%Z, (tool_vectors_seq db + 1)%Z)]).
  { rewrite Em, filter_app. simpl. rewrite Z.eqb_refl. simpl.
    rewrite filter_none; [reflexivity|]. intros tm Hm. simpl.
    rewrite orb_false_r. apply Z.eqb_neq. destruct (R tm Hm) as [_ Hr].
    apply in_map_iff in Hr as [r [Hid Hr]]. apply B1 in Hr. lia. }
  destruct (tx_tables db1 md5 (Some model)) as [Ft [Fv [Fm [Fs [Fvs _]]]]].
  rewrite Hids in Fv, Fm. rewrite Hrows in Fv.
  split; [|split; [|split]].
  - assert (Hsnd : snd (deleteToolVector_tx db1 md5 (Some model)) = 1%Z).
    { unfold deleteToolVector_tx.
      destruct (map tv_id (filter (delete_selection md5 (Some model))
                             (tool_vectors db1))) as [|i ids] eqn:Hmap;
        [discriminate|].
      simpl. rewrite Hsel, Et, filter_app, (filter_none _ _ Hold). simpl.
      now rewrite Hnew. }
    rewrite <- Hsnd. now rewrite <- surjective_pairing.
  - unfold same_tools. rewrite Ft, Fv, Fm, Hsel, Et, Ev, Em, !filter_app. simpl.
    rewrite Hnew, !Z.eqb_refl. simpl. rewrite !app_nil_r.
    split; [|split]; symmetry; apply filter_all.
    + intros r Hr. now rewrite (Hold r Hr).
    + intros vte Hvte. simpl. rewrite orb_false_r.
      apply negb_true_iff, Z.eqb_neq.
      pose proof (B2 _ (in_map fst _ _ Hvte)). unfold vector_rowids in *. lia.
    + intros tm Hm. simpl. rewrite orb_false_r.
      apply negb_true_iff, Z.eqb_neq. destruct (R tm Hm) as [_ Hr].
      apply in_map_iff in Hr as [r [Hid Hr]]. apply B1 in Hr. lia.
  - now rewrite Fs.
  - now rewrite Fvs.
Qed.

End RoundTrips.

(* ================================================================= *)
(** ** The join, the statistics and clearing the index *)

Lemma flat_map_skip {A B : Type} (key : A -> Z) (g : A -> list B) (k : Z)
    (l : list A) :
  (forall y, In y l -> key y <> k) ->
  flat_map (fun y => if (k =? key y)%Z then g y else []) l = [].
Proof.
  intros H. induction l as [|y l IH]; simpl; [reflexivity|].
  assert (Hy : (k =? key y)%Z = false)
    by (apply Z.eqb_neq; intros Heq; now apply (H y (or_introl eq_refl))).
  rewrite Hy. apply IH. intros z Hz. apply H. now right.
Qed.

Lemma flat_map_pick {A B : Type} (key : A -> Z) (g : A -> list B) (k : Z)
    (l : list A) (x : A) :
  NoDup (map key l) -> In x l -> key x = k ->
  flat_map (fun y => if (k =? key y)%Z then g y else []) l = g x.
Proof.
  intros Hnd Hx Hk. induction l as [|y l IH]; [destruct Hx|].
  simpl in *. inversion Hnd as [|b l' Hy Hl]; subst.
  destruct Hx as [-> | Hx].
  - rewrite Z.eqb_refl, flat_map_skip; [apply app_nil_r|].
    intros z Hz Heq. apply Hy. rewrite <- Heq. now apply in_map.
  - assert (Hne : (key x =? key y)%Z = false).
    { apply Z.eqb_neq. intros Heq. apply Hy. rewrite <- Heq. now apply in_map. }
    rewrite Hne. now apply IH.
Qed.

Lemma flat_map_singletons {A B : Type} (f : A -> list B) (l : list A) :
  (forall x, In x l -> List.length (f x) = 1) ->
  List.length (flat_map f l) = List.length l.
Proof.
  intros H. induction l as [|x l IH]; simpl; [reflexivity|].
  rewrite length_app, (H x (or_introl eq_refl)), IH; [reflexivity|].
  intros y Hy. apply H. now right.
Qed.

Lemma filter_length_le {A : Type} (p : A -> bool) (l : list A) :
  List.length (filter p l) <= List.length l.
Proof.
  induction l as [|x l IH]; simpl; [lia|]. destruct (p x); simpl; lia.
Qed.

Lemma limit_length_le {A : Type} (k : Z) (l : list A) :
  List.length (Sql.limit k l) <= List.length l.
Proof.
  unfold Sql.limit. destruct (k <? 0)%Z; [lia|]. rewrite length_firstn. lia.
Qed.

Lemma count_model_sum (model : jsstring) (stats : list (jsstring * Z)) :
  fold_right Z.add 0%Z (map snd (count_model model stats))
  = (fold_right Z.add 0%Z (map snd stats) + 1)%Z.
Proof.
  induction stats as [|[m c] rest IH]; cbn [count_model]; [reflexivity|].
  destruct (JS.eqb m model); cbn [map snd fold_right]; [lia|].
  destruct (Sql.binary_ltb model m); cbn [map snd fold_right]; lia.
Qed.

Lemma count_model_listed (model m : jsstring) (stats : list (jsstring * Z)) :
  listed_under m (count_model model stats)
  = (listed_under m stats + (if JS.eqb model m then 1 else 0))%Z.
Proof.
  unfold listed_under.
  induction stats as [|[m0 c] rest IH]; cbn [count_model filter fst].
  - destruct (JS.eqb model m); cbn [map snd fold_right]; lia.
  - destruct (JS.eqb m0 model) eqn:H0; cbn [filter fst].
    + apply jseqb_eq in H0. subst m0.
      destruct (JS.eqb model m); cbn [map snd fold_right]; lia.
    + destruct (Sql.binary_ltb model m0); cbn [filter fst].
      * destruct (JS.eqb model m), (JS.eqb m0 m); cbn [map snd fold_right]; lia.
      * destruct (JS.eqb m0 m); cbn [map snd fold_right]; rewrite IH; lia.
Qed.

Section JoinFacts.

Variable E : Env.

(** X7. In a consistent store the join of the search has exactly one
    row per stored vector, every record is joined to a vector, and no
    search, whatever its limit, threshold and server filter, returns more
    rows than there are vectors. *)
Theorem one_row_per_vector (db : Database) (q : vector) :
  store_ok db ->
  List.length (joined_rows E db q) = List.length (vec_tool_embeddings db)
  /\ (forall r, In r (tool_vectors db) ->
        exists vte, In vte (vec_tool_embeddings db)
                    /\ In (joined_row E q vte r) (joined_rows E db q))
  /\ (forall k threshold serverNames,
        List.length (searchSimilarVectors E db q k threshold serverNames)
        <= List.length (vec_tool_embeddings db)).
Proof.
  intros [N1 [B1 [N2 [B2 [N3 [R [V T]]]]]]].
  assert (Hlen : List.length (joined_rows E db q)
                 = List.length (vec_tool_embeddings db)).
  { unfold joined_rows. apply flat_map_singletons. intros vte Hvte.
    pose proof (V (fst vte) (in_map fst _ _ Hvte)) as Hm.
    apply in_map_iff in Hm as [tm [Hf Htm]].
    rewrite (flat_map_pick fst _ (fst vte) (tool_mapping db) tm N3 Htm Hf).
    destruct (R tm Htm) as [_ Hr]. apply in_map_iff in Hr as [tv [Hid Htv]].
    now rewrite (flat_map_pick tv_id _ (snd tm) (tool_vectors db) tv N1 Htv Hid). }
  split; [exact Hlen|]. split.
  - intros r Hr. destruct (T r Hr) as [tm [Htm Hs]].
    destruct (R tm Htm) as [Hv _]. unfold vector_rowids in Hv.
    apply in_map_iff in Hv as [vte [Hf Hvte]].
    exists vte. split; [exact Hvte|]. apply joined_rows_In.
    exists vte, tm, r. repeat split; auto.
  - intros k threshold serverNames. unfold searchSimilarVectors.
    rewrite <- Hlen.
    eapply Nat.le_trans; [apply limit_length_le|].
    rewrite order_by_distance_length. apply filter_length_le.
Qed.

(** X8. The statistics of a store: the counts per model add up to
    [totalTools], the counts listed under a model name add up to the
    number of records stored under it, and in a consistent store there are
    at least as many vectors as records and as many mapping rows as
    vectors. *)
Theorem getStats_counts (db : Database) :
  fold_right Z.add 0%Z (map snd (modelStats (getStats db)))
  = totalTools (getStats db)
  /\ (forall model,
        listed_under model (modelStats (getStats db))
        = Z.of_nat (List.length
                      (filter (fun r => JS.eqb (tv_model_name r) model)
                         (tool_vectors db))))
  /\ (store_ok db ->
      (totalTools (getStats db) <= totalVectors (getStats db))%Z
      /\ totalVectors (getStats db) = Z.of_nat (List.length (tool_mapping db))).
Proof.
  unfold getStats. simpl. split; [|split].
  - rewrite <- fold_left_rev_right, <- length_rev.
    induction (rev (tool_vectors db)) as [|r l IH]; [reflexivity|].
    simpl fold_right at 2. rewrite count_model_sum, IH.
    simpl List.length. lia.
  - intros model. rewrite <- fold_left_rev_right.
    rewrite <- (rev_involutive (tool_vectors db)) at 2.
    induction (rev (tool_vectors db)) as [|r l IH]; [reflexivity|].
    simpl fold_right. rewrite count_model_listed, IH.
    simpl rev. rewrite filter_app, length_app. simpl.
    destruct (JS.eqb (tv_model_name r) model); simpl; lia.
  - intros [N1 [B1 [N2 [B2 [N3 [R [V T]]]]]]].
    assert (H1 : List.length (tool_vectors db) <= List.length (tool_mapping db)).
    { rewrite <- (length_map tv_id), <- (length_map snd (tool_mapping db)).
      apply NoDup_incl_length; [exact N1|]. intros i Hi.
      apply in_map_iff in Hi as [r [<- Hr]]. destruct (T r Hr) as [m [Hm <-]].
      now apply in_map. }
    assert (H2 : List.length (tool_mapping db) <= List.length (vec_tool_embeddings db)).
    { rewrite <- (length_map fst (tool_mapping db)),
        <- (length_map fst (vec_tool_embeddings db)).
      apply NoDup_incl_length; [exact N3|]. intros i Hi.
      apply in_map_iff in Hi as [m [<- Hm]]. now destruct (R m Hm). }
    assert (H3 : List.length (vec_tool_embeddings db) <= List.length (tool_mapping db)).
    { rewrite <- (length_map fst (tool_mapping db)),
        <- (length_map fst (vec_tool_embeddings db)).
      apply NoDup_incl_length; [exact N2|]. intros i Hi. now apply V. }
    lia.
Qed.

(** X9. After [clearIndex] every search returns nothing, whatever the
    query; no record is left under the model that was cleared, while the
    records of every other model are still found by [getToolByMD5],
    although their vectors are gone too; the session history is
    untouched. *)
Theorem clearIndex_effect (db : Database) (modelName : option jsstring)
    (db' : Database) :
  clearIndex E db modelName = Some db' ->
  (forall q k threshold serverNames,
      searchSimilarVectors E db' q k threshold serverNames = [])
  /\ (forall md5, getToolByMD5 db' md5 (defaultModelName E modelName) = None)
  /\ (forall md5 model, model <> defaultModelName E modelName ->
        getToolByMD5 db' md5 model = getToolByMD5 db md5 model)
  /\ vec_tool_embeddings db' = []
  /\ session_tool_history db' = session_tool_history db.
Proof.
  unfold clearIndex.
  destruct (existsb (N.eqb 39) (defaultModelName E modelName)); [discriminate|].
  intros H. injection H as <-. simpl. split; [|split; [|split; [|split]]]; auto.
  - intros q k threshold serverNames.
    unfold searchSimilarVectors, joined_rows. simpl.
    unfold Sql.limit. destruct (k <? 0)%Z; [reflexivity | apply firstn_nil].
  - intros md5. apply getToolByMD5_none. simpl. intros r Hr.
    apply filter_In in Hr as [_ Hm]. apply negb_true_iff in Hm.
    unfold md5_model_match. rewrite Hm. apply andb_false_r.
  - intros md5 model Hneq. unfold getToolByMD5. simpl.
    apply find_filter_keep. intros r _ Hm. apply negb_true_iff.
    apply jseqb_neq. unfold md5_model_match in Hm.
    apply andb_true_iff in Hm as [_ Hm]. apply jseqb_eq in Hm. congruence.
Qed.

End JoinFacts.

(* ================================================================= *)
(** ** The session table *)

Lemma retrieved_In (db : Database) (sid md5 : jsstring) :
  isToolRetrievedBySession db sid md5 = true
  <-> In (sid, md5)
        (map (fun r => (sh_session_id r, sh_tool_md5 r)) (session_tool_history db)).
Proof.
  unfold isToolRetrievedBySession. rewrite existsb_exists, in_map_iff. split.
  - intros [r [Hr Hb]]. apply andb_true_iff in Hb as [H1 H2].
    apply jseqb_eq in H1, H2. exists r. split; [congruence | exact Hr].
  - intros [r [Heq Hr]]. injection Heq as <- <-. exists r.
    split; [exact Hr|]. now rewrite !jseqb_refl.
Qed.

Section SessionTable.

Variable E : Env.

Lemma record_unique (db : Database) (sid md5 n : jsstring) :
  history_unique db ->
  history_unique (fst (recordSessionToolRetrieval E db sid md5 n)).
Proof.
  unfold history_unique, recordSessionToolRetrieval. intros H.
  destruct (isToolRetrievedBySession db sid md5) eqn:Hr; simpl; [exact H|].
  rewrite map_app. simpl. apply NoDup_snoc; [exact H|].
  rewrite <- retrieved_In. congruence.
Qed.

Lemma batch_unique (sid : jsstring) (l : list SessionToolRecord) :
  forall db, history_unique db ->
             history_unique (fst (recordSessionToolRetrievalBatch E db sid l)).
Proof.
  induction l as [|t rest IH]; intros db H; [exact H|].
  rewrite batch_step. apply IH. now apply record_unique.
Qed.

(** What a record or a batch of records leaves of the rest of the
    store: rows are only appended, all of them rows of the session. *)
Lemma record_appends (db : Database) (sid md5 n : jsstring) :
  let db1 := fst (recordSessionToolRetrieval E db sid md5 n) in
  mcp_servers db1 = mcp_servers db
  /\ exists rows,
       session_tool_history db1 = session_tool_history db ++ rows
       /\ (forall r, In r rows -> sh_session_id r = sid)
       /\ List.length rows <= 1.
Proof.
  unfold recordSessionToolRetrieval.
  destruct (isToolRetrievedBySession db sid md5); simpl.
  - split; [reflexivity|]. exists []. rewrite app_nil_r. split; [reflexivity|].
    split; [intros r [] | simpl; lia].
  - split; [reflexivity|]. eexists. split; [reflexivity|].
    split; [|simpl; lia]. intros r [<- | []]. reflexivity.
Qed.

(** Every call draws an id. *)
Lemma record_seq (db : Database) (sid md5 n : jsstring) :
  session_seq (fst (recordSessionToolRetrieval E db sid md5 n))
  = (session_seq db + 1)%Z.
Proof. reflexivity. Qed.

Lemma record_id (db : Database) (sid md5 n : jsstring) :
  snd (recordSessionToolRetrieval E db sid md5 n)
  = (if isToolRetrievedBySession db sid md5 then None
     else Some (session_seq db + 1)%Z).
Proof. reflexivity. Qed.

Lemma batch_appends (sid : jsstring) (l : list SessionToolRecord) :
  forall db,
    let db1 := fst (recordSessionToolRetrievalBatch E db sid l) in
    mcp_servers db1 = mcp_servers db
    /\ exists rows,
         session_tool_history db1 = session_tool_history db ++ rows
         /\ (forall r, In r rows -> sh_session_id r = sid)
         /\ List.length rows <= List.length l.
Proof.
  induction l as [|t rest IH]; intros db db1; subst db1.
  - simpl. split; [reflexivity|]. exists []. rewrite app_nil_r.
    split; [reflexivity|]. split; [intros r [] | simpl; lia].
  - rewrite batch_step.
    destruct (record_appends db sid (toolMD5 t) (toolName t))
      as [Hs [rows1 [H1 [S1 L1]]]].
    destruct (IH (fst (recordSessionToolRetrieval E db sid (toolMD5 t) (toolName t))))
      as [Hs' [rows2 [H2 [S2 L2]]]].
    split; [congruence|]. exists (rows1 ++ rows2).
    split; [now rewrite H2, H1, app_assoc|]. split.
    + intros r Hr. apply in_app_iff in Hr as [Hr | Hr]; auto.
    + rewrite length_app. simpl. lia.
Qed.

Lemma other_session_rows (sid sid' : jsstring) (rows : list SessionToolHistory) :
  sid' <> sid ->
  (forall r, In r rows -> sh_session_id r = sid) ->
  filter (fun r => JS.eqb (sh_session_id r) sid') rows = [].
Proof.
  intros Hneq Hrows. apply filter_none. intros r Hr.
  apply jseqb_neq. rewrite (Hrows r Hr). congruence.
Qed.

(** X10. [recordSessionToolRetrieval] records a tool once per session.
    Recording the same identity again in the same session, under any name,
    returns no id and leaves every table and the marks of the tool tables
    as they are, but the ignored [INSERT] has drawn an id all the same:
    every call moves the AUTOINCREMENT mark of the session table by one,
    and an identity that is new to the session and recorded after the two
    calls gets the third id after the first mark, not the second.  The
    number of tools [getSessionStats] counts for the session grows by one
    exactly when the identity was not recorded before, a new row gets the
    id after the mark, and no pair of session and identity ever gets two
    rows. *)
Theorem record_once (db : Database) (sid md5 n n' : jsstring) :
  let db1 := fst (recordSessionToolRetrieval E db sid md5 n) in
  let db2 := fst (recordSessionToolRetrieval E db1 sid md5 n') in
  snd (recordSessionToolRetrieval E db1 sid md5 n') = None
  /\ session_tool_history db2 = session_tool_history db1
  /\ same_tools db1 db2
  /\ mcp_servers db2 = mcp_servers db1
  /\ (tool_vectors_seq db2, vec_seq db2) = (tool_vectors_seq db1, vec_seq db1)
  /\ session_seq db1 = (session_seq db + 1)%Z
  /\ session_seq db2 = (session_seq db + 2)%Z
  /\ (forall md5' n'',
        isToolRetrievedBySession db1 sid md5' = false ->
        snd (recordSessionToolRetrieval E db2 sid md5' n'')
        = Some (session_seq db + 3)%Z)
  /\ ss_tools_count (getSessionStats db1 sid)
     = (ss_tools_count (getSessionStats db sid)
        + (if isToolRetrievedBySession db sid md5 then 0 else 1))%Z
  /\ snd (recordSessionToolRetrieval E db sid md5 n)
     = (if isToolRetrievedBySession db sid md5 then None
        else Some (session_seq db + 1)%Z)
  /\ (history_unique db -> history_unique db1).
Proof.
  intros db1 db2.
  pose proof (record_records E db sid md5 n) as Hrec. fold db1 in Hrec.
  assert (Hrows : session_tool_history db2 = session_tool_history db1).
  { subst db2. unfold recordSessionToolRetrieval at 1. cbn [fst session_tool_history].
    now rewrite Hrec. }
  split; [rewrite record_id; now rewrite Hrec|].
  split; [exact Hrows|].
  split; [apply record_same_tools|].
  split; [reflexivity|].
  split; [reflexivity|].
  split; [reflexivity|].
  split; [subst db2 db1; rewrite !record_seq; lia|].
  split; [|split; [|split]].
  - intros md5' n'' Hnew. rewrite record_id.
    assert (H2 : isToolRetrievedBySession db2 sid md5' = false).
    { unfold isToolRetrievedBySession in *. now rewrite Hrows. }
    rewrite H2. subst db2 db1. rewrite !record_seq. f_equal. lia.
  - subst db1. unfold recordSessionToolRetrieval, getSessionStats.
    cbn [fst session_tool_history ss_tools_count].
    destruct (isToolRetrievedBySession db sid md5); [lia|].
    rewrite filter_app, length_app. simpl. rewrite jseqb_refl. simpl. lia.
  - apply record_id.
  - apply record_unique.
Qed.

End SessionTable.

(** X11. [clearSessionHistory] returns the number of tools
    [getSessionStats] counted for the session and leaves the session with
    no history and no recorded tool, so that a retrieval with that session
    id starts a first-time session under a generated id; the history of
    every other session and the tool tables are as they were. *)
Theorem clearSessionHistory_effect (db : Database) (sid : jsstring) :
  let db' := fst (clearSessionHistory db sid) in
  snd (clearSessionHistory db sid) = ss_tools_count (getSessionStats db sid)
  /\ getSessionHistory db' sid = []
  /\ (forall md5, isToolRetrievedBySession db' sid md5 = false)
  /\ (forall random36,
        resolve_session db' random36 sid = (generateSessionId random36, true))
  /\ (forall sid', sid' <> sid ->
        getSessionHistory db' sid' = getSessionHistory db sid')
  /\ same_tools db db'
  /\ (history_unique db -> history_unique db').
Proof.
  intros db'.
  assert (Hnil : getSessionHistory db' sid = []).
  { unfold getSessionHistory. subst db'. simpl.
    rewrite filter_none; [reflexivity|]. intros r Hr.
    apply filter_In in Hr as [_ Hr]. now apply negb_true_iff in Hr. }
  split; [reflexivity|]. split; [exact Hnil|]. split; [|split; [|split; [|split]]].
  - intros md5. rewrite <- has_history, Hnil. reflexivity.
  - intros random36. unfold resolve_session. rewrite Hnil. now destruct sid.
  - intros sid' Hneq. unfold getSessionHistory. subst db'. simpl. f_equal.
    induction (session_tool_history db) as [|r l IH]; simpl; [reflexivity|].
    destruct (JS.eqb (sh_session_id r) sid) eqn:Hs; simpl.
    + apply jseqb_eq in Hs.
      assert (Hn : JS.eqb (sh_session_id r) sid' = false)
        by (apply jseqb_neq; congruence).
      now rewrite Hn.
    + destruct (JS.eqb (sh_session_id r) sid'); [f_equal|]; exact IH.
  - unfold same_tools. subst db'. simpl. auto.
  - unfold history_unique. subst db'. simpl. apply distinct_keys_filter.
Qed.


(* ================================================================= *)
(** ** What a retrieval reports *)

Lemma flat_map_length_le {A B : Type} (f : A -> list B) (l : list A) :
  (forall x, List.length (f x) <= 1) ->
  List.length (flat_map f l) <= List.length l.
Proof.
  intros H. induction l as [|x l IH]; simpl; [lia|].
  rewrite length_app. specialize (H x). lia.
Qed.

Lemma increasing_above (l : list nat) (x : nat) :
  increasing l -> (forall y, In y l -> x < y) -> increasing (x :: l).
Proof. intros Hl Hx. simpl. now split. Qed.

Section RetrieverFacts.

Variable E : Env.

Lemma recommendations_from_nth (details : bool) (matched : list (MatchedTool E)) :
  forall i j r,
    nth_error (recommendations_from i details matched) j = Some r ->
    exists mt,
      nth_error matched j = Some mt
      /\ rec_rank r = i + j + 1
      /\ rec_tool_name r = mt_tool_name mt
      /\ rec_tool_md5 r = mt_tool_md5 mt
      /\ rec_similarity r = mt_similarity mt.
Proof.
  induction matched as [|mt rest IH]; intros i j r H.
  - destruct j; discriminate.
  - destruct j as [|j]; simpl in H.
    + injection H as <-. exists mt. split; [reflexivity|].
      split; [simpl; lia|]. split; [|split]; reflexivity.
    + destruct (IH (S i) j r H) as [mt' [Hn [Hr [Hname Hmd5]]]].
      exists mt'. split; [exact Hn|]. split; [lia|]. now split.
Qed.

Lemma recommendations_from_length (details : bool) (matched : list (MatchedTool E)) :
  forall i, List.length (recommendations_from i details matched)
            = List.length matched.
Proof.
  induction matched as [|mt rest IH]; intros i; simpl; [reflexivity|].
  now rewrite IH.
Qed.

Lemma findMatchingMCPTools_sound (similar : list SimilarTool)
    (liveTools : list (MCPToolInfo E)) (matched : list (MatchedTool E)) :
  findMatchingMCPTools E similar (Returned liveTools) = Returned matched ->
  List.length matched <= List.length similar
  /\ forall mt, In mt matched ->
       find (fun u => JS.eqb (live_md5 u) (mt_tool_md5 mt)) liveTools
       = Some (mt_mcp_tool mt)
       /\ mt_tool_name mt = live_toolName (mt_mcp_tool mt)
       /\ exists st, In st similar /\ st_tool_md5 st = mt_tool_md5 mt
                      /\ st_similarity st = mt_similarity mt.
Proof.
  unfold findMatchingMCPTools. simpl. intros H. injection H as <-. split.
  - apply flat_map_length_le. intros st.
    destruct (find _ liveTools); simpl; lia.
  - intros mt Hmt. apply in_flat_map in Hmt as [st [Hst Hmt]].
    destruct (find (fun u => JS.eqb (live_md5 u) (st_tool_md5 st)) liveTools)
      as [u|] eqn:F; [|destruct Hmt].
    destruct Hmt as [<- | []]. simpl. split; [exact F|].
    split; [reflexivity|]. exists st. now split.
Qed.

(** Every recommendation stands for a search row and for the first live
    tool with the identity of that row; ranks count from one. *)
Lemma recommendTools_sound (db : Database) (text : jsstring)
    (mcpClient : MCPClient E) (k : Z) (threshold : float) (details : bool)
    (serverNames : option (list jsstring)) (recs : list (RecommendationResult E)) :
  recommendTools E db text mcpClient k threshold details serverNames
  = Returned recs ->
  exists v,
    vectorizeString E text = Returned v
    /\ List.length recs
       <= List.length (searchSimilarVectors E db v k threshold serverNames)
    /\ forall j r,
         nth_error recs j = Some r ->
         rec_rank r = j + 1
         /\ exists liveTools t row,
              mcpClient = Returned liveTools
              /\ find (fun u => JS.eqb (live_md5 u) (rec_tool_md5 r)) liveTools
                 = Some t
              /\ live_toolName t = rec_tool_name r
              /\ In row (searchSimilarVectors E db v k threshold serverNames)
              /\ sr_tool_md5 row = rec_tool_md5 r
              /\ sr_similarity row = rec_similarity r.
Proof.
  unfold recommendTools, searchSimilarTools.
  destruct (vectorizeString E text) as [v | msg]; [|discriminate]. simpl.
  intros H. exists v. split; [reflexivity|].
  set (rows := searchSimilarVectors E db v k threshold serverNames) in *.
  destruct (map SimilarTool_of rows) as [|st sts] eqn:Hsim.
  - injection H as <-. split; [simpl; lia|]. intros [|j] r Hr; discriminate.
  - destruct mcpClient as [liveTools | msg]; [|discriminate].
    destruct (findMatchingMCPTools E (st :: sts) (Returned liveTools))
      as [matched | msg] eqn:Hm; [|discriminate].
    simpl in H. injection H as <-.
    destruct (findMatchingMCPTools_sound _ _ _ Hm) as [Hlen Hall].
    rewrite <- Hsim, length_map in Hlen.
    split; [now rewrite recommendations_from_length|].
    intros j r Hr.
    destruct (recommendations_from_nth _ _ _ _ _ Hr)
      as [mt [Hn [Hrank [Hname [Hmd5 Hsimilarity]]]]].
    split; [exact Hrank|].
    destruct (Hall mt (nth_error_In _ _ Hn)) as [F [Hlive [st' [Hst [Hst5 Hsts]]]]].
    rewrite <- Hsim in Hst. apply in_map_iff in Hst as [row [<- Hrow]].
    exists liveTools, (mt_mcp_tool mt), row.
    split; [reflexivity|]. rewrite Hmd5, Hname, Hsimilarity.
    split; [exact F|]. split; [now rewrite Hlive|]. split; [exact Hrow|].
    split; [exact Hst5 | exact Hsts].
Qed.

Lemma partition_from_sound (known : list jsstring)
    (recs : list (RecommendationResult E)) :
  forall i,
    (forall t, In t (fst (partition_from E i known recs)) ->
       exists j r, nth_error recs j = Some r
                   /\ nt_rank t = i + j + 1
                   /\ nt_tool_name t = rec_tool_name r
                   /\ nt_md5 t = rec_tool_md5 r
                   /\ has known (nt_md5 t) = false)
    /\ (forall t, In t (snd (partition_from E i known recs)) ->
          exists j r, nth_error recs j = Some r
                      /\ kt_rank t = i + j + 1
                      /\ kt_tool_name t = rec_tool_name r
                      /\ kt_md5 t = rec_tool_md5 r
                      /\ has known (kt_md5 t) = true)
    /\ increasing (map (@nt_rank E) (fst (partition_from E i known recs)))
    /\ increasing (map kt_rank (snd (partition_from E i known recs))).
Proof.
  induction recs as [|r rest IH]; intros i; simpl.
  - split; [intros t []|]. split; [intros t []|]. split; exact I.
  - specialize (IH (S i)).
    destruct (partition_from E (S i) known rest) as [n k]. simpl in IH.
    destruct IH as [Hn [Hk [In' Ik]]].
    assert (Hn' : forall t, In t n ->
              exists j r0, nth_error (r :: rest) j = Some r0
                           /\ nt_rank t = i + j + 1
                           /\ nt_tool_name t = rec_tool_name r0
                           /\ nt_md5 t = rec_tool_md5 r0
                           /\ has known (nt_md5 t) = false).
    { intros t Ht. destruct (Hn t Ht) as [j [r0 [Hj [Hr H]]]].
      exists (S j), r0. split; [exact Hj|]. split; [lia | exact H]. }
    assert (Hk' : forall t, In t k ->
              exists j r0, nth_error (r :: rest) j = Some r0
                           /\ kt_rank t = i + j + 1
                           /\ kt_tool_name t = rec_tool_name r0
                           /\ kt_md5 t = rec_tool_md5 r0
                           /\ has known (kt_md5 t) = true).
    { intros t Ht. destruct (Hk t Ht) as [j [r0 [Hj [Hr H]]]].
      exists (S j), r0. split; [exact Hj|]. split; [lia | exact H]. }
    destruct (has known (rec_tool_md5 r)) eqn:Hh; simpl.
    + split; [exact Hn'|]. split; [|split; [exact In'|]].
      * intros t [<- | Ht]; [|now apply Hk'].
        exists 0, r. simpl. split; [reflexivity|]. split; [lia|]. now split.
      * split; [|exact Ik]. intros y Hy.
        apply in_map_iff in Hy as [t [<- Ht]].
        destruct (Hk t Ht) as [j [r0 [_ [Hr _]]]]. lia.
    + split; [|split; [exact Hk'|split; [|exact Ik]]].
      * intros t [<- | Ht]; [|now apply Hn'].
        exists 0, r. simpl. split; [reflexivity|]. split; [lia|]. now split.
      * split; [|exact In']. intros y Hy.
        apply in_map_iff in Hy as [t [<- Ht]].
        destruct (Hn t Ht) as [j [r0 [_ [Hr _]]]]. lia.
Qed.

(** The entries of the loop over the descriptions: where they come from
    and how they are ordered. *)
Lemma retrieve_from_sound (db : Database) (mcpClient : MCPClient E)
    (serverNames : option (list jsstring)) (known : list jsstring)
    (descriptions : list jsstring) :
  forall i n k,
    retrieve_from E db mcpClient serverNames known i descriptions
    = Returned (n, k) ->
    (forall q, In q n ->
       i <= query_index q
       /\ nth_error descriptions (query_index q - i) = Some (query q)
       /\ tools q <> []
       /\ increasing (map (@nt_rank E) (tools q))
       /\ forall t, In t (tools q) ->
            has known (nt_md5 t) = false
            /\ exists liveTools,
                 mcpClient = Returned liveTools
                 /\ surfaced E db liveTools serverNames (query q)
                      (nt_rank t) (nt_tool_name t) (nt_md5 t))
    /\ (forall q, In q k ->
          i <= query_index q
          /\ nth_error descriptions (query_index q - i) = Some (query q)
          /\ tools q <> []
          /\ increasing (map kt_rank (tools q))
          /\ forall t, In t (tools q) ->
               has known (kt_md5 t) = true
               /\ exists liveTools,
                    mcpClient = Returned liveTools
                    /\ surfaced E db liveTools serverNames (query q)
                         (kt_rank t) (kt_tool_name t) (kt_md5 t))
    /\ increasing (map (@query_index _) n)
    /\ increasing (map (@query_index _) k).
Proof.
  induction descriptions as [|d rest IH]; intros i n k H; simpl in H.
  - injection H as <- <-. simpl. split; [intros q []|].
    split; [intros q []|]. split; exact I.
  - destruct (recommendTools E db d mcpClient _ _ true serverNames)
      as [recs | msg] eqn:Hrec; [|discriminate]. simpl in H.
    destruct (retrieve_from E db mcpClient serverNames known (S i) rest)
      as [[n' k'] | msg] eqn:Hrest; [|discriminate]. simpl in H.
    destruct (IH (S i) n' k' Hrest) as [Jn [Jk [Sn Sk]]].
    destruct (recommendTools_sound _ _ _ _ _ _ _ _ Hrec) as [v [Hv [Hlen Hrecs]]].
    destruct (partition_from_sound known recs 0) as [Pn [Pk [In' Ik]]].
    destruct (partition_from E 0 known recs) as [nq kq]. simpl in *.
    injection H as <- <-.
    assert (Later : forall (T : Type) (q : QueryTools T),
              S i <= query_index q ->
              nth_error rest (query_index q - S i) = Some (query q) ->
              i <= query_index q
              /\ nth_error (d :: rest) (query_index q - i) = Some (query q)).
    { intros T q Hle Hnth. split; [lia|].
      replace (query_index q - i) with (S (query_index q - S i)) by lia.
      exact Hnth. }
    assert (Surf : forall j r, nth_error recs j = Some r ->
              exists liveTools,
                mcpClient = Returned liveTools
                /\ surfaced E db liveTools serverNames d (0 + j + 1)
                     (rec_tool_name r) (rec_tool_md5 r)).
    { intros j r Hr.
      destruct (Hrecs j r Hr) as [_ [lt [t [row [Hc [F [Hn [Hrow [H5 _]]]]]]]]].
      exists lt. split; [exact Hc|]. exists t, v, row.
      assert (Hj : j < List.length recs) by (apply nth_error_Some; congruence).
      repeat split; auto; lia. }
    split; [|split; [|split]].
    + intros q Hq.
      assert (Hcase : (nq <> [] /\ q = {| query_index := i; query := d; tools := nq |})
                      \/ In q n').
      { destruct nq as [|t0 nq0]; [now right|].
        destruct Hq as [<- | Hq]; [left; split; [discriminate | reflexivity] | now right]. }
      destruct Hcase as [[Hne ->] | Hq'].
      * simpl. split; [lia|]. rewrite Nat.sub_diag. simpl.
        split; [reflexivity|]. split; [exact Hne|]. split; [exact In'|].
        intros t Ht. destruct (Pn t Ht) as [j [r [Hj [Hr [Hname [Hmd5 Hh]]]]]].
        split; [exact Hh|]. rewrite Hr, Hname, Hmd5. now apply Surf.
      * destruct (Jn q Hq') as [Hle [Hnth Hrest']].
        destruct (Later _ q Hle Hnth) as [L1 L2]. now split; [|split].
    + intros q Hq.
      assert (Hcase : (kq <> [] /\ q = {| query_index := i; query := d; tools := kq |})
                      \/ In q k').
      { destruct kq as [|t0 kq0]; [now right|].
        destruct Hq as [<- | Hq]; [left; split; [discriminate | reflexivity] | now right]. }
      destruct Hcase as [[Hne ->] | Hq'].
      * simpl. split; [lia|]. rewrite Nat.sub_diag. simpl.
        split; [reflexivity|]. split; [exact Hne|]. split; [exact Ik|].
        intros t Ht. destruct (Pk t Ht) as [j [r [Hj [Hr [Hname [Hmd5 Hh]]]]]].
        split; [exact Hh|]. rewrite Hr, Hname, Hmd5. now apply Surf.
      * destruct (Jk q Hq') as [Hle [Hnth Hrest']].
        destruct (Later _ q Hle Hnth) as [L1 L2]. now split; [|split].
    + destruct nq as [|t0 nq0]; [exact Sn|]. simpl. split; [|exact Sn].
      intros y Hy. apply in_map_iff in Hy as [q [<- Hq]].
      destruct (Jn q Hq) as [Hle _]. lia.
    + destruct kq as [|t0 kq0]; [exact Sk|]. simpl. split; [|exact Sk].
      intros y Hy. apply in_map_iff in Hy as [q [<- Hq]].
      destruct (Jk q Hq) as [Hle _]. lia.
Qed.

(** The store a retrieval leaves is the store with a batch of tools
    recorded for the session of the call. *)
Lemma retriever_store (db : Database) (mcpClient : MCPClient E)
    (random36 : jsstring) (descriptions : list jsstring) (sessionId : jsstring)
    (serverNames : option (list jsstring)) :
  exists l,
    fst (retriever E db mcpClient random36 descriptions sessionId serverNames)
    = fst (recordSessionToolRetrievalBatch E db
             (fst (resolve_session db random36 sessionId)) l).
Proof.
  unfold retriever.
  destruct (resolve_session db random36 sessionId) as [sid first]. simpl.
  destruct (retrieve_from _ _ _ _ _ _ _) as [[n k] | msg].
  - exists (newToolsToRecord n). simpl. now destruct (newToolsToRecord n).
  - now exists [].
Qed.

End RetrieverFacts.

Lemma search_length_limit (E : Env) (db : Database) (q : vector) (k : Z)
    (threshold : float) (serverNames : option (list jsstring)) :
  (0 <= k)%Z ->
  (Z.of_nat (List.length (searchSimilarVectors E db q k threshold serverNames))
   <= k)%Z.
Proof. intros Hk. unfold searchSimilarVectors. now apply limit_length. Qed.

Lemma In_reported (E : Env) (r : RetrieverResult E) (qi rank : nat)
    (reportedName md5 : jsstring) :
  In (qi, rank, reportedName, md5) (reported r) ->
  (exists q t, In q (new_tools r) /\ In t (tools q)
               /\ qi = query_index q /\ rank = nt_rank t
               /\ reportedName = nt_tool_name t /\ md5 = nt_md5 t)
  \/ (exists q t, In q (known_tools r) /\ In t (tools q)
                  /\ qi = query_index q /\ rank = kt_rank t
                  /\ reportedName = kt_tool_name t /\ md5 = kt_md5 t).
Proof.
  unfold reported. rewrite in_app_iff, !in_flat_map.
  intros [[q [Hq Hin]] | [q [Hq Hin]]];
    apply in_map_iff in Hin as [t [Heq Ht]]; injection Heq as <- <- <- <-;
    [left | right]; exists q, t; repeat split; auto.
Qed.

Section RetrieverGuarantees.

Variable E : Env.

(** X12. A retrieval writes nothing but session history: the records,
    the vectors, the mapping rows and the server table are as they were;
    a retrieval that answers with an error leaves the whole store as it
    was; the history of every session other than the one of the call is
    unchanged; nothing recorded is forgotten; and no pair of session and
    identity gets a second row. *)
Theorem retriever_frame (db : Database) (mcpClient : MCPClient E)
    (random36 : jsstring) (descriptions : list jsstring) (sessionId : jsstring)
    (serverNames : option (list jsstring)) :
  let out := retriever E db mcpClient random36 descriptions sessionId serverNames in
  same_tools db (fst out)
  /\ mcp_servers (fst out) = mcp_servers db
  /\ (forall message note, snd out = RetrieverError E message note -> fst out = db)
  /\ (forall sid, sid <> fst (resolve_session db random36 sessionId) ->
        getSessionHistory (fst out) sid = getSessionHistory db sid)
  /\ (forall sid md5, isToolRetrievedBySession db sid md5 = true ->
        isToolRetrievedBySession (fst out) sid md5 = true)
  /\ (history_unique db -> history_unique (fst out)).
Proof.
  intros out.
  destruct (retriever_store E db mcpClient random36 descriptions sessionId
              serverNames) as [l Hl].
  fold out in Hl.
  split; [rewrite Hl; apply batch_same_tools|].
  destruct (batch_appends E (fst (resolve_session db random36 sessionId)) l db)
    as [Hs [rows [Hrows [Hsid _]]]].
  split; [now rewrite Hl|]. split; [|split; [|split]].
  - subst out. unfold retriever.
    destruct (resolve_session db random36 sessionId) as [sid first]. simpl.
    destruct (retrieve_from _ _ _ _ _ _ _) as [[n k] | msg]; simpl;
      [discriminate | reflexivity].
  - intros sid Hneq. unfold getSessionHistory. rewrite Hl, Hrows, filter_app.
    rewrite (other_session_rows _ sid rows Hneq Hsid). now rewrite app_nil_r.
  - intros sid md5 H. rewrite Hl. now apply batch_keeps.
  - intros H. rewrite Hl. now apply batch_unique.
Qed.

(** X13. Every tool a retrieval reports, new or known, under the query
    index of a description, stands for the first live tool with the
    reported identity, whose name is the reported name, and for a row with
    that identity in the search for the embedding of that description with
    the configured top-k, threshold and the server list of the call; the
    reported rank is a position in that search, and so is at most the
    configured top-k when that is not negative. *)
Theorem retriever_reports_surfaced (db : Database) (mcpClient : MCPClient E)
    (random36 : jsstring) (descriptions : list jsstring) (sessionId : jsstring)
    (serverNames : option (list jsstring)) (db' : Database)
    (result : RetrieverResult E) (note : jsstring) :
  retriever E db mcpClient random36 descriptions sessionId serverNames
  = (db', RetrieverContent result note) ->
  forall qi rank reportedName md5,
    In (qi, rank, reportedName, md5) (reported result) ->
    (exists liveTools d,
        mcpClient = Returned liveTools
        /\ nth_error descriptions qi = Some d
        /\ surfaced E db liveTools serverNames d rank reportedName md5)
    /\ ((0 <= TOOL_RETRIEVER_TOP_K E)%Z ->
        (Z.of_nat rank <= TOOL_RETRIEVER_TOP_K E)%Z).
Proof.
  intros H qi rank reportedName md5 Hin.
  destruct (retriever_records E _ _ _ _ _ _ _ _ _ H) as [_ [Hret _]].
  destruct (retrieve_from_sound E _ _ _ _ _ _ _ _ Hret) as [Jn [Jk _]].
  assert (Hs : exists liveTools d,
             mcpClient = Returned liveTools
             /\ nth_error descriptions qi = Some d
             /\ surfaced E db liveTools serverNames d rank reportedName md5).
  { apply In_reported in Hin
      as [[q [t [Hq [Ht [-> [-> [-> ->]]]]]]] | [q [t [Hq [Ht [-> [-> [-> ->]]]]]]]].
    - destruct (Jn q Hq) as [_ [Hnth [_ [_ Hall]]]].
      destruct (Hall t Ht) as [_ [liveTools [Hc Hsurf]]].
      rewrite Nat.sub_0_r in Hnth. now exists liveTools, (query q).
    - destruct (Jk q Hq) as [_ [Hnth [_ [_ Hall]]]].
      destruct (Hall t Ht) as [_ [liveTools [Hc Hsurf]]].
      rewrite Nat.sub_0_r in Hnth. now exists liveTools, (query q). }
  split; [exact Hs|]. intros Hk.
  destruct Hs as [liveTools [d [_ [_ Hsurf]]]]. unfold surfaced in Hsurf.
  destruct Hsurf as [t [v [row [_ [_ [_ [_ [_ [_ Hle]]]]]]]]].
  pose proof (search_length_limit E db v (TOOL_RETRIEVER_TOP_K E)
                (TOOL_RETRIEVER_THRESHOLD E) serverNames Hk).
  lia.
Qed.

(** X14. The shape of an answer: the entries of [new_tools] and of
    [known_tools] come in strictly increasing query index, each entry
    carries the description at its index and at least one tool, and the
    ranks inside an entry strictly increase; a tool is reported as known
    exactly when the session of the answer had its identity in its history
    before the call, and as new otherwise. *)
Theorem retriever_answer_shape (db : Database) (mcpClient : MCPClient E)
    (random36 : jsstring) (descriptions : list jsstring) (sessionId : jsstring)
    (serverNames : option (list jsstring)) (db' : Database)
    (result : RetrieverResult E) (note : jsstring) :
  retriever E db mcpClient random36 descriptions sessionId serverNames
  = (db', RetrieverContent result note) ->
  increasing (map (@query_index _) (new_tools result))
  /\ increasing (map (@query_index _) (known_tools result))
  /\ (forall q, In q (new_tools result) ->
        nth_error descriptions (query_index q) = Some (query q)
        /\ tools q <> []
        /\ increasing (map (@nt_rank E) (tools q))
        /\ forall t, In t (tools q) ->
             isToolRetrievedBySession db (session_id result) (nt_md5 t) = false)
  /\ (forall q, In q (known_tools result) ->
        nth_error descriptions (query_index q) = Some (query q)
        /\ tools q <> []
        /\ increasing (map kt_rank (tools q))
        /\ forall t, In t (tools q) ->
             isToolRetrievedBySession db (session_id result) (kt_md5 t) = true).
Proof.
  intros H.
  destruct (retriever_records E _ _ _ _ _ _ _ _ _ H) as [Hsid [Hret _]].
  destruct (retrieve_from_sound E _ _ _ _ _ _ _ _ Hret) as [Jn [Jk [Sn Sk]]].
  split; [exact Sn|]. split; [exact Sk|]. split.
  - intros q Hq. destruct (Jn q Hq) as [_ [Hnth [Hne [Hinc Hall]]]].
    rewrite Nat.sub_0_r in Hnth. split; [exact Hnth|]. split; [exact Hne|].
    split; [exact Hinc|]. intros t Ht. destruct (Hall t Ht) as [Hh _].
    now rewrite has_history, <- Hsid in Hh.
  - intros q Hq. destruct (Jk q Hq) as [_ [Hnth [Hne [Hinc Hall]]]].
    rewrite Nat.sub_0_r in Hnth. split; [exact Hnth|]. split; [exact Hne|].
    split; [exact Hinc|]. intros t Ht. destruct (Hall t Ht) as [Hh _].
    now rewrite has_history, <- Hsid in Hh.
Qed.

Lemma executor_md5_live (t : MCPToolInfo E) :
  (exists c n, name t = Some (c :: n)) -> description t <> None ->
  executor_md5 t = live_md5 t.
Proof.
  intros [c [n Hn]] Hd.
  unfold executor_md5, executor_text, live_md5, generateToolMD5,
    live_toolName, live_description.
  rewrite Hn. destruct (description t) as [[|x d]|]; [| |contradiction];
    reflexivity.
Qed.

Lemma find_tool_find (liveTools : list (MCPToolInfo E)) (md5 : jsstring)
    (t : MCPToolInfo E) :
  (forall u, In u liveTools -> executor_md5 u = live_md5 u) ->
  find (fun u => JS.eqb (live_md5 u) md5) liveTools = Some t ->
  forall base,
    exists i, find_tool E md5 base liveTools = Some (base + i, t)
              /\ nth_error liveTools i = Some t.
Proof.
  induction liveTools as [|u rest IH]; intros Hall F base; [discriminate|].
  simpl in *. rewrite (Hall u (or_introl eq_refl)).
  destruct (JS.eqb (live_md5 u) md5).
  - injection F as <-. exists 0. now rewrite Nat.add_0_r.
  - destruct (IH (fun x Hx => Hall x (or_intror Hx)) F (S base)) as [i [Hf Hn]].
    exists (S i). split; [|exact Hn]. rewrite Hf. do 2 f_equal. lia.
Qed.

(** X15. From retrieval to execution.  When every live tool has a
    non-empty name and a description, the identity a retrieval reports
    for a tool resolves in [executor], over the same catalog, to a live
    tool with the reported name: that tool and no other is invoked, once,
    with the parameters given, and when the invocation returns the answer
    is its serialised result. *)
Theorem retrieved_tool_executes (db : Database) (liveTools : list (MCPToolInfo E))
    (random36 : jsstring) (descriptions : list jsstring) (sessionId : jsstring)
    (serverNames : option (list jsstring)) (db' : Database)
    (result : RetrieverResult E) (note : jsstring) :
  (forall t, In t liveTools ->
     (exists c n, name t = Some (c :: n)) /\ description t <> None) ->
  retriever E db (Returned liveTools) random36 descriptions sessionId serverNames
  = (db', RetrieverContent result note) ->
  forall qi rank reportedName md5 parameters,
    In (qi, rank, reportedName, md5) (reported result) ->
    exists i t,
      nth_error liveTools i = Some t
      /\ live_toolName t = reportedName
      /\ snd (executor E (Returned liveTools) md5 parameters) = [(i, parameters)]
      /\ forall value,
           invoke t parameters = Returned value ->
           fst (executor E (Returned liveTools) md5 parameters)
           = {| content_text := JSON_stringify E value; isError := false |}.
Proof.
  intros Hcat H qi rank reportedName md5 parameters Hin.
  destruct (retriever_records E _ _ _ _ _ _ _ _ _ H) as [_ [Hret _]].
  destruct (retrieve_from_sound E _ _ _ _ _ _ _ _ Hret) as [Jn [Jk _]].
  assert (Hs : exists t, find (fun u => JS.eqb (live_md5 u) md5) liveTools = Some t
                         /\ live_toolName t = reportedName).
  { apply In_reported in Hin
      as [[q [t [Hq [Ht [-> [-> [-> ->]]]]]]] | [q [t [Hq [Ht [-> [-> [-> ->]]]]]]]].
    - destruct (Jn q Hq) as [_ [_ [_ [_ Hall]]]].
      destruct (Hall t Ht) as [_ [lt [Hc [u [v [row [F [Hn _]]]]]]]].
      injection Hc as <-. now exists u.
    - destruct (Jk q Hq) as [_ [_ [_ [_ Hall]]]].
      destruct (Hall t Ht) as [_ [lt [Hc [u [v [row [F [Hn _]]]]]]]].
      injection Hc as <-. now exists u. }
  destruct Hs as [t [F Hn]].
  assert (Hagree : forall u, In u liveTools -> executor_md5 u = live_md5 u).
  { intros u Hu. destruct (Hcat u Hu). now apply executor_md5_live. }
  destruct (find_tool_find liveTools md5 t Hagree F 0) as [i [Hf Hnth]].
  exists i, t. split; [exact Hnth|]. split; [exact Hn|].
  unfold executor. rewrite Hf. simpl.
  split.
  - now destruct (invoke t parameters).
  - intros value Hv. now rewrite Hv.
Qed.

End RetrieverGuarantees.

(* ================================================================= *)
(** ** The history count of an answer *)

Lemma newToolsToRecord_length (E : Env) (l : list (QueryTools (NewTool E))) :
  List.length (newToolsToRecord l) = count_tools l.
Proof.
  induction l as [|q l IH]; [reflexivity|].
  rewrite count_tools_cons. simpl. now rewrite length_app, length_map, IH.
Qed.

(** In a store that respects the uniqueness of the session table the
    identities of a session's history are distinct. *)
Lemma history_md5s_distinct (db : Database) (sid : jsstring) :
  history_unique db ->
  NoDup (map sh_tool_md5 (getSessionHistory db sid)).
Proof.
  unfold history_unique. intros H.
  apply (Permutation_NoDup
           (Permutation_sym
              (Permutation_map sh_tool_md5 (getSessionHistory_perm db sid)))).
  apply (distinct_keys_filter _ (fun r => JS.eqb (sh_session_id r) sid)) in H.
  apply (NoDup_map_inv (pair sid)). rewrite map_map.
  erewrite map_ext_in; [exact H|].
  intros r Hr. apply filter_In in Hr as [_ Hs]. apply jseqb_eq in Hs.
  now rewrite Hs.
Qed.

Lemma set_size_distinct (l : list jsstring) :
  NoDup l -> set_size l = List.length l.
Proof.
  intros H. unfold set_size. now rewrite nodup_fixed_point.
Qed.

Lemma session_rows_app (db : Database) (sid : jsstring)
    (history rows : list SessionToolHistory) :
  (forall r, In r rows -> sh_session_id r = sid) ->
  List.length (filter (fun r => JS.eqb (sh_session_id r) sid) (history ++ rows))
  = List.length (filter (fun r => JS.eqb (sh_session_id r) sid) history)
    + List.length rows.
Proof.
  intros H. rewrite filter_app, length_app. f_equal. f_equal.
  apply filter_all. intros r Hr. apply jseqb_eq. now apply H.
Qed.

Section HistoryCount.

Variable E : Env.

Lemma record_other (db : Database) (sid md5 n md5' : jsstring) :
  md5' <> md5 ->
  isToolRetrievedBySession db sid md5' = false ->
  isToolRetrievedBySession (fst (recordSessionToolRetrieval E db sid md5 n)) sid md5'
  = false.
Proof.
  intros Hneq H. unfold recordSessionToolRetrieval.
  destruct (isToolRetrievedBySession db sid md5); simpl; [exact H|].
  unfold isToolRetrievedBySession in *. simpl. rewrite existsb_app, H. simpl.
  rewrite orb_false_r. apply andb_false_iff. right. apply jseqb_neq. congruence.
Qed.

(** A batch of distinct identities, none of them recorded yet, adds
    one row for each. *)
Lemma batch_appends_all (sid : jsstring) (l : list SessionToolRecord) :
  forall db,
    NoDup (map toolMD5 l) ->
    (forall t, In t l -> isToolRetrievedBySession db sid (toolMD5 t) = false) ->
    List.length (session_tool_history (fst (recordSessionToolRetrievalBatch E db sid l)))
    = List.length (session_tool_history db) + List.length l.
Proof.
  induction l as [|t rest IH]; intros db Hnd Hnew; [simpl; lia|].
  rewrite batch_step. inversion Hnd as [|x xs Hx Hrest]; subst.
  rewrite IH; [|exact Hrest|].
  - unfold recordSessionToolRetrieval.
    rewrite (Hnew t (or_introl eq_refl)). simpl. rewrite length_app. simpl. lia.
  - intros t' Ht'. apply record_other; [|apply Hnew; now right].
    intros Heq. apply Hx. rewrite <- Heq. now apply in_map.
Qed.

(** X16. In a store that respects the uniqueness of the session table,
    the [session_history_count] of an answer is at least the number of
    tools [getSessionStats] counts for the session of the answer in the
    store the retrieval leaves, and it is that number when no identity is
    reported as new twice in the answer. *)
Theorem session_history_count_bound (db : Database) (mcpClient : MCPClient E)
    (random36 : jsstring) (descriptions : list jsstring) (sessionId : jsstring)
    (serverNames : option (list jsstring)) (db' : Database)
    (result : RetrieverResult E) (note : jsstring) :
  history_unique db ->
  retriever E db mcpClient random36 descriptions sessionId serverNames
  = (db', RetrieverContent result note) ->
  (ss_tools_count (getSessionStats db' (session_id result))
   <= Z.of_nat (session_history_count (summary result)))%Z
  /\ (NoDup (map toolMD5 (newToolsToRecord (new_tools result))) ->
      ss_tools_count (getSessionStats db' (session_id result))
      = Z.of_nat (session_history_count (summary result))).
Proof.
  intros Hu H.
  destruct (retriever_records E _ _ _ _ _ _ _ _ _ H) as [Hsid [Hret [Hdb [Hn _]]]].
  destruct (retrieve_from_sound E _ _ _ _ _ _ _ _ Hret) as [Jn _].
  assert (Hcount : session_history_count (summary result)
                   = List.length (getSessionHistory db (session_id result))
                     + count_tools (new_tools result)).
  { unfold retriever in H.
    destruct (resolve_session db random36 sessionId) as [sid first].
    simpl in *. subst sid.
    destruct (retrieve_from _ _ _ _ _ _ _) as [[n k] | msg]; [|discriminate].
    injection H as _ <- _. simpl.
    rewrite set_size_distinct, length_map; [reflexivity|].
    now apply history_md5s_distinct. }
  rewrite <- Hsid in Hdb.
  destruct (batch_appends E (session_id result) (newToolsToRecord (new_tools result)) db)
    as [_ [rows [Hrows [Hs Hlen]]]].
  rewrite <- Hdb in Hrows.
  assert (Hstat : ss_tools_count (getSessionStats db' (session_id result))
                  = Z.of_nat (List.length (getSessionHistory db (session_id result))
                              + List.length rows)).
  { rewrite getSessionHistory_length. unfold getSessionStats. simpl.
    rewrite Hrows, (session_rows_app db _ _ _ Hs). reflexivity. }
  rewrite newToolsToRecord_length in Hlen.
  split; [rewrite Hstat, Hcount; lia|].
  intros Hnd. rewrite Hstat, Hcount. f_equal. f_equal.
  assert (Hall : List.length (session_tool_history db')
                 = List.length (session_tool_history db)
                   + List.length (newToolsToRecord (new_tools result))).
  { rewrite Hdb. apply batch_appends_all; [exact Hnd|].
    intros t Ht. unfold newToolsToRecord in Ht.
    apply in_flat_map in Ht as [q [Hq Ht]].
    apply in_map_iff in Ht as [nt [<- Hnt]]. simpl.
    destruct (Jn q Hq) as [_ [_ [_ [_ Hnew]]]].
    destruct (Hnew nt Hnt) as [Hh _].
    now rewrite has_history, <- Hsid in Hh. }
  rewrite Hrows, length_app, newToolsToRecord_length in Hall. lia.
Qed.

End HistoryCount.

(* ================================================================= *)
(** ** Server names and tool names *)






Lemma like_percent (t : jsstring) : Sql.like [37%N] t = true.
Proof.
  assert (H : forall n t, List.length t <= n -> Sql.like [37%N] t = true).
  { induction n as [|n IH]; intros [|c [|d x]] Hlen; simpl in *;
      try reflexivity; try lia.
    - destruct (Sql.is_high_surrogate c && Sql.is_low_surrogate d).
      + apply (IH x). lia.
      + apply (IH (d :: x)). simpl. lia. }
  now apply (H (List.length t)).
Qed.

Lemma like_same_prefix (s pattern x : jsstring) :
  Sql.like pattern x = true -> Sql.like (s ++ pattern) (s ++ x) = true.
Proof.
  intros H. induction s as [|c s IH]; [exact H|].
  assert (Hlow : forall u d, (u =? 37)%N || (u =? 95)%N = true ->
                   Sql.is_high_surrogate u && Sql.is_low_surrogate d = false).
  { intros u d Hu. unfold Sql.is_high_surrogate.
    apply orb_true_iff in Hu as [Hu | Hu]; apply N.eqb_eq in Hu; subst u;
      reflexivity. }
  destruct (N.eq_dec c 37) as [-> | H37].
  - change (Sql.like (37%N :: (s ++ pattern)) (37%N :: (s ++ x)) = true).
    destruct (s ++ x) as [|d y] eqn:Hsx; simpl.
    + simpl in IH. rewrite IH. apply orb_true_r.
    + simpl in IH. rewrite IH. rewrite !orb_true_r. reflexivity.
  - destruct (N.eq_dec c 95) as [-> | H95].
    + change (Sql.like (95%N :: (s ++ pattern)) (95%N :: (s ++ x)) = true).
      destruct (s ++ x) as [|d y] eqn:Hsx; simpl; exact IH.
    + change (Sql.like (c :: (s ++ pattern)) (c :: (s ++ x)) = true).
      assert (Hstep : Sql.like (c :: (s ++ pattern)) (c :: (s ++ x))
                      = (Sql.upper c =? Sql.upper c)%N
                        && Sql.like (s ++ pattern) (s ++ x)).
      { destruct c as [|p]; [reflexivity|].
        do 8 (try (destruct p as [p|p|]; try reflexivity; try congruence)). }
      rewrite Hstep, N.eqb_refl, IH. reflexivity.
Qed.


Lemma insert_by_name_nonempty (r : MCPServerConfig) (rows : list MCPServerConfig) :
  insert_by_name r rows <> [].
Proof.
  destruct rows as [|x rows]; simpl; [discriminate|].
  destruct (Sql.binary_ltb (server_name r) (server_name x)); discriminate.
Qed.

Lemma find_snoc {A : Type} (p : A -> bool) (l : list A) (x : A) :
  find p (l ++ [x])
  = match find p l with
    | Some y => Some y
    | None => if p x then Some x else None
    end.
Proof.
  induction l as [|y l IH]; simpl; [reflexivity|].
  destruct (p y); [reflexivity | exact IH].
Qed.

Lemma find_set_property (object : PlainObject) (key s : jsstring)
    (items : list jsstring) :
  find (has_key key) (set_property object s items)
  = match find (has_key key) object with
    | Some p => Some (if has_key s p then (s, items) else p)
    | None => None
    end.
Proof.
  unfold set_property. induction object as [|p object IH]; simpl; [reflexivity|].
  assert (Hsame : has_key key (if has_key s p then (s, items) else p)
                  = has_key key p).
  { destruct (has_key s p) eqn:Hs; [|reflexivity].
    unfold has_key in *. simpl. apply jseqb_eq in Hs. now rewrite Hs. }
  rewrite Hsame. destruct (has_key key p); [reflexivity | exact IH].
Qed.

Lemma inherits_arity_inherited (key : jsstring) :
  inherits_arity key = true -> inherited key = true.
Proof.
  unfold inherits_arity, inherited.
  destruct (find (has_key key) Object_prototype) as [[k l]|];
    [reflexivity | discriminate].
Qed.

Lemma describe_servers_length (object : PlainObject)
    (mcpServers : list MCPServerConfig) :
  snd (describe_servers object mcpServers) = false ->
  List.length (fst (describe_servers object mcpServers))
  = List.length mcpServers.
Proof.
  induction mcpServers as [|r rest IH]; [reflexivity|].
  cbn [describe_servers].
  destruct (describe_servers object rest) as [later thrown].
  destruct (get_property object (server_name r)) as [items | [[|k]|] |];
    cbn [fst snd List.length] in *; intros H; try discriminate;
    now rewrite IH.
Qed.

Section NamingFacts.

Variable E : Env.

Lemma tools_under_snoc (done : list (MCPToolInfo E)) (t : MCPToolInfo E)
    (key : jsstring) :
  tools_under (done ++ [t]) key
  = tools_under done key
    ++ (if JS.eqb (fst (server_and_tool t)) key then [snd (server_and_tool t)]
        else []).
Proof.
  unfold tools_under. rewrite map_app, filter_app, map_app.
  cbn [map filter].
  now destruct (JS.eqb (fst (server_and_tool t)) key).
Qed.

Lemma group_tool_grouped (object : PlainObject) (done : list (MCPToolInfo E))
    (t : MCPToolInfo E) :
  grouped_as object done ->
  inherited (fst (server_and_tool t)) = false ->
  exists grouped,
    group_tool object t = Some grouped /\ grouped_as grouped (done ++ [t]).
Proof.
  intros Hg Hin. unfold group_tool, get_property.
  destruct (server_and_tool t) as [s n] eqn:Hst. cbn [fst] in Hin.
  unfold inherited in Hin.
  pose proof (Hg s) as Hs.
  destruct (tools_under done s) as [|x names] eqn:Hunder.
  - rewrite Hs.
    destruct (find (has_key s) Object_prototype); [discriminate|].
    eexists. split; [reflexivity|]. intros key.
    rewrite find_snoc, tools_under_snoc, Hst, (Hg key). cbn [fst snd].
    unfold has_key. cbn [fst].
    destruct (JS.eqb s key) eqn:Hk.
    + apply jseqb_eq in Hk. subst key. rewrite Hunder. reflexivity.
    + rewrite app_nil_r. now destruct (tools_under done key).
  - rewrite Hs. cbn [snd].
    eexists. split; [reflexivity|]. intros key.
    rewrite find_set_property, tools_under_snoc, Hst, (Hg key). cbn [fst snd].
    destruct (JS.eqb s key) eqn:Hk.
    + apply jseqb_eq in Hk. subst key. rewrite Hunder.
      unfold has_key. cbn [fst]. now rewrite jseqb_refl.
    + rewrite app_nil_r.
      destruct (tools_under done key) as [|y l]; [reflexivity|].
      unfold has_key. cbn [fst].
      assert (Hk' : JS.eqb key s = false)
        by (apply jseqb_neq; apply jseqb_neq in Hk; congruence).
      now rewrite Hk'.
Qed.

Lemma group_tools_grouped (catalog : list (MCPToolInfo E)) :
  forall object done,
    grouped_as object done ->
    (forall t, In t catalog -> inherited (fst (server_and_tool t)) = false) ->
    exists grouped,
      group_tools object catalog = Some grouped
      /\ grouped_as grouped (done ++ catalog).
Proof.
  induction catalog as [|t rest IH]; intros object done Hg Hin.
  - exists object. rewrite app_nil_r. now split.
  - destruct (group_tool_grouped object done t Hg (Hin t (or_introl eq_refl)))
      as [g1 [H1 Hg1]].
    destruct (IH g1 (done ++ [t]) Hg1 (fun u Hu => Hin u (or_intror Hu)))
      as [g2 [H2 Hg2]].
    exists g2. cbn [group_tools]. rewrite H1. split; [exact H2|].
    now rewrite <- app_assoc in Hg2.
Qed.

Lemma toolsByServer_grouped (catalog : list (MCPToolInfo E)) :
  (forall t, In t catalog -> inherited (fst (server_and_tool t)) = false) ->
  exists grouped,
    toolsByServer catalog = Some grouped /\ grouped_as grouped catalog.
Proof.
  intros Hin. apply (group_tools_grouped catalog [] []); [|exact Hin].
  intros key. reflexivity.
Qed.

(** A tool read under an inherited key makes the grouping throw. *)
Lemma group_tools_throws (catalog : list (MCPToolInfo E)) (t : MCPToolInfo E) :
  In t catalog ->
  inherited (fst (server_and_tool t)) = true ->
  forall object,
    (forall p, In p object -> inherited (fst p) = false) ->
    group_tools object catalog = None.
Proof.
  intros Ht Hin. induction catalog as [|u rest IH]; [destruct Ht|].
  intros object Hown. cbn [group_tools].
  destruct (group_tool object u) as [grouped|] eqn:Hu; [|reflexivity].
  unfold group_tool, get_property in Hu.
  destruct (server_and_tool u) as [s n] eqn:Hsu.
  destruct (find (has_key s) object) as [p|] eqn:Fown.
  - injection Hu as <-. destruct Ht as [-> | Ht].
    + exfalso. apply find_some in Fown as [Hp Hk]. unfold has_key in Hk.
      apply jseqb_eq in Hk. rewrite Hsu in Hin. cbn [fst] in Hin.
      rewrite <- Hk, (Hown p Hp) in Hin. discriminate.
    + apply IH; [exact Ht|]. intros q Hq. unfold set_property in Hq.
      apply in_map_iff in Hq as [q0 [<- Hq0]].
      destruct (has_key s q0) eqn:Hk; [|now apply Hown].
      unfold has_key in Hk. apply jseqb_eq in Hk. cbn [fst].
      rewrite <- Hk. now apply Hown.
  - destruct (find (has_key s) Object_prototype) as [q|] eqn:Fproto;
      [discriminate|].
    injection Hu as <-. destruct Ht as [-> | Ht].
    + exfalso. rewrite Hsu in Hin. cbn [fst] in Hin. unfold inherited in Hin.
      rewrite Fproto in Hin. discriminate.
    + apply IH; [exact Ht|]. intros q Hq.
      apply in_app_iff in Hq as [Hq | [<- | []]]; [now apply Hown|].
      cbn [fst]. unfold inherited. now rewrite Fproto.
Qed.

(** A round of the loop over the server rows for a server whose name
    does not read an inherited function that takes arguments. *)
Lemma describe_servers_round (catalog : list (MCPToolInfo E))
    (grouped : PlainObject) (r : MCPServerConfig) (rest : list MCPServerConfig) :
  grouped_as grouped catalog ->
  inherits_arity (server_name r) = false ->
  describe_servers grouped (r :: rest)
  = (described_with_tools catalog r :: fst (describe_servers grouped rest),
     snd (describe_servers grouped rest)).
Proof.
  intros Hg Hr. cbn [describe_servers].
  destruct (describe_servers grouped rest) as [later thrown]. cbn [fst snd].
  unfold get_property, described_with_tools. rewrite (Hg (server_name r)).
  unfold inherits_arity in Hr.
  destruct (tools_under catalog (server_name r)) as [|n names];
    [|reflexivity].
  destruct (find (has_key (server_name r)) Object_prototype)
    as [[k [[|a]|]]|]; try reflexivity; discriminate.
Qed.

(** What the loop over the server rows pushes when none of them reads an
    inherited function that takes arguments. *)
Lemma describe_servers_listed (catalog : list (MCPToolInfo E))
    (grouped : PlainObject) (mcpServers : list MCPServerConfig) :
  grouped_as grouped catalog ->
  (forall r, In r mcpServers -> inherits_arity (server_name r) = false) ->
  describe_servers grouped mcpServers
  = (map (described_with_tools catalog) mcpServers, false).
Proof.
  intros Hg. induction mcpServers as [|r rest IH]; intros Hno; [reflexivity|].
  rewrite (describe_servers_round catalog grouped r rest Hg)
    by (apply Hno; now left).
  rewrite IH by (intros x Hx; apply Hno; now right). reflexivity.
Qed.

(** What it pushes before it throws at the first row that does. *)
Lemma describe_servers_throws (catalog : list (MCPToolInfo E))
    (grouped : PlainObject) (before after : list MCPServerConfig)
    (r : MCPServerConfig) :
  grouped_as grouped catalog ->
  (forall x, In x before -> inherits_arity (server_name x) = false) ->
  inherits_arity (server_name r) = true ->
  tools_under catalog (server_name r) = [] ->
  describe_servers grouped (before ++ r :: after)
  = (map (described_with_tools catalog) before, true).
Proof.
  intros Hg Hbefore Hr Hnone.
  induction before as [|x before IH].
  - cbn [app describe_servers map]. unfold get_property.
    rewrite (Hg (server_name r)), Hnone. unfold inherits_arity in Hr.
    destruct (find (has_key (server_name r)) Object_prototype)
      as [[k [[|a]|]]|]; try discriminate. reflexivity.
  - cbn [app].
    rewrite (describe_servers_round catalog grouped x _ Hg)
      by (apply Hbefore; now left).
    rewrite IH by (intros y Hy; apply Hbefore; now right). reflexivity.
Qed.

Lemma tools_under_inherited (catalog : list (MCPToolInfo E)) (key : jsstring) :
  (forall t, In t catalog -> inherited (fst (server_and_tool t)) = false) ->
  inherited key = true ->
  tools_under catalog key = [].
Proof.
  intros Hin Hkey. unfold tools_under.
  rewrite filter_none; [reflexivity|].
  intros p Hp. apply in_map_iff in Hp as [t [<- Ht]].
  apply jseqb_neq. intros Heq. specialize (Hin t Ht).
  rewrite Heq, Hkey in Hin. discriminate.
Qed.





(** The description of a catalog and of servers without inherited
    names. *)
Lemma description_listed (db : Database) (catalog : list (MCPToolInfo E)) :
  (forall t, In t catalog -> inherited (fst (server_and_tool t)) = false) ->
  (forall r, In r (enabled_servers db) -> inherits_arity (server_name r) = false) ->
  getEnhancedServerDescription E db (Returned catalog)
  = match enabled_servers db with
    | [] => []
    | mcpServers =>
        Text.available_servers
        ++ join Text.enumeration_comma
             (map (described_with_tools catalog) mcpServers)
        ++ Text.retrieval_only
    end.
Proof.
  intros Hcatalog Hservers. unfold getEnhancedServerDescription.
  destruct (toolsByServer_grouped catalog Hcatalog) as [grouped [-> Hg]].
  rewrite (describe_servers_listed catalog grouped (enabled_servers db) Hg
             Hservers).
  now destruct (enabled_servers db).
Qed.


(** X18. The server description is empty exactly when no server is
    enabled.  When the live catalog cannot be listed, or a tool of the
    catalog is read under a server name that is a member of
    [Object.prototype], the enabled servers are listed without their
    tools.  When the loop over the servers throws, at the first enabled
    server with the name of an inherited function that takes arguments,
    the servers before it have been pushed with their tools and all the
    enabled servers are pushed again without them.  When no enabled server
    has such a name, a catalog that cannot be listed gives the description
    an empty catalog gives. *)
Theorem server_description_cases (db : Database) :
  (forall mcpClient,
      getEnhancedServerDescription E db mcpClient = []
      <-> forall r, In r (mcp_servers db) -> enabled r <> 1%Z)
  /\ (forall message,
        getEnhancedServerDescription E db (Thrown message)
        = match enabled_servers db with
          | [] => []
          | mcpServers =>
              Text.available_servers
              ++ join Text.enumeration_comma (map described mcpServers)
              ++ Text.retrieval_only
          end)
  /\ (forall catalog t message,
        In t catalog -> inherited (fst (server_and_tool t)) = true ->
        getEnhancedServerDescription E db (Returned catalog)
        = getEnhancedServerDescription E db (Thrown message))
  /\ (forall catalog before r after,
        (forall t, In t catalog -> inherited (fst (server_and_tool t)) = false) ->
        enabled_servers db = before ++ r :: after ->
        (forall x, In x before -> inherits_arity (server_name x) = false) ->
        inherits_arity (server_name r) = true ->
        getEnhancedServerDescription E db (Returned catalog)
        = Text.available_servers
          ++ join Text.enumeration_comma
               (map (described_with_tools catalog) before
                ++ map described (enabled_servers db))
          ++ Text.retrieval_only)
  /\ ((forall r, In r (enabled_servers db) ->
                 inherits_arity (server_name r) = false) ->
      forall message,
        getEnhancedServerDescription E db (Thrown message)
        = getEnhancedServerDescription E db (Returned [])).
Proof.
  assert (Hthrown : forall message,
            getEnhancedServerDescription E db (Thrown message)
            = match enabled_servers db with
              | [] => []
              | mcpServers =>
                  Text.available_servers
                  ++ join Text.enumeration_comma (map described mcpServers)
                  ++ Text.retrieval_only
              end).
  { intros message. unfold getEnhancedServerDescription.
    now destruct (enabled_servers db). }
  assert (Hnone : enabled_servers db = []
                  <-> forall r, In r (mcp_servers db) -> enabled r <> 1%Z).
  { unfold enabled_servers. split.
    - intros H r Hr Hen.
      assert (Hin : In r (filter (fun r => (enabled r =? 1)%Z) (mcp_servers db)))
        by (apply filter_In; split; [exact Hr | now apply Z.eqb_eq]).
      destruct (filter (fun r => (enabled r =? 1)%Z) (mcp_servers db))
        as [|x rows]; [destruct Hin|].
      simpl in H.
      now apply (insert_by_name_nonempty x (fold_right insert_by_name [] rows)).
    - intros H. rewrite filter_none; [reflexivity|].
      intros r Hr. apply Z.eqb_neq. now apply H. }
  assert (Hsentence : forall l : list jsstring,
            l <> [] ->
            match l with
            | [] => []
            | _ => Text.available_servers
                   ++ join Text.enumeration_comma l ++ Text.retrieval_only
            end <> []).
  { intros [|x l] Hl; [contradiction | discriminate]. }
  split; [|split; [exact Hthrown|split; [|split]]].
  - intros mcpClient. rewrite <- Hnone. split.
    + intros H. destruct (enabled_servers db) as [|x rows] eqn:Hrows;
        [reflexivity|].
      exfalso. revert H. unfold getEnhancedServerDescription. rewrite Hrows.
      apply Hsentence.
      destruct mcpClient as [tools | message]; [|discriminate].
      destruct (toolsByServer tools) as [grouped|]; [|discriminate].
      pose proof (describe_servers_length grouped (x :: rows)) as Hlen.
      destruct (describe_servers grouped (x :: rows)) as [pushed thrown].
      destruct thrown.
      * intros Heq. apply app_eq_nil in Heq as [_ Heq]. discriminate.
      * specialize (Hlen eq_refl). cbn [fst] in Hlen.
        destruct pushed; [discriminate Hlen | discriminate].
    + intros H. unfold getEnhancedServerDescription. rewrite H.
      destruct mcpClient as [tools | message]; [|reflexivity].
      now destruct (toolsByServer tools).
  - intros catalog t message Ht Hin. rewrite Hthrown.
    unfold getEnhancedServerDescription, toolsByServer.
    rewrite (group_tools_throws catalog t Ht Hin []) by (intros p []).
    now destruct (enabled_servers db).
  - intros catalog before r after Hcatalog Hrows Hbefore Hr.
    unfold getEnhancedServerDescription.
    destruct (toolsByServer_grouped catalog Hcatalog) as [grouped [-> Hg]].
    rewrite Hrows.
    rewrite (describe_servers_throws catalog grouped before after r Hg Hbefore Hr)
      by (apply tools_under_inherited;
          [exact Hcatalog | now apply inherits_arity_inherited]).
    cbv beta iota.
    destruct (map (described_with_tools catalog) before
              ++ map described (before ++ r :: after)) eqn:Hl; [|reflexivity].
    apply app_eq_nil in Hl as [_ Hl]. rewrite map_app in Hl.
    apply app_eq_nil in Hl as [_ Hl]. discriminate.
  - intros Hservers message. rewrite Hthrown.
    rewrite (description_listed db []) by (intros t [] || exact Hservers).
    reflexivity.
Qed.

(** X19. The server filter lets every tool of a listed server through:
    a joined row whose tool name is a listed server name followed by [__]
    and anything, and whose similarity reaches the threshold, is returned
    by the filtered search unless the result is full. *)
Theorem server_filter_complete (db : Database) (q : vector) (k : Z)
    (threshold : float) (names : list jsstring) (s n : jsstring)
    (r : SearchResult) :
  In r (joined_rows E db q) ->
  PrimFloat.leb threshold (sr_similarity r) = true ->
  In s names ->
  sr_tool_name r = s ++ str "__" ++ n ->
  In r (searchSimilarVectors E db q k threshold (Some names))
  \/ Z.of_nat (List.length (searchSimilarVectors E db q k threshold (Some names)))
     = k.
Proof.
  intros Hr Hth Hs Hname. unfold searchSimilarVectors. apply limit_complete.
  apply In_order_by_distance. apply filter_In. split; [exact Hr|].
  assert (Hcond : server_condition names r = true).
  { unfold server_condition. apply existsb_exists. exists s.
    split; [exact Hs|]. rewrite Hname. apply like_same_prefix.
    change (str "__%") with ([95%N; 95%N] ++ [37%N]).
    change (str "__" ++ n) with ([95%N; 95%N] ++ n).
    apply like_same_prefix. apply like_percent. }
  destruct names as [|x names]; [destruct Hs|].
  cbv beta. rewrite Hth, Hcond. reflexivity.
Qed.

End NamingFacts.

(* ================================================================= *)
(** ** The order of a search *)

Lemma float_ltb_asym (a b : float) :
  PrimFloat.ltb a b = true -> PrimFloat.ltb b a = false.
Proof.
  rewrite !FloatAxioms.ltb_spec. unfold SpecFloat.SFltb, SpecFloat.SFcompare.
  destruct (FloatOps.Prim2SF a) as [sa|sa| |sa ma ea],
           (FloatOps.Prim2SF b) as [sb|sb| |sb mb eb];
    simpl; try discriminate; try (destruct sa; try destruct sb; simpl; congruence).
  destruct sa, sb; simpl; try congruence.
  all: rewrite (Z.compare_antisym ea eb).
  all: destruct (ea ?= eb)%Z eqn:He; simpl; try congruence.
  all: rewrite (ZC4 ma mb).
  all: destruct (Pos.compare_cont Eq mb ma); simpl; congruence.
Qed.

Lemma insert_by_distance_ascending (r : SearchResult) (rows : list SearchResult) :
  ascending rows -> ascending (insert_by_distance r rows).
Proof.
  induction rows as [|x rest IH]; intros Hasc.
  - simpl. auto.
  - cbn [insert_by_distance].
    destruct (PrimFloat.ltb (sr_distance x) (sr_distance r)) eqn:Hlt.
    + destruct Hasc as [Hhead Hrest]. specialize (IH Hrest).
      cbn [ascending]. split; [|exact IH].
      destruct rest as [|y rest']; cbn [insert_by_distance].
      * now apply float_ltb_asym.
      * destruct (PrimFloat.ltb (sr_distance y) (sr_distance r));
          [exact Hhead | now apply float_ltb_asym].
    + cbn [ascending]. split; [exact Hlt | exact Hasc].
Qed.

Lemma firstn_ascending (n : nat) (rows : list SearchResult) :
  ascending rows -> ascending (firstn n rows).
Proof.
  revert rows. induction n as [|n IH]; intros [|x rest] H; simpl; auto.
  destruct H as [Hhead Hrest]. split; [|now apply IH].
  destruct n, rest; simpl; auto.
Qed.

Section OrderFacts.

Variable E : Env.

(** X20. The rows of a search come in ascending distance: no row is at
    a smaller distance from the query than the row before it, whatever the
    limit, the threshold and the server filter. *)
Theorem search_ascending (db : Database) (q : vector) (k : Z)
    (threshold : float) (serverNames : option (list jsstring)) :
  ascending (searchSimilarVectors E db q k threshold serverNames).
Proof.
  unfold searchSimilarVectors.
  set (rows := filter _ (joined_rows E db q)).
  assert (Hsorted : ascending (order_by_distance rows)).
  { unfold order_by_distance. induction rows as [|r rest IH]; [exact I|].
    simpl. now apply insert_by_distance_ascending. }
  unfold Sql.limit. destruct (k <? 0)%Z; [exact Hsorted|].
  now apply firstn_ascending.
Qed.

End OrderFacts.

(* ================================================================= *)
(** ** What a run of the indexer touches *)

Section IndexerScope.

Variable E : Env.

Arguments delete_selection : simpl never.

Lemma defaultModelName_nonempty (modelName : option jsstring) :
  defaultModelName E modelName <> [].
Proof.
  unfold defaultModelName.
  destruct modelName as [[|c m]|]; simpl; try discriminate;
    destruct (EMBEDDING_MODEL_NAME E) as [[|c' m']|]; simpl; discriminate.
Qed.

Lemma tx_scope (db : Database) (md5 model : jsstring) :
  model <> [] ->
  let db' := fst (deleteToolVector_tx db md5 (Some model)) in
  (forall r, In r (tool_vectors db) -> tv_model_name r <> model ->
             In r (tool_vectors db'))
  /\ (forall r, In r (tool_vectors db') -> In r (tool_vectors db))
  /\ (Z.of_nat (List.length (tool_vectors db))
      = Z.of_nat (List.length (tool_vectors db'))
        + snd (deleteToolVector_tx db md5 (Some model)))%Z
  /\ session_tool_history db' = session_tool_history db
  /\ mcp_servers db' = mcp_servers db.
Proof.
  intros Hm db'. subst db'.
  destruct (tx_tables db md5 (Some model)) as [Et [_ [_ [_ [_ [Eh [_ Es]]]]]]].
  split; [|split; [|split; [|split]]]; auto.
  - intros r Hr Hneq. apply tx_records. split; [exact Hr|].
    destruct model as [|c m]; [contradiction|].
    unfold delete_selection, md5_model_match.
    apply andb_false_iff. right. apply jseqb_neq. exact Hneq.
  - intros r Hr. now apply tx_records in Hr.
  - rewrite Et. unfold deleteToolVector_tx.
    pose proof (filter_length (delete_selection md5 (Some model)) (tool_vectors db))
      as Hlen.
    destruct (filter (delete_selection md5 (Some model)) (tool_vectors db))
      as [|r0 l0]; simpl in *; lia.
Qed.

Lemma delete_superseded_scope (model : jsstring) (toDelete : list SearchResult) :
  model <> [] ->
  forall db,
    let db' := fst (delete_superseded E db model toDelete) in
    (forall r, In r (tool_vectors db) -> tv_model_name r <> model ->
               In r (tool_vectors db'))
    /\ (forall r, In r (tool_vectors db') -> In r (tool_vectors db))
    /\ (Z.of_nat (List.length (tool_vectors db))
        = Z.of_nat (List.length (tool_vectors db'))
          + snd (delete_superseded E db model toDelete))%Z
    /\ session_tool_history db' = session_tool_history db
    /\ mcp_servers db' = mcp_servers db.
Proof.
  intros Hm. induction toDelete as [|c rest IH]; intros db db'; subst db'.
  - simpl. repeat split; auto. lia.
  - simpl. unfold deleteToolVector.
    destruct (delete_fault E (sr_tool_md5 c)); [apply IH|].
    destruct (tx_scope db (sr_tool_md5 c) model Hm) as [A1 [A2 [A3 [A4 A5]]]].
    destruct (deleteToolVector_tx db (sr_tool_md5 c) (Some model)) as [dbx n].
    simpl in *. specialize (IH dbx).
    destruct (delete_superseded E dbx model rest) as [db2 total].
    simpl in *. destruct IH as [B1 [B2 [B3 [B4 B5]]]].
    split; [|split; [|split; [|split]]]; try congruence; try lia; auto.
Qed.

Lemma vectorize_all_scope (model : jsstring) (todo : list ToolToVectorize) :
  model <> [] ->
  forall db,
    let db' := fst (fst (vectorize_all E db model todo)) in
    (forall r, In r (tool_vectors db) -> tv_model_name r <> model ->
               In r (tool_vectors db'))
    /\ (forall r, In r (tool_vectors db') -> In r (tool_vectors db))
    /\ (Z.of_nat (List.length (tool_vectors db))
        = Z.of_nat (List.length (tool_vectors db'))
          + snd (vectorize_all E db model todo))%Z
    /\ session_tool_history db' = session_tool_history db
    /\ mcp_servers db' = mcp_servers db
    /\ (forall td, In td (snd (fst (vectorize_all E db model todo))) ->
          exists x, In x todo /\ td_toolName td = tv_toolName x
                    /\ td_description td = tv_toolDescription x).
Proof.
  intros Hm. induction todo as [|x rest IH]; intros db db'; subst db'.
  - simpl. repeat split; auto; try lia.
  - simpl.
    assert (H1 : let o := vectorize_one E db model x in
              (forall r, In r (tool_vectors db) -> tv_model_name r <> model ->
                         In r (tool_vectors (fst (fst o))))
              /\ (forall r, In r (tool_vectors (fst (fst o))) -> In r (tool_vectors db))
              /\ (Z.of_nat (List.length (tool_vectors db))
                  = Z.of_nat (List.length (tool_vectors (fst (fst o)))) + snd o)%Z
              /\ session_tool_history (fst (fst o)) = session_tool_history db
              /\ mcp_servers (fst (fst o)) = mcp_servers db
              /\ (forall td, snd (fst o) = Some td ->
                    td_toolName td = tv_toolName x
                    /\ td_description td = tv_toolDescription x)).
    { unfold vectorize_one.
      destruct (vectorizeString E _) as [v | msg].
      - pose proof (delete_superseded_scope model
                      (identifySimilarToolsToDelete (tv_toolName x)
                         (tv_toolDescription x) (similar_candidates E db v) 0.96)
                      Hm db) as Hd.
        destruct (delete_superseded E db model _) as [db1 deleted].
        simpl in *. destruct Hd as [A1 [A2 [A3 [A4 A5]]]].
        repeat split; auto; injection H as <-; reflexivity.
      - simpl. repeat split; auto; try lia; discriminate. }
    destruct (vectorize_one E db model x) as [[db1 queued] deleted].
    simpl in H1. destruct H1 as [A1 [A2 [A3 [A4 [A5 A6]]]]].
    specialize (IH db1).
    destruct (vectorize_all E db1 model rest) as [[db2 vs] total].
    simpl in *. destruct IH as [B1 [B2 [B3 [B4 [B5 B6]]]]].
    split; [|split; [|split; [|split; [|split]]]]; try congruence; try lia; auto.
    intros td Htd. destruct queued as [td0|].
    + destruct Htd as [<- | Htd].
      * exists x. split; [now left | now apply A6].
      * destruct (B6 td Htd) as [y [Hy Hn]]. exists y. split; [now right | exact Hn].
    + destruct (B6 td Htd) as [y [Hy Hn]]. exists y. split; [now right | exact Hn].
Qed.

Lemma save_scope (db : Database) (n d : jsstring) (v : vector) (m : jsstring) :
  store_ok db ->
  let db' := fst (saveToolVector E db n d v m) in
  (forall r, In r (tool_vectors db) -> tv_model_name r <> m ->
             In r (tool_vectors db'))
  /\ (forall r, In r (tool_vectors db') ->
        In r (tool_vectors db)
        \/ (tv_model_name r = m /\ tv_tool_name r = n
            /\ tv_tool_md5 r = generateToolMD5 (md5hex E) n d))
  /\ List.length (tool_vectors db) <= List.length (tool_vectors db')
  /\ List.length (tool_vectors db') <= List.length (tool_vectors db) + 1
  /\ session_tool_history db' = session_tool_history db
  /\ mcp_servers db' = mcp_servers db.
Proof.
  intros [N1 _] db'. subst db'. unfold saveToolVector.
  destruct (getToolByMD5 db (generateToolMD5 (md5hex E) n d) m) as [row|] eqn:F;
    simpl.
  - unfold getToolByMD5 in F. apply find_some in F as [Hrow Hmatch].
    unfold md5_model_match in Hmatch.
    apply andb_true_iff in Hmatch as [H5 Hmod]. apply jseqb_eq in H5, Hmod.
    assert (Hupd : forall r, In r (tool_vectors db) ->
              update_tool (tv_id row) n d r = r
              \/ (r = row
                  /\ update_tool (tv_id row) n d r
                     = {| tv_id := tv_id row; tv_tool_md5 := tv_tool_md5 row;
                          tv_model_name := tv_model_name row;
                          tv_tool_name := n; tv_description := Some d |})).
    { intros r Hr. unfold update_tool.
      destruct (tv_id r =? tv_id row)%Z eqn:Hid; [|now left].
      apply Z.eqb_eq in Hid.
      pose proof (NoDup_map_eq tv_id _ _ _ N1 Hr Hrow Hid) as ->. right. auto. }
    rewrite length_map. repeat split; auto; try lia.
    + intros r Hr Hneq. apply in_map_iff. exists r. split; [|exact Hr].
      destruct (Hupd r Hr) as [H | [-> _]]; [exact H | congruence].
    + intros r Hr. apply in_map_iff in Hr as [r0 [<- Hr0]].
      destruct (Hupd r0 Hr0) as [-> | [-> ->]]; [now left|].
      right. simpl. auto.
  - rewrite length_app. simpl. repeat split; auto; try lia.
    + intros r Hr _. apply in_or_app. now left.
    + intros r Hr. apply in_app_iff in Hr as [Hr | [<- | []]]; [now left|].
      right. simpl. auto.
Qed.

Lemma batch_scope (l : list ToolData) (m : jsstring) :
  forall db,
    store_ok db ->
    let db' := fst (saveToolVectorsBatch E db l m) in
    (forall r, In r (tool_vectors db) -> tv_model_name r <> m ->
               In r (tool_vectors db'))
    /\ (forall r, In r (tool_vectors db') ->
          In r (tool_vectors db)
          \/ (tv_model_name r = m
              /\ exists td, In td l /\ tv_tool_name r = td_toolName td
                            /\ tv_tool_md5 r
                               = generateToolMD5 (md5hex E) (td_toolName td)
                                   (td_description td)))
    /\ List.length (tool_vectors db) <= List.length (tool_vectors db')
    /\ List.length (tool_vectors db') <= List.length (tool_vectors db) + List.length l
    /\ List.length (snd (saveToolVectorsBatch E db l m)) = List.length l
    /\ session_tool_history db' = session_tool_history db
    /\ mcp_servers db' = mcp_servers db.
Proof.
  induction l as [|t rest IH]; intros db Hok db'; subst db'.
  - simpl. repeat split; auto; lia.
  - simpl.
    pose proof (save_ok E db (td_toolName t) (td_description t) (td_vector t) m Hok)
      as Hok1.
    destruct (save_scope db (td_toolName t) (td_description t) (td_vector t) m Hok)
      as [A1 [A2 [A3 [A4 [A5 A6]]]]].
    destruct (saveToolVector E db (td_toolName t) (td_description t)
                (td_vector t) m) as [db1 i].
    simpl in *. specialize (IH db1 Hok1).
    destruct (saveToolVectorsBatch E db1 rest m) as [db2 ids].
    simpl in *. destruct IH as [B1 [B2 [B3 [B4 [B5 [B6 B7]]]]]].
    split; [|split; [|split; [|split; [|split; [|split]]]]];
      try congruence; try lia; auto.
    intros r Hr. destruct (B2 r Hr) as [Hr1 | [Hmod [td [Htd H]]]].
    + destruct (A2 r Hr1) as [Hr0 | [Hmod [Hn H5]]]; [now left|].
      right. split; [exact Hmod|]. exists t. split; [now left | now split].
    + right. split; [exact Hmod|]. exists td. split; [now right | exact H].
Qed.

(** X21. A run of the indexer over a consistent store touches only the
    model it indexes.  The records of every other model stay; every record
    of the store it leaves was there before or is a record of the indexed
    model carrying the name and the identity of a named tool of the live
    catalog; one id is returned for each tool handed over for saving; the
    number of records changes by at most the number of ids returned, less
    the number of records reported deleted; the session history and the
    server table are untouched. *)
Theorem indexMCPTools_scope (db : Database) (mcpClient : MCPClient E)
    (modelName : option jsstring) (run : IndexRun) :
  store_ok db ->
  indexMCPTools E db mcpClient modelName = Returned run ->
  let model := defaultModelName E modelName in
  (forall r, In r (tool_vectors db) -> tv_model_name r <> model ->
             In r (tool_vectors (ix_db run)))
  /\ (forall r, In r (tool_vectors (ix_db run)) ->
        In r (tool_vectors db)
        \/ (tv_model_name r = model
            /\ exists liveTools t,
                 mcpClient = Returned liveTools /\ In t liveTools
                 /\ live_toolName t <> []
                 /\ tv_tool_name r = live_toolName t
                 /\ tv_tool_md5 r = live_md5 t))
  /\ List.length (ix_saved run) = List.length (ix_vectorized run)
  /\ (Z.of_nat (List.length (tool_vectors db))
      <= Z.of_nat (List.length (tool_vectors (ix_db run))) + ix_deleted run)%Z
  /\ (Z.of_nat (List.length (tool_vectors (ix_db run))) + ix_deleted run
      <= Z.of_nat (List.length (tool_vectors db))
         + Z.of_nat (List.length (ix_saved run)))%Z
  /\ session_tool_history (ix_db run) = session_tool_history db
  /\ mcp_servers (ix_db run) = mcp_servers db.
Proof.
  intros Hok Hrun model.
  destruct mcpClient as [liveTools | msg]; [|discriminate].
  rewrite indexMCPTools_eq in Hrun. fold model in Hrun.
  injection Hrun as <-. cbn [ix_db ix_saved ix_vectorized ix_deleted].
  pose proof (defaultModelName_nonempty modelName) as Hm. fold model in Hm.
  set (todo := toolsToVectorize E db model liveTools).
  destruct (vectorize_all_scope model todo Hm db) as [A1 [A2 [A3 [A4 [A5 A6]]]]].
  pose proof (vectorize_all_ok E model todo db Hok) as Hok1.
  destruct (batch_scope (snd (fst (vectorize_all E db model todo))) model
              (fst (fst (vectorize_all E db model todo))) Hok1)
    as [B1 [B2 [B3 [B4 [B5 [B6 B7]]]]]].
  split; [|split; [|split; [|split; [|split; [|split]]]]];
    try congruence; try lia; auto.
  intros r Hr. destruct (B2 r Hr) as [Hr1 | [Hmod [td [Htd [Hn H5]]]]].
  - left. now apply A2.
  - right. split; [exact Hmod|].
    destruct (A6 td Htd) as [x [Hx [Hxn Hxd]]].
    apply toolsToVectorize_In in Hx as [t [Ht [Hne [_ ->]]]].
    simpl in *. exists liveTools, t.
    split; [reflexivity|]. split; [exact Ht|]. split; [exact Hne|].
    split; [congruence|]. unfold live_md5. congruence.
Qed.

End IndexerScope.

(* ================================================================= *)
(** ** Worked instances *)

Lemma store_ok_collision_db : store_ok collision_db.
Proof.
  unfold collision_db. cbv zeta. apply save_ok, save_ok, store_ok_empty.
Qed.

Lemma store_ok_other_model_db : store_ok other_model_db.
Proof. unfold other_model_db. apply save_ok, store_ok_empty. Qed.

(** X1 over the store of the servers [a] and [aa]. *)
Lemma writers_keep_store_ok_witness :
  let E := Example.env Example.embed_const in
  store_ok (fst (saveToolVector E collision_db (str "b__y") (str "tool y of b")
                   [0%float; 1%float] (str "m"))).
Proof.
  intros E.
  apply (proj1 (writers_keep_store_ok E collision_db store_ok_collision_db)).
Defined.

(** X2: indexing two new tools into that store. *)
Lemma indexMCPTools_keeps_store_ok_witness :
  let E := Example.env Example.embed_const in
  exists run,
    indexMCPTools E collision_db (Returned (twin_tools E)) None = Returned run
    /\ store_ok (ix_db run).
Proof.
  intros E. eexists. split.
  - vm_compute. reflexivity.
  - eapply (indexMCPTools_keeps_store_ok E collision_db (Returned (twin_tools E))
              None _ store_ok_collision_db).
    vm_compute. reflexivity.
Defined.

(** X4: a tool saved into an empty store is found by a search with its
    own vector. *)
Lemma save_then_search_witness :
  let E := Example.env Example.embed_const in
  let db' := fst (saveToolVector E empty_db (str "a__x") (str "tool x of a")
                    [1%float; 0%float] (str "m")) in
  exists r,
    In r (searchSimilarVectors E db' [1%float; 0%float] 5 0.1 None)
    /\ sr_tool_name r = str "a__x".
Proof.
  intros E db'.
  destruct (save_then_search E empty_db (str "a__x") (str "tool x of a")
              [1%float; 0%float] [1%float; 0%float] (str "m") 5 0.1 eq_refl)
    as [[r [Hin [_ [_ [_ [Hn _]]]]]] | Hfull].
  - exists r. split; [exact Hin | exact Hn].
  - vm_compute in Hfull. discriminate.
Defined.

(** X5: deleting the tool [a__x] of the model [m]. *)
Lemma delete_then_lookup_witness :
  let E := Example.env Example.embed_const in
  exists db',
    deleteToolVector E collision_db (str "a__xtool x of a") (Some (str "m"))
    = Some (db', 1%Z)
    /\ getToolByMD5 db' (str "a__xtool x of a") (str "m") = None.
Proof.
  intros E.
  edestruct (delete_then_lookup E collision_db (str "a__xtool x of a")
               (Some (str "m"))) as [H _].
  - vm_compute. reflexivity.
  - eexists. split; [vm_compute; reflexivity|]. apply H. reflexivity.
Defined.

(** X6: saving a third tool and deleting it again. *)
Lemma save_then_delete_witness :
  let E := Example.env Example.embed_const in
  exists db2,
    deleteToolVector E
      (fst (saveToolVector E collision_db (str "b__y") (str "tool y of b")
              [0%float; 1%float] (str "m")))
      (str "b__ytool y of b") (Some (str "m"))
    = Some (db2, 1%Z)
    /\ same_tools collision_db db2.
Proof.
  intros E.
  destruct (save_then_delete E collision_db (str "b__y") (str "tool y of b")
              [0%float; 1%float] 109%N [] store_ok_collision_db eq_refl eq_refl)
    as [db2 [H1 [H2 _]]].
  exists db2. split; [exact H1 | exact H2].
Defined.

(** X7: two vectors, two rows. *)
Lemma one_row_per_vector_witness :
  List.length (joined_rows (Example.env Example.embed_const) collision_db
                 [1%float; 0%float]) = 2.
Proof.
  rewrite (proj1 (one_row_per_vector (Example.env Example.embed_const)
                    collision_db [1%float; 0%float] store_ok_collision_db)).
  reflexivity.
Defined.

(** X8 over the same store. *)
Lemma getStats_counts_witness :
  (totalTools (getStats collision_db) <= totalVectors (getStats collision_db))%Z.
Proof.
  exact (proj1 (proj2 (proj2 (getStats_counts collision_db))
                  store_ok_collision_db)).
Defined.

(** X9: clearing the index of the model [m]. *)
Lemma clearIndex_effect_witness :
  let E := Example.env Example.embed_const in
  exists db',
    clearIndex E collision_db (Some (str "m")) = Some db'
    /\ searchSimilarVectors E db' [1%float; 0%float] 5 0.1 None = [].
Proof.
  intros E.
  edestruct (clearIndex_effect E collision_db (Some (str "m"))) as [H _].
  - vm_compute. reflexivity.
  - eexists. split; [vm_compute; reflexivity|]. apply H.
Defined.

(** X10 over an empty history: a tool, the same tool again and another
    tool get the ids 1, none and 3. *)
Lemma record_once_witness :
  let E := Example.env Example.embed_const in
  let db1 :=
    fst (recordSessionToolRetrieval E empty_db (str "4fzyo8")
           (str "a__xtool x of a") (str "a__x")) in
  let db2 :=
    fst (recordSessionToolRetrieval E db1 (str "4fzyo8")
           (str "a__xtool x of a") (str "a__x")) in
  snd (recordSessionToolRetrieval E empty_db (str "4fzyo8")
         (str "a__xtool x of a") (str "a__x")) = Some 1%Z
  /\ snd (recordSessionToolRetrieval E db1 (str "4fzyo8")
            (str "a__xtool x of a") (str "a__x")) = None
  /\ snd (recordSessionToolRetrieval E db2 (str "4fzyo8")
            (str "aa__xtool x of aa") (str "aa__x")) = Some 3%Z
  /\ history_unique db1.
Proof.
  intros E db1 db2.
  destruct (record_once E empty_db (str "4fzyo8") (str "a__xtool x of a")
              (str "a__x") (str "a__x"))
    as [H1 [_ [_ [_ [_ [_ [_ [H8 [_ [H10 H11]]]]]]]]]].
  split; [exact H10|]. split; [exact H1|]. split.
  - exact (H8 (str "aa__xtool x of aa") (str "aa__x") eq_refl).
  - apply H11. constructor.
Defined.

(** X11 over a history of one tool. *)
Lemma clearSessionHistory_effect_witness :
  let E := Example.env Example.embed_const in
  let db := fst (recordSessionToolRetrieval E empty_db (str "4fzyo8")
                   (str "a__xtool x of a") (str "a__x")) in
  history_unique (fst (clearSessionHistory db (str "4fzyo8"))).
Proof.
  intros E db.
  apply (proj2 (proj2 (proj2 (proj2 (proj2 (proj2
           (clearSessionHistory_effect db (str "4fzyo8")))))))).
  apply record_unique. constructor.
Defined.

(** X12: a retrieval over the store of the servers [a] and [aa]. *)
Lemma retriever_frame_witness :
  let E := Example.env Example.embed_const in
  history_unique
    (fst (retriever E collision_db (Returned (collision_tools E))
            (str "0.4fzyo82mvyr") [str "tool x"] [] None)).
Proof.
  intros E.
  apply (proj2 (proj2 (proj2 (proj2 (proj2
           (retriever_frame E collision_db (Returned (collision_tools E))
              (str "0.4fzyo82mvyr") [str "tool x"] [] None)))))).
  constructor.
Defined.

(** X13: the tool [a__x] reported by that retrieval. *)
Lemma retriever_reports_surfaced_witness :
  let E := Example.env Example.embed_const in
  exists liveTools d,
    Returned (collision_tools E) = Returned liveTools
    /\ nth_error [str "tool x"] 0 = Some d
    /\ surfaced E collision_db liveTools None d 1 (str "a__x")
         (str "a__xtool x of a").
Proof.
  intros E.
  edestruct (retriever_reports_surfaced E collision_db
               (Returned (collision_tools E)) (str "0.4fzyo82mvyr")
               [str "tool x"] [] None) as [H _].
  - vm_compute. reflexivity.
  - vm_compute. left. reflexivity.
  - exact H.
Defined.

(** X14 for the same retrieval. *)
Lemma retriever_answer_shape_witness :
  let E := Example.env Example.embed_const in
  exists db' result note,
    retriever E collision_db (Returned (collision_tools E))
      (str "0.4fzyo82mvyr") [str "tool x"] [] None
    = (db', RetrieverContent result note)
    /\ increasing (map (@query_index _) (new_tools result)).
Proof.
  intros E. do 3 eexists. split.
  - vm_compute. reflexivity.
  - eapply (retriever_answer_shape E collision_db (Returned (collision_tools E))
              (str "0.4fzyo82mvyr") [str "tool x"] [] None).
    vm_compute. reflexivity.
Defined.

(** X15: the identity reported for [a__x] executes [a__x]. *)
Lemma retrieved_tool_executes_witness :
  let E := Example.env Example.embed_const in
  exists i t,
    nth_error (collision_tools E) i = Some t
    /\ live_toolName t = str "a__x"
    /\ snd (executor E (Returned (collision_tools E)) (str "a__xtool x of a")
              (str "{}"))
       = [(i, str "{}")].
Proof.
  intros E.
  edestruct (retrieved_tool_executes E collision_db (collision_tools E)
               (str "0.4fzyo82mvyr") [str "tool x"] [] None)
    as [i [t [H1 [H2 [H3 _]]]]].
  - intros t [<- | [<- | []]]; (split; [do 2 eexists; reflexivity | discriminate]).
  - vm_compute. reflexivity.
  - vm_compute. left. reflexivity.
  - exists i, t. split; [exact H1|]. split; [exact H2 | exact H3].
Defined.

(** X16 for the same retrieval. *)
Lemma session_history_count_bound_witness :
  let E := Example.env Example.embed_const in
  exists db' result note,
    retriever E collision_db (Returned (collision_tools E))
      (str "0.4fzyo82mvyr") [str "tool x"] [] None
    = (db', RetrieverContent result note)
    /\ (ss_tools_count (getSessionStats db' (session_id result))
        <= Z.of_nat (session_history_count (summary result)))%Z.
Proof.
  intros E. do 3 eexists. split.
  - vm_compute. reflexivity.
  - eapply (session_history_count_bound E collision_db
              (Returned (collision_tools E)) (str "0.4fzyo82mvyr")
              [str "tool x"] [] None).
    + constructor.
    + vm_compute. reflexivity.
Defined.


(** X18: with the enabled servers [a] and [constructor] and an empty
    catalog the description names [a] twice. *)
Lemma server_description_cases_witness :
  let E := Example.env Example.embed_const in
  getEnhancedServerDescription E constructor_db (Returned [])
  = Text.available_servers
    ++ (str "a" ++ Text.enumeration_comma ++ str "a"
        ++ Text.enumeration_comma ++ str "constructor")
    ++ Text.retrieval_only.
Proof.
  intros E.
  rewrite (proj1 (proj2 (proj2 (proj2 (server_description_cases E constructor_db))))
             []
             [{| server_name := str "a"; server_description := None;
                 enabled := 1 |}]
             {| server_name := str "constructor"; server_description := None;
                enabled := 1 |}
             []).
  - reflexivity.
  - intros t [].
  - reflexivity.
  - intros x [<- | []]. reflexivity.
  - reflexivity.
Defined.

(** X19: the tool [a__x] passes the filter of the server [a]. *)
Lemma server_filter_complete_witness :
  let E := Example.env Example.embed_const in
  let r := {| sr_id := 1; sr_tool_md5 := str "a__xtool x of a";
              sr_model_name := str "m"; sr_tool_name := str "a__x";
              sr_description := Some (str "tool x of a");
              sr_distance := 0; sr_similarity := 1 |} in
  In r (searchSimilarVectors E collision_db [1%float; 0%float] 5 0.1
          (Some [str "a"])).
Proof.
  intros E r.
  destruct (server_filter_complete E collision_db [1%float; 0%float] 5 0.1
              [str "a"] (str "a") (str "x") r) as [H | H].
  - vm_compute. left. reflexivity.
  - reflexivity.
  - now left.
  - reflexivity.
  - exact H.
  - vm_compute in H. discriminate.
Defined.

(** X21: indexing under the default model beside a record of another
    model. *)
Lemma indexMCPTools_scope_witness :
  let E := Example.env Example.embed_const in
  exists run,
    indexMCPTools E other_model_db (Returned (twin_tools E)) None = Returned run
    /\ List.length (ix_saved run) = List.length (ix_vectorized run).
Proof.
  intros E. eexists. split.
  - vm_compute. reflexivity.
  - eapply (indexMCPTools_scope E other_model_db (Returned (twin_tools E)) None
              _ store_ok_other_model_db).
    vm_compute. reflexivity.
Defined.

(* ================================================================= *)
(** ** The recommender *)

Lemma leb_03_02 (s : float) :
  PrimFloat.leb 0.3 s = true -> PrimFloat.leb 0.2 s = true.
Proof.
  rewrite !FloatAxioms.leb_spec.
  replace (FloatOps.Prim2SF 0.3)
    with (SpecFloat.S754_finite false 5404319552844595 (-54))
    by (vm_compute; reflexivity).
  replace (FloatOps.Prim2SF 0.2)
    with (SpecFloat.S754_finite false 7205759403792794 (-55))
    by (vm_compute; reflexivity).
  unfold SpecFloat.SFleb, SpecFloat.SFcompare.
  destruct (FloatOps.Prim2SF s) as [sg|[|]| |[|] m e];
    try discriminate; try reflexivity.
  destruct (Z.compare_spec (-54) e) as [He | He | He]; try discriminate.
  - subst e. intros _. reflexivity.
  - intros _.
    destruct (Z.compare_spec (-55) e) as [He' | He' | He']; try lia; reflexivity.
Qed.

Lemma confidence_above_low (s : float) :
  PrimFloat.leb 0.2 s = true -> getConfidenceLevel s <> str "very_low".
Proof.
  intros H. unfold getConfidenceLevel.
  destruct (PrimFloat.leb 0.8 s); [discriminate|].
  destruct (PrimFloat.leb 0.6 s); [discriminate|].
  destruct (PrimFloat.leb 0.4 s); [discriminate|].
  rewrite H. discriminate.
Qed.

Section RecommenderFacts.

Variable E : Env.

Lemma formatResults_In (recs : list (RecommendationResult E)) (format : jsstring)
    (details : bool) (x : Recommendation E) :
  In x (formatResults E recs format details) ->
  exists tool, In tool recs
               /\ recommendation_name x = rec_tool_name tool
               /\ (x = simple_of tool \/ x = detailed_of tool \/ x = Raw tool).
Proof.
  unfold formatResults. intros H.
  destruct (JS.eqb format (str "simple"));
    [|destruct (JS.eqb format (str "detailed"));
      [|destruct (JS.eqb format (str "raw")); [|destruct details]]];
    apply in_map_iff in H as [tool [<- Htool]]; exists tool;
    (split; [exact Htool|]); (split; [reflexivity|]); auto.
Qed.

Lemma formatResults_length (recs : list (RecommendationResult E))
    (format : jsstring) (details : bool) :
  List.length (formatResults E recs format details) = List.length recs.
Proof.
  unfold formatResults.
  destruct (JS.eqb format (str "simple"));
    [|destruct (JS.eqb format (str "detailed"));
      [|destruct (JS.eqb format (str "raw")); [|destruct details]]];
    apply length_map.
Qed.

Lemma recommend_ready (r : ToolRecommender E) (query : jsstring)
    (options : RecommendationOptions) (recs : list (Recommendation E)) :
  recommend E r query options = Returned recs ->
  tr_isReady r = true
  /\ exists tools,
       recommendTools E (tr_store r) query (tr_client r)
         (option_default (ro_topK options) 3%Z)
         (option_default (ro_threshold options) 0.1%float) true None
       = Returned tools
       /\ recs = formatResults E tools
                   (option_default (ro_format options) (str "simple"))
                   (option_default (ro_includeDetails options) false).
Proof.
  unfold recommend. destruct (tr_isReady r); [|discriminate]. simpl.
  destruct (recommendTools E _ _ _ _ _ _ _) as [tools | msg]; [|discriminate].
  simpl. intros H. injection H as <-. split; [reflexivity|].
  now exists tools.
Qed.

(** X22. What a recommender recommends.  An answer of [recommend]
    comes from an initialised recommender; it holds at most [topK]
    recommendations (3 when the option is absent) when that bound is not
    negative; and every recommendation, in any format, carries the name of
    a live tool of the recommender's client whose identity has a row in the
    search for the query with a similarity that reaches the threshold (0.1
    when the option is absent). *)
Theorem recommend_reports_live (r : ToolRecommender E) (query : jsstring)
    (options : RecommendationOptions) (recs : list (Recommendation E)) :
  recommend E r query options = Returned recs ->
  let topK := option_default (ro_topK options) 3%Z in
  let threshold := option_default (ro_threshold options) 0.1%float in
  tr_isReady r = true
  /\ ((0 <= topK)%Z -> (Z.of_nat (List.length recs) <= topK)%Z)
  /\ forall x, In x recs ->
       exists liveTools t v row,
         tr_mcpClient r = Some (Returned liveTools)
         /\ In t liveTools
         /\ live_toolName t = recommendation_name x
         /\ vectorizeString E query = Returned v
         /\ In row (searchSimilarVectors E (tr_store r) v topK threshold None)
         /\ sr_tool_md5 row = live_md5 t
         /\ PrimFloat.leb threshold (sr_similarity row) = true.
Proof.
  intros H topK threshold.
  destruct (recommend_ready r query options recs H) as [Hready [tools [Hrec ->]]].
  fold topK threshold in Hrec.
  destruct (recommendTools_sound E _ _ _ _ _ _ _ _ Hrec) as [v [Hv [Hlen Hall]]].
  split; [exact Hready|]. split.
  - intros Hk. rewrite formatResults_length.
    pose proof (search_length_limit E (tr_store r) v topK threshold None Hk). lia.
  - intros x Hx. apply formatResults_In in Hx as [tool [Htool [Hname _]]].
    apply In_nth_error in Htool as [j Hj].
    destruct (Hall j tool Hj) as [_ [liveTools [t [row [Hc [F [Hn [Hrow [H5 _]]]]]]]]].
    exists liveTools, t, v, row.
    apply find_some in F as [Ht Hmd5]. apply jseqb_eq in Hmd5.
    destruct (searchSimilarVectors_sound E _ _ _ _ _ _ Hrow) as [_ Hth].
    split.
    { unfold tr_client in Hc. destruct (tr_mcpClient r) as [c|]; [|discriminate].
      now rewrite Hc. }
    repeat split; auto; congruence.
Qed.

(** X23. [getBestTool] answers with nothing or with the detailed form
    of the tool ranked first by a search limited to one row: its
    similarity reaches the threshold, 0.3 when the argument is left out,
    and with that default threshold its confidence is never
    [very_low]. *)
Theorem getBestTool_best (r : ToolRecommender E) (query : jsstring)
    (threshold : option float) (best : Recommendation E) :
  getBestTool E r query threshold = Returned (Some best) ->
  exists tool,
    best = detailed_of tool
    /\ rec_rank tool = 1
    /\ PrimFloat.leb (option_default threshold 0.3%float) (rec_similarity tool)
       = true
    /\ recommendTools E (tr_store r) query (tr_client r) 1
         (option_default threshold 0.3%float) true None
       = Returned [tool]
    /\ (threshold = None ->
        getConfidenceLevel (rec_similarity tool) <> str "very_low").
Proof.
  unfold getBestTool.
  destruct (recommend E r query _) as [recs | msg] eqn:Hrec; [|discriminate].
  simpl. intros H. injection H as H.
  destruct (recommend_ready r query _ recs Hrec) as [_ [tools [Htools ->]]].
  simpl in Htools.
  destruct (recommendTools_sound E _ _ _ _ _ _ _ _ Htools) as [v [Hv [Hlen Hall]]].
  pose proof (search_length_limit E (tr_store r) v 1
                (option_default threshold 0.3%float) None ltac:(lia)) as Hone.
  destruct tools as [|tool [|tool' rest]]; [discriminate | | simpl in *; lia].
  cbn in H. injection H as <-. exists tool.
  destruct (Hall 0 tool eq_refl) as [Hrank [lt [t [row [_ [_ [_ [Hrow [_ Hs]]]]]]]]].
  destruct (searchSimilarVectors_sound E _ _ _ _ _ _ Hrow) as [_ Hth].
  rewrite Hs in Hth.
  split; [reflexivity|]. split; [exact Hrank|]. split; [exact Hth|].
  split; [exact Htools|].
  intros ->. simpl in Hth. now apply confidence_above_low, leb_03_02.
Qed.

End RecommenderFacts.

(* ================================================================= *)
(** ** Placeholders *)

Lemma span_run (p : N -> bool) (run rest : jsstring) (c : N) :
  forallb p run = true -> p c = false ->
  span p (run ++ c :: rest) = (run, c :: rest).
Proof.
  intros Hrun Hc. induction run as [|x run IH]; simpl in *.
  - now rewrite Hc.
  - apply andb_true_iff in Hrun as [Hx Hrun]. now rewrite Hx, (IH Hrun).
Qed.

Lemma span_app (p : N -> bool) (s : jsstring) :
  s = fst (span p s) ++ snd (span p s).
Proof.
  induction s as [|c s IH]; simpl; [reflexivity|].
  destruct (p c); [|reflexivity].
  destruct (span p s) as [run rest]. simpl in *. now rewrite <- IH.
Qed.

Lemma replace_skip (env : jsstring -> option jsstring) (w s : jsstring) :
  forall skip,
    skip = List.length w ->
    replace_placeholders env skip (w ++ s) = replace_placeholders env 0 s.
Proof.
  induction w as [|c w IH]; intros skip ->; [reflexivity|].
  simpl. now apply IH.
Qed.

Lemma or_else_some (d : jsstring) : or_else (Some d) [] = d.
Proof. now destruct d. Qed.

Lemma placeholder_none (s : jsstring) :
  forallb (fun c => negb (c =? 36)%N) s = true
  \/ forallb (fun c => negb (c =? 125)%N) s = true ->
  placeholder s = None.
Proof.
  intros [H | H].
  - destruct s as [|c s]; [reflexivity|]. simpl in H.
    apply andb_true_iff in H as [Hc _]. apply negb_true_iff, N.eqb_neq in Hc.
    unfold placeholder. destruct c as [|p]; [reflexivity|].
    do 7 (try (destruct p as [p|p|]; try reflexivity; try congruence)).
  - assert (Hsuffix : forall p (a b : jsstring) x,
              forallb (fun c => negb (c =? 125)%N) a = true ->
              snd (span p a) <> 125%N :: x).
    { intros p a x0 x Ha Heq. rewrite (span_app p a) in Ha.
      rewrite forallb_app, Heq in Ha. simpl in Ha.
      now rewrite andb_false_r in Ha. }
    destruct s as [|c0 [|c1 s1]]; try reflexivity.
    + unfold placeholder. destruct c0 as [|p]; [reflexivity|].
      do 7 (try (destruct p as [p|p|]; try reflexivity)).
    + simpl in H. apply andb_true_iff in H as [_ H].
      apply andb_true_iff in H as [_ H].
      unfold placeholder.
      destruct (N.eq_dec c0 36) as [-> | H36].
      * destruct (N.eq_dec c1 123) as [-> | H123].
        -- pose proof (Hsuffix (fun c => negb ((c =? 58) || (c =? 125))%N) s1 [])
             as H1.
           pose proof (span_app (fun c => negb ((c =? 58) || (c =? 125))%N) s1)
             as Happ.
           destruct (span (fun c => negb ((c =? 58) || (c =? 125))%N) s1)
             as [name rest]. simpl in *.
           destruct name as [|n0 name]; [reflexivity|].
           destruct rest as [|r0 rest]; [reflexivity|].
           assert (Hrest : forallb (fun c => negb (c =? 125)%N) (r0 :: rest) = true).
           { rewrite Happ, forallb_app in H. now apply andb_true_iff in H. }
           destruct (N.eq_dec r0 125) as [-> | H125];
             [exfalso; now apply (H1 rest)|].
           destruct (N.eq_dec r0 58) as [-> | H58].
           ++ simpl in Hrest.
              pose proof (Hsuffix (fun c => negb (c =? 125)%N) rest [] ) as H2.
              destruct (span (fun c => negb (c =? 125)%N) rest) as [d rest2].
              simpl in *. destruct rest2 as [|r2 rest2]; [reflexivity|].
              destruct (N.eq_dec r2 125) as [-> | H125'];
                [exfalso; now apply (H2 rest2)|].
              destruct r2 as [|p]; [reflexivity|].
              do 7 (try (destruct p as [p|p|]; try reflexivity; try congruence)).
           ++ destruct r0 as [|p]; [reflexivity|].
              do 7 (try (destruct p as [p|p|]; try reflexivity; try congruence)).
        -- destruct c1 as [|p]; [reflexivity|].
           do 7 (try (destruct p as [p|p|]; try reflexivity; try congruence)).
      * destruct c0 as [|p]; [reflexivity|].
        do 7 (try (destruct p as [p|p|]; try reflexivity; try congruence)).
Qed.

Lemma replace_plain_prefix (env : jsstring -> option jsstring)
    (before s : jsstring) :
  forallb (fun c => negb (c =? 36)%N) before = true ->
  replace_placeholders env 0 (before ++ s)
  = before ++ replace_placeholders env 0 s.
Proof.
  intros H. induction before as [|c before IH]; [reflexivity|].
  pose proof H as Hall. simpl in H. apply andb_true_iff in H as [Hc H].
  change ((c :: before) ++ s) with (c :: (before ++ s)).
  cbn [replace_placeholders].
  assert (Hnone : placeholder (c :: before ++ s) = None).
  { apply negb_true_iff, N.eqb_neq in Hc. unfold placeholder.
    destruct c as [|p]; [reflexivity|].
    do 7 (try (destruct p as [p|p|]; try reflexivity; try congruence)). }
  rewrite Hnone, (IH H). reflexivity.
Qed.

Lemma replace_match (env : jsstring -> option jsstring) (s rest : jsstring)
    (variableName : jsstring) (defaultValue : option jsstring) (w : jsstring) :
  placeholder s = Some (variableName, defaultValue, rest) ->
  s = 36%N :: w ++ rest ->
  replace_placeholders env 0 s
  = match env variableName with
    | Some envValue => envValue
    | None => or_else defaultValue []
    end ++ replace_placeholders env 0 rest.
Proof.
  intros Hp ->. cbn [replace_placeholders]. rewrite Hp. f_equal.
  apply replace_skip. rewrite length_app. lia.
Qed.

(** X25. [parseEnvVariable] substitutes a placeholder once and goes on
    after it.  In a text that starts with a part without [$], then holds
    [${name}] with a non-empty name without [:] and [}], the part is kept,
    the placeholder is replaced by the value of the variable, or by nothing
    when it is not set, and the rest of the text is parsed in turn; with
    [${name:default}], the default, which holds no [}], stands in for a
    variable that is not set.  The value put in is not parsed again. *)
Theorem parseEnvVariable_substitutes (env : jsstring -> option jsstring)
    (before variableName after : jsstring) :
  forallb (fun c => negb (c =? 36)%N) before = true ->
  variableName <> [] ->
  forallb (fun c => negb ((c =? 58) || (c =? 125))%N) variableName = true ->
  parseEnvVariable env (before ++ str "${" ++ variableName ++ str "}" ++ after)
  = before
    ++ match env variableName with Some envValue => envValue | None => [] end
    ++ parseEnvVariable env after
  /\ forall defaultValue,
       forallb (fun c => negb (c =? 125)%N) defaultValue = true ->
       parseEnvVariable env
         (before ++ str "${" ++ variableName ++ str ":" ++ defaultValue
          ++ str "}" ++ after)
       = before
         ++ match env variableName with
            | Some envValue => envValue
            | None => defaultValue
            end
         ++ parseEnvVariable env after.
Proof.
  intros Hbefore Hne Hname. unfold parseEnvVariable.
  destruct variableName as [|n0 name]; [contradiction|].
  split.
  - rewrite (replace_plain_prefix env before _ Hbefore). f_equal.
    change (str "${" ++ (n0 :: name) ++ str "}" ++ after)
      with (36%N :: 123%N :: (n0 :: name) ++ 125%N :: after).
    rewrite (replace_match env _ after (n0 :: name) None
               (123%N :: (n0 :: name) ++ [125%N])); [reflexivity| |].
    + unfold placeholder.
      now rewrite (span_run _ (n0 :: name) after 125%N Hname eq_refl).
    + simpl. do 3 f_equal. now rewrite <- app_assoc.
  - intros defaultValue Hdefault.
    rewrite (replace_plain_prefix env before _ Hbefore). f_equal.
    change (str "${" ++ (n0 :: name) ++ str ":" ++ defaultValue ++ str "}" ++ after)
      with (36%N :: 123%N :: (n0 :: name) ++ 58%N :: defaultValue ++ 125%N :: after).
    rewrite (replace_match env _ after (n0 :: name) (Some defaultValue)
               (123%N :: (n0 :: name) ++ 58%N :: defaultValue ++ [125%N])).
    + now rewrite or_else_some.
    + unfold placeholder.
      rewrite (span_run _ (n0 :: name) (defaultValue ++ 125%N :: after) 58%N
                 Hname eq_refl).
      now rewrite (span_run _ defaultValue after 125%N Hdefault eq_refl).
    + simpl. do 3 f_equal. rewrite <- !app_assoc. simpl.
      now rewrite <- app_assoc.
Qed.

(** X26. [parseEnvVariable] leaves a text without [$] and a text
    without [}] as it is: what is not a complete placeholder is kept, an
    unterminated [${name] included. *)
Theorem parseEnvVariable_unchanged (env : jsstring -> option jsstring)
    (value : jsstring) :
  forallb (fun c => negb (c =? 36)%N) value = true
  \/ forallb (fun c => negb (c =? 125)%N) value = true ->
  parseEnvVariable env value = value.
Proof.
  unfold parseEnvVariable. induction value as [|c value IH]; [reflexivity|].
  intros H. cbn [replace_placeholders].
  rewrite (placeholder_none (c :: value) H). f_equal. apply IH.
  destruct H as [H | H]; [left | right]; simpl in H;
    now apply andb_true_iff in H.
Qed.

(** X25 on [${HOME}/bin] and [${PORT:8080}]. *)
Lemma parseEnvVariable_substitutes_witness :
  let env := fun n => if JS.eqb n (str "HOME") then Some (str "/root") else None in
  parseEnvVariable env (str "${HOME}/bin") = str "/root/bin"
  /\ parseEnvVariable env (str "port ${PORT:8080}") = str "port 8080".
Proof.
  intros env. split.
  - apply (proj1 (parseEnvVariable_substitutes env [] (str "HOME") (str "/bin")
                    eq_refl ltac:(discriminate) eq_refl)).
  - apply (proj2 (parseEnvVariable_substitutes env (str "port ") (str "PORT") []
                    eq_refl ltac:(discriminate) eq_refl) (str "8080") eq_refl).
Defined.

(** X26 on an unterminated placeholder. *)
Lemma parseEnvVariable_unchanged_witness :
  parseEnvVariable (fun _ => Some (str "x")) (str "${HOME") = str "${HOME".
Proof.
  apply parseEnvVariable_unchanged. right. reflexivity.
Defined.

(** X22 over the store and the catalog of the servers [a] and [aa]. *)
Lemma recommend_reports_live_witness :
  let E := Example.env Example.embed_const in
  let r := {| tr_isReady := true; tr_store := collision_db;
              tr_mcpClient := Some (Returned (collision_tools E)) |} in
  exists recs,
    recommend E r (str "tool x") no_options = Returned recs
    /\ (Z.of_nat (List.length recs) <= 3)%Z.
Proof.
  intros E r. eexists. split.
  - vm_compute. reflexivity.
  - eapply (recommend_reports_live E r (str "tool x") no_options).
    + vm_compute. reflexivity.
    + simpl. lia.
Defined.

(** X23 over the same recommender. *)
Lemma getBestTool_best_witness :
  let E := Example.env Example.embed_const in
  let r := {| tr_isReady := true; tr_store := collision_db;
              tr_mcpClient := Some (Returned (collision_tools E)) |} in
  exists best tool,
    getBestTool E r (str "tool x") None = Returned (Some best)
    /\ best = detailed_of tool
    /\ rec_rank tool = 1
    /\ getConfidenceLevel (rec_similarity tool) <> str "very_low".
Proof.
  intros E r.
  edestruct (getBestTool_best E r (str "tool x") None)
    as [tool [H1 [H2 [_ [_ H3]]]]].
  - vm_compute. reflexivity.
  - do 2 eexists. split; [vm_compute; reflexivity|].
    split; [exact H1|]. split; [exact H2 | now apply H3].
Defined.

(* ================================================================= *)
(** ** The name distance *)

Lemma matrix_cells_bounds (c2 : N) (j : nat) :
  forall str1 previous left i,
    List.length previous = S (List.length str1) ->
    (forall k x, nth_error previous k = Some x ->
       (i + k) - j <= x /\ j - (i + k) <= x /\ x <= Nat.max (i + k) j) ->
    i - S j <= left /\ S j - i <= left /\ left <= Nat.max i (S j) ->
    List.length (matrix_cells c2 str1 previous left) = List.length str1
    /\ forall k x,
         nth_error (matrix_cells c2 str1 previous left) k = Some x ->
         (S i + k) - S j <= x /\ S j - (S i + k) <= x
         /\ x <= Nat.max (S i + k) (S j).
Proof.
  induction str1 as [|c1 str1 IH]; intros previous left i Hlen Hprev Hleft.
  - simpl. split; [reflexivity|]. intros [|k] x H; discriminate.
  - destruct previous as [|diagonal [|above previous']]; try discriminate.
    cbn [matrix_cells].
    set (cell := if (c1 =? c2)%N then diagonal
                 else Nat.min (Nat.min (above + 1) (left + 1)) (diagonal + 1)).
    pose proof (Hprev 0 diagonal eq_refl) as Hd.
    pose proof (Hprev 1 above eq_refl) as Ha.
    assert (Hcell : S i - S j <= cell /\ S j - S i <= cell
                    /\ cell <= Nat.max (S i) (S j)).
    { subst cell. destruct (c1 =? c2)%N; lia. }
    destruct (IH (above :: previous') cell (S i)) as [Hl Hc].
    + simpl in *. lia.
    + intros k x Hk. specialize (Hprev (S k) x Hk).
      replace (S i + k) with (i + S k) by lia. exact Hprev.
    + exact Hcell.
    + split; [simpl; now rewrite Hl|].
      intros [|k] x Hx; simpl in Hx.
      * injection Hx as <-. rewrite Nat.add_0_r. exact Hcell.
      * specialize (Hc k x Hx). replace (S i + S k) with (S (S i) + k) by lia.
        exact Hc.
Qed.

Lemma matrix_last_row_bounds (str1 : jsstring) :
  forall str2 previous j,
    List.length previous = S (List.length str1) ->
    (forall k x, nth_error previous k = Some x ->
       k - j <= x /\ j - k <= x /\ x <= Nat.max k j) ->
    let row := matrix_last_row str1 str2 previous (S j) in
    List.length row = S (List.length str1)
    /\ forall k x, nth_error row k = Some x ->
         k - (j + List.length str2) <= x
         /\ (j + List.length str2) - k <= x
         /\ x <= Nat.max k (j + List.length str2).
Proof.
  induction str2 as [|c2 str2 IH]; intros previous j Hlen Hprev row; subst row.
  - simpl. rewrite Nat.add_0_r. now split.
  - cbn [matrix_last_row].
    destruct (matrix_cells_bounds c2 j str1 previous (S j) 0 Hlen) as [Hl Hc].
    + intros k x Hk. simpl. now apply Hprev.
    + lia.
    + destruct (IH (S j :: matrix_cells c2 str1 previous (S j)) (S j)) as [Hl' Hc'].
      * simpl. now rewrite Hl.
      * intros [|k] x Hx; simpl in Hx.
        -- injection Hx as <-. lia.
        -- specialize (Hc k x Hx). simpl in Hc. lia.
      * split; [exact Hl'|]. intros k x Hx. specialize (Hc' k x Hx).
        simpl. replace (j + S (List.length str2)) with (S j + List.length str2)
          by lia. exact Hc'.
Qed.

(** X27. The distance [calculateNameSimilarity] reads off its matrix
    lies between the difference of the two lengths and the greater of
    them, so that the quotient it subtracts from one lies between zero and
    one; two non-empty names that differ get one less that quotient, equal
    names get one and an empty name gets zero. *)
Theorem calculateNameSimilarity_distance (str1 str2 : jsstring) :
  List.length str1 - List.length str2 <= levenshtein str1 str2
  /\ List.length str2 - List.length str1 <= levenshtein str1 str2
  /\ levenshtein str1 str2 <= Nat.max (List.length str1) (List.length str2)
  /\ (str1 <> [] -> str2 <> [] -> str1 <> str2 ->
      calculateNameSimilarity str1 str2
      = (1 - number (levenshtein str1 str2)
             / number (Nat.max (List.length str1) (List.length str2)))%float)
  /\ (str1 <> [] -> calculateNameSimilarity str1 str1 = 1%float)
  /\ (str1 = [] \/ str2 = [] -> calculateNameSimilarity str1 str2 = 0%float).
Proof.
  assert (Hrow : let row := matrix_last_row str1 str2
                              (seq 0 (S (List.length str1))) 1 in
            List.length row = S (List.length str1)
            /\ forall k x, nth_error row k = Some x ->
                 k - (0 + List.length str2) <= x
                 /\ (0 + List.length str2) - k <= x
                 /\ x <= Nat.max k (0 + List.length str2)).
  { apply matrix_last_row_bounds.
    - now rewrite length_seq.
    - intros k x Hk.
      assert (Hlt : k < List.length (seq 0 (S (List.length str1))))
        by (apply nth_error_Some; congruence).
      rewrite length_seq in Hlt.
      rewrite (nth_error_nth' _ 0) in Hk by now rewrite length_seq.
      rewrite seq_nth in Hk by exact Hlt. injection Hk as <-. lia. }
  destruct Hrow as [Hlen Hcells].
  assert (Hd : nth_error (matrix_last_row str1 str2 (seq 0 (S (List.length str1))) 1)
                 (List.length str1) = Some (levenshtein str1 str2)).
  { unfold levenshtein. apply nth_error_nth'. rewrite Hlen. lia. }
  specialize (Hcells _ _ Hd). simpl in Hcells.
  split; [lia|]. split; [lia|]. split; [lia|]. split; [|split].
  - intros H1 H2 Hneq. unfold calculateNameSimilarity.
    destruct str1 as [|a s1]; [contradiction|].
    destruct str2 as [|b s2]; [contradiction|].
    apply jseqb_neq in Hneq. now rewrite Hneq.
  - intros H1. unfold calculateNameSimilarity.
    destruct str1 as [|a s1]; [contradiction|]. now rewrite jseqb_refl.
  - intros [-> | ->]; [reflexivity|]. now destruct str1.
Qed.

(** X27 on [kitten] and [sitting]. *)
Lemma calculateNameSimilarity_distance_witness :
  levenshtein (str "kitten") (str "sitting") = 3
  /\ calculateNameSimilarity (str "kitten") (str "sitting")
     = (1 - number 3 / number 7)%float.
Proof.
  split; [reflexivity|].
  apply (proj1 (proj2 (proj2 (proj2
           (calculateNameSimilarity_distance (str "kitten") (str "sitting")))))).
  - discriminate.
  - discriminate.
  - discriminate.
Defined.

(* ================================================================= *)
(** ** What a retrieval does not miss *)

Lemma find_exists {A : Type} (p : A -> bool) (l : list A) (x : A) :
  In x l -> p x = true -> exists y, find p l = Some y.
Proof.
  intros Hx Hp. destruct (find p l) as [y|] eqn:F; [now exists y|].
  rewrite (find_none _ _ F x Hx) in Hp. discriminate.
Qed.

Section RetrieverCompleteness.

Variable E : Env.

Lemma recommendations_from_In (details : bool) (matched : list (MatchedTool E))
    (mt : MatchedTool E) :
  In mt matched ->
  forall i, exists r, In r (recommendations_from i details matched)
                      /\ rec_tool_md5 r = mt_tool_md5 mt.
Proof.
  induction matched as [|x rest IH]; intros Hin i; [destruct Hin|].
  destruct Hin as [-> | Hin].
  - eexists. split; [left; reflexivity | reflexivity].
  - destruct (IH Hin (S i)) as [r [Hr Hmd5]]. exists r. split; [now right | exact Hmd5].
Qed.

(** A search row whose identity is the identity of a live tool is
    recommended. *)
Lemma recommendTools_complete (db : Database) (text : jsstring)
    (liveTools : list (MCPToolInfo E)) (k : Z) (threshold : float)
    (details : bool) (serverNames : option (list jsstring))
    (recs : list (RecommendationResult E)) (v : vector) (row : SearchResult)
    (t : MCPToolInfo E) :
  recommendTools E db text (Returned liveTools) k threshold details serverNames
  = Returned recs ->
  vectorizeString E text = Returned v ->
  In row (searchSimilarVectors E db v k threshold serverNames) ->
  In t liveTools ->
  live_md5 t = sr_tool_md5 row ->
  exists r, In r recs /\ rec_tool_md5 r = sr_tool_md5 row.
Proof.
  unfold recommendTools, searchSimilarTools. intros H Hv Hrow Ht Hmd5.
  rewrite Hv in H. simpl in H.
  set (rows := searchSimilarVectors E db v k threshold serverNames) in *.
  assert (Hst : In (SimilarTool_of row) (map SimilarTool_of rows))
    by now apply in_map.
  destruct (map SimilarTool_of rows) as [|st sts] eqn:Hsim; [destruct Hst|].
  cbv iota in H. remember (st :: sts) as similar eqn:Hsimilar. clear Hsimilar.
  unfold findMatchingMCPTools, bind in H. cbv beta iota in H.
  injection H as <-.
  destruct (find_exists (fun u => JS.eqb (live_md5 u) (sr_tool_md5 row))
              liveTools t Ht) as [u Hu].
  { apply jseqb_eq. exact Hmd5. }
  apply (recommendations_from_In details _
           {| mt_similarity := sr_similarity row; mt_distance := sr_distance row;
              mt_tool_md5 := sr_tool_md5 row; mt_mcp_tool := u;
              mt_tool_name := live_toolName u;
              mt_description := live_description u |}).
  apply in_flat_map. exists (SimilarTool_of row). split; [exact Hst|].
  cbn [SimilarTool_of st_tool_md5 st_similarity st_distance]. rewrite Hu.
  now left.
Qed.

Lemma partition_from_complete (known : list jsstring)
    (recs : list (RecommendationResult E)) (r : RecommendationResult E) :
  In r recs ->
  forall i,
    (exists t, In t (fst (partition_from E i known recs))
               /\ nt_md5 t = rec_tool_md5 r)
    \/ (exists t, In t (snd (partition_from E i known recs))
                  /\ kt_md5 t = rec_tool_md5 r).
Proof.
  induction recs as [|x rest IH]; intros Hin i; [destruct Hin|].
  simpl. destruct Hin as [-> | Hin].
  - destruct (partition_from E (S i) known rest) as [n k].
    destruct (has known (rec_tool_md5 r)); simpl.
    + right. eexists. split; [left; reflexivity | reflexivity].
    + left. eexists. split; [left; reflexivity | reflexivity].
  - specialize (IH Hin (S i)).
    destruct (partition_from E (S i) known rest) as [n k]. simpl in IH.
    destruct (has known (rec_tool_md5 x)); simpl;
      destruct IH as [[t [Ht H5]] | [t [Ht H5]]];
      [left | right | left | right]; exists t; (split; [|exact H5]); auto;
      now right.
Qed.

Lemma retrieve_from_complete (db : Database) (mcpClient : MCPClient E)
    (serverNames : option (list jsstring)) (known : list jsstring)
    (descriptions : list jsstring) :
  forall i n k,
    retrieve_from E db mcpClient serverNames known i descriptions
    = Returned (n, k) ->
    forall j d,
      nth_error descriptions j = Some d ->
      exists recs,
        recommendTools E db d mcpClient (TOOL_RETRIEVER_TOP_K E)
          (TOOL_RETRIEVER_THRESHOLD E) true serverNames = Returned recs
        /\ forall r, In r recs ->
             (exists q t, In q n /\ query_index q = i + j /\ In t (tools q)
                          /\ nt_md5 t = rec_tool_md5 r)
             \/ (exists q t, In q k /\ query_index q = i + j /\ In t (tools q)
                             /\ kt_md5 t = rec_tool_md5 r).
Proof.
  induction descriptions as [|d0 rest IH]; intros i n k H j d Hj.
  - destruct j; discriminate.
  - simpl in H.
    destruct (recommendTools E db d0 mcpClient _ _ true serverNames)
      as [recs0 | msg] eqn:Hrec; [|discriminate]. simpl in H.
    destruct (retrieve_from E db mcpClient serverNames known (S i) rest)
      as [[n' k'] | msg] eqn:Hrest; [|discriminate]. simpl in H.
    pose proof (fun r Hr => partition_from_complete known recs0 r Hr 0) as Hpart.
    cbv beta in Hpart.
    destruct (partition_from E 0 known recs0) as [nq kq]. simpl in *.
    injection H as <- <-.
    destruct j as [|j].
    + injection Hj as <-. exists recs0. split; [exact Hrec|].
      intros r Hr. rewrite Nat.add_0_r.
      destruct (Hpart r Hr) as [[t [Ht H5]] | [t [Ht H5]]].
      * left. destruct nq as [|t0 nq0]; [destruct Ht|].
        eexists. exists t. split; [left; reflexivity|]. now split.
      * right. destruct kq as [|t0 kq0]; [destruct Ht|].
        eexists. exists t. split; [left; reflexivity|]. now split.
    + destruct (IH (S i) n' k' Hrest j d Hj) as [recs [Hrecs Hall]].
      exists recs. split; [exact Hrecs|]. intros r Hr.
      replace (i + S j) with (S i + j) by lia.
      destruct (Hall r Hr) as [[q [t [Hq H]]] | [q [t [Hq H]]]].
      * left. exists q, t. split; [|exact H]. destruct nq; [exact Hq | now right].
      * right. exists q, t. split; [|exact H]. destruct kq; [exact Hq | now right].
Qed.

(** X28. A retrieval misses no live search hit: when it answers, every
    row of the search for the embedding of one of its descriptions, with
    the configured top-k, threshold and the server list of the call, whose
    identity is the identity of a live tool, is reported under the index of
    that description, as new or as known. *)
Theorem retriever_reports_every_hit (db : Database)
    (liveTools : list (MCPToolInfo E)) (random36 : jsstring)
    (descriptions : list jsstring) (sessionId : jsstring)
    (serverNames : option (list jsstring)) (db' : Database)
    (result : RetrieverResult E) (note : jsstring) (i : nat) (d : jsstring)
    (v : vector) (row : SearchResult) (t : MCPToolInfo E) :
  retriever E db (Returned liveTools) random36 descriptions sessionId serverNames
  = (db', RetrieverContent result note) ->
  nth_error descriptions i = Some d ->
  vectorizeString E d = Returned v ->
  In row (searchSimilarVectors E db v (TOOL_RETRIEVER_TOP_K E)
            (TOOL_RETRIEVER_THRESHOLD E) serverNames) ->
  In t liveTools ->
  live_md5 t = sr_tool_md5 row ->
  exists rank reportedName,
    In (i, rank, reportedName, sr_tool_md5 row) (reported result).
Proof.
  intros H Hd Hv Hrow Ht Hmd5.
  destruct (retriever_records E _ _ _ _ _ _ _ _ _ H) as [_ [Hret _]].
  destruct (retrieve_from_complete _ _ _ _ _ _ _ _ Hret i d Hd) as [recs [Hrecs Hall]].
  destruct (recommendTools_complete _ _ _ _ _ _ _ _ _ _ _ Hrecs Hv Hrow Ht Hmd5)
    as [r [Hr H5]].
  unfold reported.
  destruct (Hall r Hr) as [[q [x [Hq [Hi [Hx Hx5]]]]] | [q [x [Hq [Hi [Hx Hx5]]]]]].
  - exists (nt_rank x), (nt_tool_name x). apply in_or_app. left.
    apply in_flat_map. exists q. split; [exact Hq|].
    apply in_map_iff. exists x. split; [|exact Hx]. simpl in Hi. congruence.
  - exists (kt_rank x), (kt_tool_name x). apply in_or_app. right.
    apply in_flat_map. exists q. split; [exact Hq|].
    apply in_map_iff. exists x. split; [|exact Hx]. simpl in Hi. congruence.
Qed.

End RetrieverCompleteness.

(** X28 for the tool [aa__x] of the store of the servers [a] and [aa]. *)
Lemma retriever_reports_every_hit_witness :
  let E := Example.env Example.embed_const in
  exists db' result note rank reportedName,
    retriever E collision_db (Returned (collision_tools E))
      (str "0.4fzyo82mvyr") [str "tool x"] [] None
    = (db', RetrieverContent result note)
    /\ In (0, rank, reportedName, str "aa__xtool x of aa") (reported result).
Proof.
  intros E.
  assert (H : exists db' result note,
             retriever E collision_db (Returned (collision_tools E))
               (str "0.4fzyo82mvyr") [str "tool x"] [] None
             = (db', RetrieverContent result note))
    by (do 3 eexists; vm_compute; reflexivity).
  destruct H as [db' [result [note H]]].
  destruct (retriever_reports_every_hit E collision_db (collision_tools E)
              (str "0.4fzyo82mvyr") [str "tool x"] [] None db' result note
              0 (str "tool x") [1%float; 0%float]
              {| sr_id := 2; sr_tool_md5 := str "aa__xtool x of aa";
                 sr_model_name := str "m"; sr_tool_name := str "aa__x";
                 sr_description := Some (str "tool x of aa");
                 sr_distance := 0; sr_similarity := 1 |}
              (Example.tool E "aa__x" "tool x of aa") H eq_refl eq_refl)
    as [rank [reportedName Hin]].
  - vm_compute. right. left. reflexivity.
  - right. left. reflexivity.
  - reflexivity.
  - exists db', result, note, rank, reportedName. split; [exact H | exact Hin].
Defined.

(* ================================================================= *)
(** ** From the index to the search *)

Section IndexedSearchable.

Variable E : Env.

(** A save joins the vector it is given to a record with the identity
    and the model of the tool. *)
Lemma save_links (db : Database) (n d : jsstring) (v : vector) (m : jsstring) :
  let db' := fst (saveToolVector E db n d v m) in
  exists vte tm r,
    In vte (vec_tool_embeddings db') /\ In tm (tool_mapping db')
    /\ In r (tool_vectors db')
    /\ fst vte = fst tm /\ snd tm = tv_id r /\ snd vte = v
    /\ tv_tool_md5 r = generateToolMD5 (md5hex E) n d /\ tv_model_name r = m.
Proof.
  intros db'. subst db'.
  destruct (saved_record_In E db n d v m) as [r [Hr [Hid [Hmd5 [Hm _]]]]].
  exists ((vec_seq db + 1)%Z, v), ((vec_seq db + 1)%Z, tv_id r), r.
  rewrite Hid. unfold saveToolVector in *.
  destruct (getToolByMD5 db (generateToolMD5 (md5hex E) n d) m) as [row|];
    simpl in *; repeat split; auto; apply in_or_app; right; now left.
Qed.

(** A save into a consistent store keeps what is joined. *)
Lemma save_keeps_links (db : Database) (n d : jsstring) (v : vector)
    (m : jsstring) (v0 : vector) (md5 model : jsstring) :
  store_ok db ->
  (exists vte tm r,
      In vte (vec_tool_embeddings db) /\ In tm (tool_mapping db)
      /\ In r (tool_vectors db)
      /\ fst vte = fst tm /\ snd tm = tv_id r /\ snd vte = v0
      /\ tv_tool_md5 r = md5 /\ tv_model_name r = model) ->
  let db' := fst (saveToolVector E db n d v m) in
  exists vte tm r,
    In vte (vec_tool_embeddings db') /\ In tm (tool_mapping db')
    /\ In r (tool_vectors db')
    /\ fst vte = fst tm /\ snd tm = tv_id r /\ snd vte = v0
    /\ tv_tool_md5 r = md5 /\ tv_model_name r = model.
Proof.
  intros [_ [_ [_ [B2 _]]]] [vte [tm [r [Hv [Hm [Hr [Hf [Hs [Hv0 [H5 Hmod]]]]]]]]]] db'.
  subst db'.
  assert (Hkeep : In tm (filter (fun x => negb (fst x =? vec_seq db + 1)%Z)
                           (tool_mapping db))).
  { apply filter_In. split; [exact Hm|]. apply negb_true_iff, Z.eqb_neq.
    pose proof (B2 (fst vte) (in_map fst _ _ Hv)). lia. }
  unfold saveToolVector.
  destruct (getToolByMD5 db (generateToolMD5 (md5hex E) n d) m) as [row|]; simpl.
  - exists vte, tm, (update_tool (tv_id row) n d r).
    split; [apply in_or_app; now left|]. split; [apply in_or_app; now left|].
    split; [now apply in_map|].
    unfold update_tool. destruct (tv_id r =? tv_id row)%Z; simpl; auto 10.
  - exists vte, tm, r.
    split; [apply in_or_app; now left|]. split; [apply in_or_app; now left|].
    split; [apply in_or_app; now left|]. auto 10.
Qed.

Lemma batch_save_links (l : list ToolData) (m : jsstring) (td : ToolData) :
  In td l ->
  forall db,
    store_ok db ->
    let db' := fst (saveToolVectorsBatch E db l m) in
    exists vte tm r,
      In vte (vec_tool_embeddings db') /\ In tm (tool_mapping db')
      /\ In r (tool_vectors db')
      /\ fst vte = fst tm /\ snd tm = tv_id r /\ snd vte = td_vector td
      /\ tv_tool_md5 r
         = generateToolMD5 (md5hex E) (td_toolName td) (td_description td)
      /\ tv_model_name r = m.
Proof.
  assert (Hkeeps : forall l db v0 md5 model,
             store_ok db ->
             (exists vte tm r,
                 In vte (vec_tool_embeddings db) /\ In tm (tool_mapping db)
                 /\ In r (tool_vectors db)
                 /\ fst vte = fst tm /\ snd tm = tv_id r /\ snd vte = v0
                 /\ tv_tool_md5 r = md5 /\ tv_model_name r = model) ->
             exists vte tm r,
               In vte (vec_tool_embeddings (fst (saveToolVectorsBatch E db l m)))
               /\ In tm (tool_mapping (fst (saveToolVectorsBatch E db l m)))
               /\ In r (tool_vectors (fst (saveToolVectorsBatch E db l m)))
               /\ fst vte = fst tm /\ snd tm = tv_id r /\ snd vte = v0
               /\ tv_tool_md5 r = md5 /\ tv_model_name r = model).
  { induction l0 as [|t rest IH]; intros db v0 md5 model Hok H; [exact H|].
    rewrite batch_save_step. apply IH; [now apply save_ok|].
    now apply save_keeps_links. }
  induction l as [|t rest IH]; intros Hin db Hok db'; subst db';
    [destruct Hin|].
  rewrite batch_save_step. destruct Hin as [-> | Hin].
  - apply Hkeeps; [now apply save_ok | apply save_links].
  - apply IH; [exact Hin | now apply save_ok].
Qed.

(** X29. What the indexer indexes can be searched.  After a run over a
    consistent store, a named tool of the catalog that was not stored and
    whose text embeds has, for every query, a row in the join of the
    search with its identity, the indexed model and the distance of its
    embedding to the query; so an unfiltered search returns such a row
    whenever that similarity reaches the threshold, unless the result is
    full. *)
Theorem indexed_tools_are_searchable (db : Database)
    (liveTools : list (MCPToolInfo E)) (modelName : option jsstring)
    (run : IndexRun) (t : MCPToolInfo E) (v q : vector) :
  store_ok db ->
  indexMCPTools E db (Returned liveTools) modelName = Returned run ->
  In t liveTools ->
  live_toolName t <> [] ->
  getToolByMD5 db (live_md5 t) (defaultModelName E modelName) = None ->
  vectorizeString E (trim (live_toolName t ++ str " " ++ live_description t))
  = Returned v ->
  (exists row,
      In row (joined_rows E (ix_db run) q)
      /\ sr_tool_md5 row = live_md5 t
      /\ sr_model_name row = defaultModelName E modelName
      /\ sr_distance row = vec_distance_cosine E v q)
  /\ forall k threshold,
       PrimFloat.leb threshold (1 - vec_distance_cosine E v q)%float = true ->
       (exists row,
           In row (searchSimilarVectors E (ix_db run) q k threshold None)
           /\ sr_tool_md5 row = live_md5 t
           /\ sr_distance row = vec_distance_cosine E v q)
       \/ Z.of_nat (List.length
                      (searchSimilarVectors E (ix_db run) q k threshold None))
          = k.
Proof.
  intros Hok Hrun Ht Hn Hnew Hv.
  assert (Hrow : exists row,
             In row (joined_rows E (ix_db run) q)
             /\ sr_tool_md5 row = live_md5 t
             /\ sr_model_name row = defaultModelName E modelName
             /\ sr_distance row = vec_distance_cosine E v q).
  { rewrite (indexMCPTools_db E _ _ _ _ Hrun).
    set (model := defaultModelName E modelName) in *.
    set (todo := toolsToVectorize E db model liveTools).
    destruct (batch_save_links (snd (fst (vectorize_all E db model todo))) model
                {| td_toolName := live_toolName t;
                   td_description := live_description t; td_vector := v |})
      with (db := fst (fst (vectorize_all E db model todo)))
      as [vte [tm [r [Hvte [Htm [Hr [Hf [Hs [Hvec [H5 Hmod]]]]]]]]]].
    - apply (vectorize_all_queues E model todo db
               {| tv_toolName := live_toolName t;
                  tv_toolDescription := live_description t |} v); [|exact Hv].
      apply toolsToVectorize_In. now exists t.
    - now apply vectorize_all_ok.
    - exists (joined_row E q vte r). split.
      + apply joined_rows_In. exists vte, tm, r. repeat split; auto.
      + simpl in *. rewrite Hvec. repeat split; auto. }
  split; [exact Hrow|]. intros k threshold Hth.
  destruct Hrow as [row [Hin [H5 [_ Hd]]]].
  assert (Hsim : PrimFloat.leb threshold (sr_similarity row) = true).
  { apply joined_rows_In in Hin as [vte [tm [r [_ [_ [_ [_ [_ ->]]]]]]]].
    simpl in *. now rewrite Hd. }
  destruct (search_complete E (ix_db run) q k threshold row Hin Hsim)
    as [Hfound | Hfull]; [left | now right].
  exists row. now repeat split.
Qed.

End IndexedSearchable.

(** X29: the tool [srv__a], indexed into an empty store. *)
Lemma indexed_tools_are_searchable_witness :
  let E := Example.env Example.embed_const in
  exists run row,
    indexMCPTools E empty_db (Returned (twin_tools E)) None = Returned run
    /\ In row (joined_rows E (ix_db run) [1%float; 0%float])
    /\ sr_tool_md5 row = str "srv__afirst".
Proof.
  intros E.
  assert (H : exists run,
             indexMCPTools E empty_db (Returned (twin_tools E)) None = Returned run)
    by (eexists; vm_compute; reflexivity).
  destruct H as [run H].
  destruct (indexed_tools_are_searchable E empty_db (twin_tools E) None run
              (Example.tool E "srv__a" "first") [1%float; 0%float]
              [1%float; 0%float] store_ok_empty H)
    as [[row [Hin [H5 _]]] _].
  - left. reflexivity.
  - discriminate.
  - reflexivity.
  - reflexivity.
  - exists run, row. split; [exact H|]. split; [exact Hin | exact H5].
Defined.

(* ================================================================= *)
(** ** Sessions do not interfere *)

Section SessionIsolation.

Variable E : Env.

Lemma retrieve_from_same_tools (db db' : Database) (mcpClient : MCPClient E)
    (serverNames : option (list jsstring)) (known : list jsstring)
    (descriptions : list jsstring) :
  same_tools db db' ->
  forall i,
    retrieve_from E db' mcpClient serverNames known i descriptions
    = retrieve_from E db mcpClient serverNames known i descriptions.
Proof.
  intros Hsame. induction descriptions as [|d rest IH]; intros i; [reflexivity|].
  simpl. rewrite (IH (S i)).
  now rewrite (recommendTools_same_tools E db db' d mcpClient _ _ true
                 serverNames Hsame).
Qed.

(** The answer of a retrieval depends on the store through the tool
    tables, the server table and the history of the session it resolves
    to. *)
Lemma retriever_answer_depends (db db' : Database) (mcpClient : MCPClient E)
    (random36 : jsstring) (descriptions : list jsstring) (sessionId : jsstring)
    (serverNames : option (list jsstring)) :
  same_tools db db' ->
  mcp_servers db' = mcp_servers db ->
  getSessionHistory db' sessionId = getSessionHistory db sessionId ->
  getSessionHistory db' (generateSessionId random36)
  = getSessionHistory db (generateSessionId random36) ->
  snd (retriever E db' mcpClient random36 descriptions sessionId serverNames)
  = snd (retriever E db mcpClient random36 descriptions sessionId serverNames).
Proof.
  intros Hsame Hservers Hsid Hgen. unfold retriever.
  assert (Hdesc : getEnhancedServerDescription E db' mcpClient
                  = getEnhancedServerDescription E db mcpClient).
  { unfold getEnhancedServerDescription, enabled_servers. now rewrite Hservers. }
  assert (Hres : resolve_session db' random36 sessionId
                 = resolve_session db random36 sessionId).
  { unfold resolve_session. destruct sessionId; [reflexivity|]. now rewrite Hsid. }
  rewrite Hdesc, Hres.
  assert (Hfinal : getSessionHistory db' (fst (resolve_session db random36 sessionId))
                   = getSessionHistory db (fst (resolve_session db random36 sessionId))).
  { unfold resolve_session.
    destruct sessionId as [|c s]; [exact Hgen|].
    destruct (getSessionHistory db (c :: s)) eqn:Hh; [exact Hgen|].
    simpl. rewrite Hh. exact Hsid. }
  destruct (resolve_session db random36 sessionId) as [final first].
  simpl in Hfinal. rewrite Hfinal.
  rewrite (retrieve_from_same_tools db db' mcpClient serverNames _ descriptions
             Hsame 0).
  destruct (retrieve_from E db mcpClient serverNames _ 0 descriptions)
    as [[n k] | msg]; reflexivity.
Qed.

(** X30. Sessions do not interfere.  After any retrieval, a retrieval
    for another session answers exactly as it would have answered before
    it, whatever the two calls ask for: it is enough that the session id of
    the second call, and the id that would be generated for it, differ
    from the session the first call worked with. *)
Theorem sessions_do_not_interfere (db : Database)
    (client1 client2 : MCPClient E) (random1 random2 : jsstring)
    (descriptions1 descriptions2 : list jsstring) (session1 session2 : jsstring)
    (servers1 servers2 : option (list jsstring)) :
  let first := retriever E db client1 random1 descriptions1 session1 servers1 in
  session2 <> fst (resolve_session db random1 session1) ->
  generateSessionId random2 <> fst (resolve_session db random1 session1) ->
  snd (retriever E (fst first) client2 random2 descriptions2 session2 servers2)
  = snd (retriever E db client2 random2 descriptions2 session2 servers2).
Proof.
  intros first Hsession Hgenerated.
  destruct (retriever_store E db client1 random1 descriptions1 session1 servers1)
    as [l Hl].
  fold first in Hl.
  destruct (batch_appends E (fst (resolve_session db random1 session1)) l db)
    as [Hservers [rows [Hrows Hsid]]].
  destruct Hsid as [Hsid _].
  assert (Hhist : forall sid, sid <> fst (resolve_session db random1 session1) ->
                    getSessionHistory (fst first) sid = getSessionHistory db sid).
  { intros sid Hneq. unfold getSessionHistory. rewrite Hl, Hrows, filter_app.
    rewrite (other_session_rows _ sid rows Hneq Hsid). now rewrite app_nil_r. }
  apply retriever_answer_depends.
  - rewrite Hl. apply batch_same_tools.
  - now rewrite Hl.
  - now apply Hhist.
  - now apply Hhist.
Qed.

End SessionIsolation.

(** X30: a retrieval of the session [aaaaaa] after one of a fresh
    session. *)
Lemma sessions_do_not_interfere_witness :
  let E := Example.env Example.embed_const in
  let first :=
    retriever E collision_db (Returned (collision_tools E))
      (str "0.4fzyo82mvyr") [str "tool x"] [] None in
  snd (retriever E (fst first) (Returned (collision_tools E))
         (str "0.9k2j5h7d1aa") [str "tool x"] (str "aaaaaa") (Some [str "a"]))
  = snd (retriever E collision_db (Returned (collision_tools E))
           (str "0.9k2j5h7d1aa") [str "tool x"] (str "aaaaaa") (Some [str "a"])).
Proof.
  intros E first.
  apply (sessions_do_not_interfere E collision_db (Returned (collision_tools E))
           (Returned (collision_tools E)) (str "0.4fzyo82mvyr")
           (str "0.9k2j5h7d1aa") [str "tool x"] [str "tool x"] []
           (str "aaaaaa") None (Some [str "a"])).
  - vm_compute. discriminate.
  - vm_compute. discriminate.
Defined.
